(** * User accounts, tokens and the video-link feed

    A shallow embedding of the account API: the Sequelize [User] model
    with its hooks (src/model/user.model.js), the authentication
    controller and middleware (auth.controller.js, auth.middleware.js,
    auth.route.js), the profile / content controller
    (src/controllers/user.controller.js) with its routes, the CORS
    middleware and utility, the error middleware, the upload
    middleware and the column migration.

    Conventions.
    - Every handler is a function from the server state (the [users]
      table and the in-memory [tokenBlacklist]) and the request to a
      response and the next state.  [Date.now()] and the bcrypt salt are
      explicit arguments.
    - JSON web tokens are symbolic: a token is either a string that is
      not a signed token at all, or a payload together with the key that
      signed it.  Verification succeeds exactly for the signing key.
    - The store is assumed reachable: the 500/503 paths of a failing
      database connection are not represented.  The [updated_at] column
      maintained by Sequelize is not represented either.
    - The key column [users.id] is a uuid, and a query for a key that
      is none throws.  [refreshToken] and [getProfilePicture] represent
      this, with PostgreSQL's reading of a text as a uuid as the
      parameter [is_uuid]; the other handlers are given for keys that
      are uuids.
    - A number in the query string is given by what Joi's conversion
      and what [parseInt] read in it, which differ on some texts.
    - Timers are not run: a state holds the blacklist as the requests
      left it, before any removal that [signOut] scheduled. *)

From Stdlib Require Import ZArith List String Ascii Bool Lia DecimalString.
From Stdlib Require Import Permutation Sorted.
From Stdlib Require DecimalPos DecimalZ.
Import ListNotations.

Local Open Scope string_scope.
Local Open Scope list_scope.
Local Open Scope Z_scope.

(** ** JavaScript odds and ends *)

(** Truthiness of a string value that may be [undefined]. *)
Definition truthy (s : option string) : bool :=
  match s with
  | None => false
  | Some s => negb (String.eqb s "")
  end.

(** [a || b] on strings, [a] possibly undefined. *)
Definition or_else (a : option string) (b : string) : string :=
  if truthy a then match a with Some s => s | None => b end else b.

(** [Array.prototype.slice(start, end)], with the relative indices of
    the language definition. *)
Definition slice {A : Type} (l : list A) (startIndex endIndex : Z) : list A :=
  let len := Z.of_nat (List.length l) in
  let k := if startIndex <? 0 then Z.max (len + startIndex) 0
           else Z.min startIndex len in
  let final := if endIndex <? 0 then Z.max (len + endIndex) 0
               else Z.min endIndex len in
  firstn (Z.to_nat (final - k)) (skipn (Z.to_nat k) l).

(** [Array.prototype.sort(cmp)]: a stable sort; [cmp a b <= 0] keeps
    [a] before [b]. *)
Section Sort.
Context {A : Type} (cmp : A -> A -> Z).

Fixpoint insert_sorted (x : A) (l : list A) : list A :=
  match l with
  | [] => [x]
  | y :: t => if cmp x y <=? 0 then x :: y :: t
              else y :: insert_sorted x t
  end.

Definition sort (l : list A) : list A := fold_right insert_sorted [] l.
End Sort.

(** [Math.ceil(a / b)] for [0 <= a] and [0 < b]. *)
Definition ceil_div (a b : Z) : Z := (a + b - 1) / b.

(** ** jsonwebtoken *)

Module Jwt.

Inductive ErrorName := TokenExpiredError | JsonWebTokenError.

Record Payload := mkPayload {
  userId  : string;       (* a payload without the key is not represented *)
  version : option Z;     (* only refresh tokens carry it *)
  iat     : Z;            (* seconds *)
  exp     : Z             (* seconds *)
}.

Inductive Token :=
| Malformed (s : string)              (* any string that is no JWT *)
| Signed (key : string) (p : Payload).

Definition Payload_eq_dec (p q : Payload) : {p = q} + {p <> q}.
Proof.
  decide equality; try apply Z.eq_dec; try apply string_dec.
  decide equality; apply Z.eq_dec.
Defined.

Definition Token_eq_dec (t u : Token) : {t = u} + {t <> u}.
Proof.
  decide equality; try apply string_dec; apply Payload_eq_dec.
Defined.

Definition eqb (t u : Token) : bool :=
  if Token_eq_dec t u then true else false.

(** [!token] is true for the empty string only. *)
Definition falsy (t : Token) : bool :=
  match t with
  | Malformed s => String.eqb s ""
  | Signed _ _ => false
  end.

(** [jwt.sign(payload, secret, { expiresIn })] at clock [now] (ms). *)
Definition sign (uid : string) (ver : option Z) (secret : string)
           (expiresIn : Z) (now : Z) : Token :=
  Signed secret (mkPayload uid ver (now / 1000) (now / 1000 + expiresIn)).

(** [jwt.verify(token, secret)] at clock [now] (ms): the decoded
    payload, or the name of the error thrown. *)
Definition verify (t : Token) (secret : option string) (now : Z)
  : ErrorName + Payload :=
  match t with
  | Malformed _ => inl JsonWebTokenError
  | Signed key p =>
      match secret with
      | None => inl JsonWebTokenError
      | Some s =>
          if String.eqb s "" then inl JsonWebTokenError
          else if String.eqb key s then
            if exp p <=? now / 1000 then inl TokenExpiredError
            else inr p
          else inl JsonWebTokenError
      end
  end.

End Jwt.

(** The literal both [jwt.sign] calls and the controller's
    [jwt.verify] calls are given. *)
Definition CONTROLLER_SECRET : string :=
  "04058abefa84d9a7109e55111830e7e1d01474d8d10e667b8d1b9ba38b55447c".

Definition ONE_DAY : Z := 86400.
Definition SEVEN_DAYS : Z := 604800.

(** ** The data model *)

Module Link.
(** One element of the [youtubeLinks] JSONB array.  Fields are
    optional because the feed guards against entries that lack them. *)
Record t := mk {
  id      : option string;
  url     : option string;
  title   : option string;
  addedAt : option Z        (* the ISO date, as epoch milliseconds *)
}.
End Link.

Module User.
Record t := mk {
  id             : string;
  name           : string;
  email          : string;
  password       : string;
  refreshToken   : option Jwt.Token;
  tokenVersion   : Z;
  bio            : option string;
  location       : option string;
  profilePicture : option string;
  youtubeLinks   : option (list Link.t);
  createdAt      : Z
}.

Definition set_password (v : string) (u : t) : t :=
  mk (id u) (name u) (email u) v (refreshToken u) (tokenVersion u)
     (bio u) (location u) (profilePicture u) (youtubeLinks u) (createdAt u).

Definition set_refreshToken (v : option Jwt.Token) (u : t) : t :=
  mk (id u) (name u) (email u) (password u) v (tokenVersion u)
     (bio u) (location u) (profilePicture u) (youtubeLinks u) (createdAt u).

Definition set_tokenVersion (v : Z) (u : t) : t :=
  mk (id u) (name u) (email u) (password u) (refreshToken u) v
     (bio u) (location u) (profilePicture u) (youtubeLinks u) (createdAt u).

Definition set_youtubeLinks (v : option (list Link.t)) (u : t) : t :=
  mk (id u) (name u) (email u) (password u) (refreshToken u)
     (tokenVersion u) (bio u) (location u) (profilePicture u) v
     (createdAt u).

(** The object literal [updateProfile] hands to [user.update]. *)
Record UpdateData := mkUpdate {
  upd_name           : string;
  upd_email          : string;
  upd_bio            : option string;
  upd_location       : option string;
  upd_profilePicture : option string   (* [None]: key not present *)
}.

Definition set_profile (d : UpdateData) (u : t) : t :=
  mk (id u) (upd_name d) (upd_email d) (password u) (refreshToken u)
     (tokenVersion u) (upd_bio d) (upd_location d)
     (match upd_profilePicture d with
      | Some p => Some p
      | None => profilePicture u
      end)
     (youtubeLinks u) (createdAt u).
End User.

(** The [users] table, in insertion order; [id] is the primary key. *)
Definition Table := list User.t.

Definition findByPk (pk : string) (tb : Table) : option User.t :=
  find (fun u => String.eqb (User.id u) pk) tb.

(** [User.findOne({ where: { email } })]. *)
Definition findOne_email (e : string) (tb : Table) : option User.t :=
  find (fun u => String.eqb (User.email u) e) tb.

(** The UPDATE statement of a saved instance: the row with its key is
    replaced. *)
Definition write_row (u : User.t) (tb : Table) : Table :=
  map (fun r => if String.eqb (User.id r) (User.id u) then u else r) tb.

(** A model instance: the values last read from or written to the
    store, and the current ones.  [changed(k)] compares the two. *)
Record Instance := mkInstance {
  previous : User.t;
  current  : User.t
}.

Definition loaded (u : User.t) : Instance := mkInstance u u.

Definition changed_password (i : Instance) : bool :=
  negb (String.eqb (User.password (current i)) (User.password (previous i))).

Section Hooks.
(** bcryptjs: [hash(password, salt)]. *)
Variable bcrypt_hash : string -> string -> string.

(** hooks.beforeCreate *)
Definition beforeCreate (salt : string) (u : User.t) : User.t :=
  if negb (String.eqb (User.password u) "")
  then User.set_password (bcrypt_hash (User.password u) salt) u
  else u.

(** hooks.beforeUpdate *)
Definition beforeUpdate (salt : string) (i : Instance) : Instance :=
  if changed_password i then
    let u1 := User.set_password
                (bcrypt_hash (User.password (current i)) salt) (current i) in
    let u2 := User.set_tokenVersion (User.tokenVersion u1 + 1) u1 in
    mkInstance (previous i) u2
  else i.

(** [instance.save()] on a persisted instance: the hook runs, the row
    is written, and the instance has no pending change left. *)
Definition save (salt : string) (i : Instance) (tb : Table)
  : Instance * Table :=
  let i' := beforeUpdate salt i in
  (loaded (current i'), write_row (current i') tb).

(** [User.create({ name, email, password })]: defaults are filled in,
    the hook hashes the password, the row is inserted.  [uuid] and
    [now] are the generated key and the creation time. *)
Definition create (salt uuid : string) (now : Z)
           (n e p : string) (tb : Table) : Instance * Table :=
  let u := beforeCreate salt
             (User.mk uuid n e p None 0 None None None (Some []) now) in
  (loaded u, tb ++ [u]).
End Hooks.

(** ** Joi schemas (userValidation) *)

Module Joi.

(** [error.details[0]]: the offending key and Joi's error code.  The
    response message is a function of the two. *)
Record Error := mkError { key : string; code : string }.

Fixpoint first_error (checks : list (option Error)) : option Error :=
  match checks with
  | [] => None
  | Some e :: _ => Some e
  | None :: rest => first_error rest
  end.

(** A [Joi.string()] key with optional [min], [max] and one further
    rule ([email] or [pattern]), in the order the schema lists them. *)
Definition string_key (k : string) (required allow_empty : bool)
           (lo hi : option nat) (rule : option (string * (string -> bool)))
           (v : option string) : option Error :=
  match v with
  | None => if required then Some (mkError k "any.required") else None
  | Some s =>
      if String.eqb s "" then
        if allow_empty then None else Some (mkError k "string.empty")
      else if match lo with
              | Some n => Nat.ltb (String.length s) n
              | None => false
              end
      then Some (mkError k "string.min")
      else if match hi with
              | Some n => Nat.ltb n (String.length s)
              | None => false
              end
      then Some (mkError k "string.max")
      else match rule with
           | Some (c, ok) => if ok s then None else Some (mkError k c)
           | None => None
           end
  end.

(** Keys the schema does not declare are rejected. *)
Definition no_unknown (keys : list string) : option Error :=
  match keys with
  | [] => None
  | k :: _ => Some (mkError k "object.unknown")
  end.

(** [Number.MAX_SAFE_INTEGER] *)
Definition MAX_SAFE_INTEGER : Z := 9007199254740991.

Definition unsafe (z : Z) : bool :=
  (z <? - MAX_SAFE_INTEGER) || (MAX_SAFE_INTEGER <? z).

(** What Joi's number conversion makes of a text: an error of its own
    ("number.base" for a text that is no number, "number.infinity",
    "number.unsafe"), a number that is not an integer, or an
    integer. *)
Inductive Number :=
| NumberError (code : string)
| Fraction
| Integer (z : Z).

(** A query-string value that the handlers read as a number.  The
    schema reads it with Joi's conversion and the handlers read it
    again with [parseInt]; the two are libraries and do not agree on
    every text.
    - [QAbsent]: the key is not there.
    - [QInt z]: the decimal numeral of [z], as in [?page=12].  Both
      read [z] in it; beyond the safe integers Joi answers
      "number.unsafe" (and [parseInt] returns the nearest double,
      which the handlers that validate never get to use).
    - [QNotNumber]: a text in which neither reads a number.
    - [QText n p]: any other value, given by what Joi makes of it and
      by what [parseInt] returns ([None] for NaN).  [?limit=5e1] is
      [QText (Integer 50) (Some 5)], [?limit=100e-1] is
      [QText (Integer 10) (Some 100)], [?page=2.5] is
      [QText Fraction (Some 2)] and [?page=12abc] is
      [QText (NumberError "number.base") (Some 12)]. *)
Inductive QueryNum :=
| QAbsent
| QInt (z : Z)
| QNotNumber
| QText (joi : Number) (parsed : option Z).

(** Joi's reading of a value that is there. *)
Definition number (v : QueryNum) : option Number :=
  match v with
  | QAbsent => None
  | QInt z => Some (if unsafe z then NumberError "number.unsafe"
                    else Integer z)
  | QNotNumber => Some (NumberError "number.base")
  | QText n _ => Some n
  end.

(** [parseInt(v)], [None] for NaN. *)
Definition parseInt (v : QueryNum) : option Z :=
  match v with
  | QAbsent | QNotNumber => None
  | QInt z => Some z
  | QText _ p => p
  end.

(** [Joi.number().integer().min(lo).max(hi)]: the conversion, then the
    rules in the order the schema lists them. *)
Definition integer_key (k : string) (lo : Z) (hi : option Z)
           (v : QueryNum) : option Error :=
  match number v with
  | None => None
  | Some (NumberError c) => Some (mkError k c)
  | Some Fraction => Some (mkError k "number.integer")
  | Some (Integer z) =>
      if unsafe z then Some (mkError k "number.unsafe")
      else if z <? lo then Some (mkError k "number.min")
      else match hi with
           | Some h => if h <? z then Some (mkError k "number.max")
                       else None
           | None => None
           end
  end.

(** [parseInt(v) || dflt] *)
Definition parseInt_or (v : QueryNum) (dflt : Z) : Z :=
  match parseInt v with
  | Some z => if z =? 0 then dflt else z
  | None => dflt
  end.

End Joi.

(** What is left of [s] after the prefix [p]. *)
Definition strip_prefix (p s : string) : option string :=
  if String.prefix p s
  then Some (String.substring (String.length p)
                              (String.length s - String.length p) s)
  else None.

Definition strip_optional (p s : string) : string :=
  match strip_prefix p s with
  | Some r => r
  | None => s
  end.

Fixpoint no_line_terminator (s : string) : bool :=
  match s with
  | EmptyString => true
  | String c r =>
      negb (Ascii.eqb c "010"%char) && negb (Ascii.eqb c "013"%char)
      && no_line_terminator r
  end.

(** [/^(https?:\/\/)?(www\.)?(youtube\.com|youtu\.be)\/.*$/], on ASCII
    strings.  No alternative of one group is a prefix of what the next
    groups accept, so the match never backtracks. *)
Definition youtube_pattern (s : string) : bool :=
  let s1 := match strip_prefix "https://" s with
            | Some r => r
            | None => strip_optional "http://" s
            end in
  let s2 := strip_optional "www." s1 in
  match strip_prefix "youtube.com/" s2, strip_prefix "youtu.be/" s2 with
  | Some r, _ => no_line_terminator r
  | None, Some r => no_line_terminator r
  | None, None => false
  end.

(** ** Responses *)

Inductive Json :=
| JNull
| JNum (z : Z)
| JStr (s : string)
| JToken (t : Jwt.Token)
| JLinks (l : list Link.t).

Definition JsonObject := list (string * Json).

Definition has_key (k : string) (o : JsonObject) : bool :=
  existsb (fun kv => String.eqb (fst kv) k) o.

(** [delete o[k]] *)
Definition delete (k : string) (o : JsonObject) : JsonObject :=
  filter (fun kv => negb (String.eqb (fst kv) k)) o.

(** [attributes: { exclude: keys }] *)
Definition exclude (keys : list string) (o : JsonObject) : JsonObject :=
  filter (fun kv => negb (existsb (String.eqb (fst kv)) keys)) o.

(** [attributes: keys] *)
Definition only (keys : list string) (o : JsonObject) : JsonObject :=
  filter (fun kv => existsb (String.eqb (fst kv)) keys) o.

Definition json_string (o : option string) : Json :=
  match o with Some s => JStr s | None => JNull end.

(** [user.toJSON()] for an instance holding every attribute. *)
Definition toJSON (u : User.t) : JsonObject :=
  [ ("id", JStr (User.id u));
    ("name", JStr (User.name u));
    ("email", JStr (User.email u));
    ("password", JStr (User.password u));
    ("refreshToken", match User.refreshToken u with
                     | Some t => JToken t
                     | None => JNull
                     end);
    ("tokenVersion", JNum (User.tokenVersion u));
    ("bio", json_string (User.bio u));
    ("location", json_string (User.location u));
    ("profilePicture", json_string (User.profilePicture u));
    ("youtubeLinks", match User.youtubeLinks u with
                     | Some l => JLinks l
                     | None => JNull
                     end);
    ("createdAt", JNum (User.createdAt u)) ].

Definition profilePictureUrl (uid : string) : string :=
  ("/api/v1/users/" ++ uid ++ "/profile-picture")%string.

Definition SENSITIVE : list string :=
  ["password"; "refreshToken"; "tokenVersion"].

(** What every profile handler returns: the row read back without the
    sensitive attributes, plus the picture URL. *)
Definition public_user (u : User.t) : JsonObject :=
  exclude SENSITIVE (toJSON u)
    ++ [("profilePictureUrl", JStr (profilePictureUrl (User.id u)))].

Record Pagination := mkPagination {
  total           : Z;
  limit           : Z;
  totalPages      : Z;
  currentPage     : Z;
  hasNextPage     : bool;
  hasPreviousPage : bool;
  nextPage        : option Z;
  previousPage    : option Z
}.

Record ContentItem := mkContent {
  c_id      : string;
  c_title   : string;
  c_url     : string;
  c_addedAt : Z;
  c_user    : JsonObject
}.

Inductive Body :=
| Message (success : bool) (message : string)
| Invalid (e : Joi.Error)
| AuthData (accessToken refreshToken : Jwt.Token) (user : JsonObject)
| AccessData (accessToken : Jwt.Token)
| UserData (data : JsonObject)
| UsersPage (data : list JsonObject) (pagination : Pagination)
| LinkAdded (newLink : Link.t) (user : JsonObject)
| ContentPage (data : list ContentItem) (pagination : Pagination).

Record Response := mkResponse { status : Z; body : Body }.

Definition fail (code : Z) (msg : string) : Response :=
  mkResponse code (Message false msg).

(** ** Server state and environment *)

Record State := mkState {
  users          : Table;
  tokenBlacklist : list Jwt.Token
}.

Definition with_users (tb : Table) (st : State) : State :=
  mkState tb (tokenBlacklist st).

(** [process.env] *)
Record Env := mkEnv { JWT_SECRET : option string }.

(** [tokenBlacklist.has(token)] *)
Definition isTokenBlacklisted (st : State) (t : Jwt.Token) : bool :=
  existsb (Jwt.eqb t) (tokenBlacklist st).

(** [tokenBlacklist.add(token)].  The entry stays until the timer of
    [signOut] deletes it ([signOut_timeout] below); a state stands for
    the store and the blacklist while that has not happened. *)
Definition blacklist_add (t : Jwt.Token) (st : State) : State :=
  if isTokenBlacklisted st t then st
  else mkState (users st) (tokenBlacklist st ++ [t]).

(** The [Authorization] header, by what the handlers do with it. *)
Inductive Authorization :=
| NoHeader                  (* absent or empty *)
| NotBearer                 (* does not start with "Bearer" *)
| BearerUnsplit             (* starts with "Bearer", contains no space *)
| Bearer (t : Jwt.Token).   (* [split(" ")[1].trim()] *)

(** [extractToken] and the same lines of [authorize]; [None] when
    [trim] is called on [undefined]. *)
Definition extractToken (a : Authorization) : option (option Jwt.Token) :=
  match a with
  | NoHeader | NotBearer => Some None
  | BearerUnsplit => None
  | Bearer t => Some (Some t)
  end.

(** ** Request bodies *)

Record RegisterBody := mkRegister {
  reg_name     : option string;
  reg_email    : option string;
  reg_password : option string;
  reg_unknown  : list string       (* any other keys of the body *)
}.

Record LoginBody := mkLogin {
  login_email    : option string;
  login_password : option string;
  login_unknown  : list string
}.

Record ProfileBody := mkProfile {
  pb_name     : option string;
  pb_email    : option string;
  pb_bio      : option string;
  pb_location : option string;
  pb_unknown  : list string
}.

Record LinkBody := mkLinkBody {
  lb_youtubeUrl : option string;
  lb_title      : option string;
  lb_unknown    : list string
}.

Record ContentQuery := mkQuery {
  q_page    : Joi.QueryNum;
  q_limit   : Joi.QueryNum;
  q_sortBy  : option string;
  q_unknown : list string
}.

Section Server.

(** bcryptjs and Joi's e-mail rule are libraries. *)
Variable bcrypt_hash : string -> string -> string.
Variable bcrypt_compare : string -> string -> bool.
Variable joi_email : string -> bool.

(** Whether PostgreSQL reads a text as a uuid, the type of the column
    [users.id].  A query for a key that is no uuid throws. *)
Variable is_uuid : string -> bool.

(** *** userValidation *)

Definition validate_register (b : RegisterBody) : option Joi.Error :=
  Joi.first_error
    [ Joi.string_key "name" true false (Some 3%nat) (Some 50%nat) None
                     (reg_name b);
      Joi.string_key "email" true false None None
                     (Some ("string.email", joi_email)) (reg_email b);
      Joi.string_key "password" true false (Some 8%nat) None None
                     (reg_password b);
      Joi.no_unknown (reg_unknown b) ].

Definition validate_login (b : LoginBody) : option Joi.Error :=
  Joi.first_error
    [ Joi.string_key "email" true false None None
                     (Some ("string.email", joi_email)) (login_email b);
      Joi.string_key "password" true false None None None
                     (login_password b);
      Joi.no_unknown (login_unknown b) ].

Definition validate_updateProfile (b : ProfileBody) : option Joi.Error :=
  Joi.first_error
    [ Joi.string_key "name" false false (Some 3%nat) (Some 50%nat) None
                     (pb_name b);
      Joi.string_key "email" false false None None
                     (Some ("string.email", joi_email)) (pb_email b);
      Joi.string_key "bio" false true None None None (pb_bio b);
      Joi.string_key "location" false true None (Some 100%nat) None
                     (pb_location b);
      Joi.no_unknown (pb_unknown b) ].

Definition validate_addYoutubeLink (b : LinkBody) : option Joi.Error :=
  Joi.first_error
    [ Joi.string_key "youtubeUrl" true false None None
                     (Some ("string.pattern.base", youtube_pattern))
                     (lb_youtubeUrl b);
      Joi.string_key "title" true false None (Some 100%nat) None
                     (lb_title b);
      Joi.no_unknown (lb_unknown b) ].

Definition validate_getAllContent (q : ContentQuery) : option Joi.Error :=
  Joi.first_error
    [ Joi.integer_key "page" 1 None (q_page q);
      Joi.integer_key "limit" 1 (Some 50) (q_limit q);
      match q_sortBy q with
      | None => None
      | Some s =>
          if existsb (String.eqb s) ["newest"; "oldest"; "popular"]
          then None else Some (Joi.mkError "sortBy" "any.only")
      end;
      Joi.no_unknown (q_unknown q) ].

(** *** auth.controller.js *)

Definition generateTokens (salt : string) (now : Z) (user : Instance)
           (tb : Table) : Jwt.Token * Jwt.Token * Instance * Table :=
  let accessToken :=
    Jwt.sign (User.id (current user)) None CONTROLLER_SECRET ONE_DAY now in
  let refreshToken :=
    Jwt.sign (User.id (current user))
             (Some (User.tokenVersion (current user)))
             CONTROLLER_SECRET SEVEN_DAYS now in
  let user1 :=
    mkInstance (previous user)
               (User.set_refreshToken (Some refreshToken) (current user)) in
  let '(user2, tb') := save bcrypt_hash salt user1 tb in
  (accessToken, refreshToken, user2, tb').

Definition signUp (salt uuid : string) (now : Z) (b : RegisterBody)
           (st : State) : Response * State :=
  match validate_register b with
  | Some e => (mkResponse 400 (Invalid e), st)
  | None =>
      match reg_name b, reg_email b, reg_password b with
      | Some name, Some email, Some password =>
          match findOne_email email (users st) with
          | Some _ => (fail 409 "User already exists", st)
          | None =>
              let '(newUser, tb1) :=
                create bcrypt_hash salt uuid now name email password
                       (users st) in
              let '(accessToken, refreshToken, newUser', tb2) :=
                generateTokens salt now newUser tb1 in
              let userWithoutPassword :=
                delete "refreshToken"
                       (delete "password" (toJSON (current newUser'))) in
              (mkResponse 201
                 (AuthData accessToken refreshToken userWithoutPassword),
               with_users tb2 st)
          end
      | _, _, _ =>            (* not reached: the schema requires them *)
          (mkResponse 400 (Invalid (Joi.mkError "" "any.required")), st)
      end
  end.

Definition signIn (salt : string) (now : Z) (b : LoginBody) (st : State)
  : Response * State :=
  match validate_login b with
  | Some e => (mkResponse 400 (Invalid e), st)
  | None =>
      match login_email b, login_password b with
      | Some email, Some password =>
          match findOne_email email (users st) with
          | None => (fail 404 "User not found", st)
          | Some row =>
              if negb (bcrypt_compare password (User.password row))
              then (fail 401 "Invalid password", st)
              else
                let '(accessToken, refreshToken, user', tb) :=
                  generateTokens salt now (loaded row) (users st) in
                let userWithoutPassword :=
                  delete "refreshToken"
                         (delete "password" (toJSON (current user'))) in
                (mkResponse 200
                   (AuthData accessToken refreshToken userWithoutPassword),
                 with_users tb st)
          end
      | _, _ =>               (* not reached: the schema requires them *)
          (mkResponse 400 (Invalid (Joi.mkError "" "any.required")), st)
      end
  end.

(** [refreshToken]: the body's [refreshToken] key, when present.  The
    key of a stored row is a uuid, the column being one; for a key
    without a row the query returns null when the key is a uuid and
    throws when it is not, and the outer [catch] answers 500. *)
Definition refreshToken (now : Z) (presented : option Jwt.Token)
           (st : State) : Response * State :=
  match presented with
  | None => (fail 400 "Refresh token is required", st)
  | Some token =>
      if Jwt.falsy token then (fail 400 "Refresh token is required", st)
      else
        match Jwt.verify token (Some CONTROLLER_SECRET) now with
        | inl _ => (fail 401 "Invalid or expired refresh token", st)
        | inr decoded =>
            match findByPk (Jwt.userId decoded) (users st) with
            | None =>
                if is_uuid (Jwt.userId decoded)
                then (fail 401 "Invalid refresh token", st)
                else (fail 500 "Failed to refresh token", st)
            | Some user =>
                if negb (match User.refreshToken user with
                         | Some stored => Jwt.eqb stored token
                         | None => false
                         end)
                then (fail 401 "Invalid refresh token", st)
                else if negb (match Jwt.version decoded with
                              | Some v => v =? User.tokenVersion user
                              | None => false
                              end)
                then (fail 401
                        "Token version mismatch. Please login again.", st)
                else
                  let accessToken :=
                    Jwt.sign (User.id user) None CONTROLLER_SECRET
                             ONE_DAY now in
                  (mkResponse 200 (AccessData accessToken), st)
            end
        end
  end.

(** [signOut]; [req_user] is [req.user], set by [authorize] when the
    handler is reached through the router. *)
Definition signOut (salt : string) (now : Z) (auth : Authorization)
           (req_user : option User.t) (st : State) : Response * State :=
  let ok := mkResponse 200 (Message true "User signed out successfully") in
  match extractToken auth with
  | None => (fail 500 "Failed to sign out", st)
  | Some None => (ok, st)
  | Some (Some token) =>
      if Jwt.falsy token then (ok, st)
      else
        let st1 := blacklist_add token st in
        match Jwt.verify token (Some CONTROLLER_SECRET) now with
        | inl _ => (ok, st1)
        | inr decoded =>
            match negb (String.eqb (Jwt.userId decoded) ""), req_user with
            | true, Some _ =>
                match findByPk (Jwt.userId decoded) (users st1) with
                | Some row =>
                    let user := loaded row in
                    let user1 :=
                      mkInstance (previous user)
                        (User.set_refreshToken None
                           (User.set_tokenVersion
                              (User.tokenVersion (current user) + 1)
                              (current user))) in
                    let '(_, tb) := save bcrypt_hash salt user1 (users st1) in
                    (ok, with_users tb st1)
                | None => (ok, st1)
                end
            | _, _ => (ok, st1)
            end
        end
  end.

(** The timer of [signOut]: the delay in milliseconds that
    [setTimeout(() => tokenBlacklist.delete(token), expiryTimestamp *
    1000 - Date.now())] is given, or nothing when the handler does not
    reach that statement.  The states of this development are those in
    which no such timer has fired yet. *)
Definition signOut_timeout (now : Z) (auth : Authorization) : option Z :=
  match extractToken auth with
  | Some (Some token) =>
      if Jwt.falsy token then None
      else
        match Jwt.verify token (Some CONTROLLER_SECRET) now with
        | inl _ => None
        | inr decoded => Some (Jwt.exp decoded * 1000 - now)
        end
  | _ => None
  end.

(** *** auth.middleware.js *)

Definition authorize (env : Env) (now : Z) (auth : Authorization)
           (st : State) : Response + User.t :=
  match extractToken auth with
  | None => inl (fail 500 "Server authentication error")
  | Some None => inl (fail 401 "Authentication required. Please log in.")
  | Some (Some token) =>
      if Jwt.falsy token
      then inl (fail 401 "Authentication required. Please log in.")
      else if isTokenBlacklisted st token
      then inl (fail 401
                  "Session has been invalidated. Please log in again.")
      else
        match Jwt.verify token (JWT_SECRET env) now with
        | inr decoded =>
            if String.eqb (Jwt.userId decoded) ""
            then inl (fail 401 "Authentication failed. Please log in again.")
            else
              match findByPk (Jwt.userId decoded) (users st) with
              | None =>
                  inl (fail 401
                         "User no longer exists. Please register again.")
              | Some user => inr user
              end
        | inl Jwt.TokenExpiredError =>
            inl (fail 401 "Your session has expired. Please log in again.")
        | inl Jwt.JsonWebTokenError =>
            inl (fail 401
                   "Invalid authentication token. Please log in again.")
        end
  end.

(** A route guarded by [authorize]. *)
Definition guarded (env : Env) (now : Z) (auth : Authorization)
           (handler : User.t -> State -> Response * State) (st : State)
  : Response * State :=
  match authorize env now auth st with
  | inl r => (r, st)
  | inr user => handler user st
  end.

(** [authRouter.post("/signout", authorize, signOut)] *)
Definition post_signout (env : Env) (salt : string) (now : Z)
           (auth : Authorization) (st : State) : Response * State :=
  guarded env now auth
          (fun user => signOut salt now auth (Some user)) st.

(** *** user.controller.js *)

Definition by_created_at_desc (a b : User.t) : Z :=
  User.createdAt b - User.createdAt a.

(** [Math.ceil(total / limit)], pagination block shared by the two
    listings. *)
Definition pagination_of (total limit page endIndex : Z) : Pagination :=
  mkPagination total limit (ceil_div total limit) page
               (endIndex <? total) (1 <? page)
               (if endIndex <? total then Some (page + 1) else None)
               (if 1 <? page then Some (page - 1) else None).

(** The largest [bigint] of the store. *)
Definition BIGINT_MAX : Z := 9223372036854775807.

(** [getUsers].  The store takes LIMIT and OFFSET as 64-bit integers
    and rejects negative ones; the error middleware turns its error
    into a 500.  The numbers are the integers the handler's doubles
    stand for: the two agree up to [MAX_SAFE_INTEGER]. *)
Definition getUsers (page_q limit_q : Joi.QueryNum) (st : State)
  : Response * State :=
  let page := Joi.parseInt_or page_q 1 in
  let limit := Joi.parseInt_or limit_q 10 in
  let offset := (page - 1) * limit in
  if (limit <? 0) || (offset <? 0)
     || (BIGINT_MAX <? limit) || (BIGINT_MAX <? offset)
  then (fail 500 "Database error occurred", st)
  else
    let totalUsers := Z.of_nat (List.length (users st)) in
    let rows := firstn (Z.to_nat limit)
                  (skipn (Z.to_nat offset)
                     (sort by_created_at_desc (users st))) in
    (mkResponse 200
       (UsersPage (map public_user rows)
                  (pagination_of totalUsers limit page (offset + limit))),
     st).

Definition getUserById (userId : string) (st : State)
  : Response * State :=
  match findByPk userId (users st) with
  | None => (fail 404 "User not found", st)
  | Some user => (mkResponse 200 (UserData (public_user user)), st)
  end.

Definition getProfile (userId : string) (st : State) : Response * State :=
  match findByPk userId (users st) with
  | None => (fail 404 "User not found", st)
  | Some user => (mkResponse 200 (UserData (public_user user)), st)
  end.

(** [path.replace(/\\/g, "/")] *)
Fixpoint forward_slashes (s : string) : string :=
  match s with
  | EmptyString => EmptyString
  | String c r =>
      String (if Ascii.eqb c "092"%char then "/"%char else c)
             (forward_slashes r)
  end.

(** What the error middleware makes of [updatedUser.toJSON()] when the
    read-back finds no row. *)
Definition read_back_failed : Response :=
  fail 500 "Cannot read properties of null (reading 'toJSON')".

(** [user.update(values)]: assign, then save. *)
Definition update (salt : string) (assign : User.t -> User.t)
           (user : Instance) (tb : Table) : Instance * Table :=
  save bcrypt_hash salt
       (mkInstance (previous user) (assign (current user))) tb.

(** [updateProfile]; [file] is [req.file.path] when multer stored an
    upload.  Unlinking the previous picture touches the file system
    only. *)
Definition updateProfile (salt : string) (userId : string)
           (b : ProfileBody) (file : option string) (st : State)
  : Response * State :=
  match validate_updateProfile b with
  | Some e => (mkResponse 400 (Invalid e), st)
  | None =>
      match findByPk userId (users st) with
      | None => (fail 404 "User not found", st)
      | Some row =>
          let taken :=
            match pb_email b with
            | Some email =>
                if truthy (Some email)
                   && negb (String.eqb email (User.email row))
                then match findOne_email email (users st) with
                     | Some _ => true
                     | None => false
                     end
                else false
            | None => false
            end in
          if taken then (fail 409 "Email already in use", st)
          else
            let updateData :=
              User.mkUpdate
                (or_else (pb_name b) (User.name row))
                (or_else (pb_email b) (User.email row))
                (match pb_bio b with
                 | Some v => Some v
                 | None => User.bio row
                 end)
                (match pb_location b with
                 | Some v => Some v
                 | None => User.location row
                 end)
                (match file with
                 | Some path => Some (forward_slashes path)
                 | None => None
                 end) in
            let '(_, tb) :=
              update salt (User.set_profile updateData) (loaded row)
                     (users st) in
            match findByPk userId tb with
            | Some updatedUser =>
                (mkResponse 200 (UserData (public_user updatedUser)),
                 with_users tb st)
            | None => (read_back_failed, with_users tb st)
            end
      end
  end.

(** [user.youtubeLinks || []] *)
Definition currentLinks (u : User.t) : list Link.t :=
  match User.youtubeLinks u with
  | Some l => l
  | None => []
  end.

(** [Date.now().toString()] *)
Definition timestamp_id (now : Z) : string :=
  NilZero.string_of_int (Z.to_int now).

Definition addYoutubeLink (salt : string) (now : Z) (userId : string)
           (b : LinkBody) (st : State) : Response * State :=
  match validate_addYoutubeLink b with
  | Some e => (mkResponse 400 (Invalid e), st)
  | None =>
      match findByPk userId (users st) with
      | None => (fail 404 "User not found", st)
      | Some row =>
          let newLink :=
            Link.mk (Some (timestamp_id now)) (lb_youtubeUrl b)
                    (lb_title b) (Some now) in
          let '(_, tb) :=
            update salt
              (User.set_youtubeLinks (Some (currentLinks row ++ [newLink])))
              (loaded row) (users st) in
          match findByPk userId tb with
          | Some updatedUser =>
              (mkResponse 201 (LinkAdded newLink (public_user updatedUser)),
               with_users tb st)
          | None => (read_back_failed, with_users tb st)
          end
      end
  end.

(** [link.id !== linkId] *)
Definition other_id (linkId : string) (link : Link.t) : bool :=
  negb (match Link.id link with
        | Some i => String.eqb i linkId
        | None => false
        end).

Definition removeYoutubeLink (salt : string) (userId linkId : string)
           (st : State) : Response * State :=
  match findByPk userId (users st) with
  | None => (fail 404 "User not found", st)
  | Some row =>
      let updatedLinks := filter (other_id linkId) (currentLinks row) in
      if Nat.eqb (List.length (currentLinks row)) (List.length updatedLinks)
      then (fail 404 "YouTube link not found", st)
      else
        let '(_, tb) :=
          update salt (User.set_youtubeLinks (Some updatedLinks))
                 (loaded row) (users st) in
        match findByPk userId tb with
        | Some updatedUser =>
            (mkResponse 200 (UserData (public_user updatedUser)),
             with_users tb st)
        | None => (read_back_failed, with_users tb st)
        end
  end.

(** [getSortFn(sortType)] *)
Definition getSortFn (sortType : string) (a b : ContentItem) : Z :=
  if String.eqb sortType "newest" then c_addedAt b - c_addedAt a
  else if String.eqb sortType "oldest" then c_addedAt a - c_addedAt b
  else if String.eqb sortType "popular" then c_addedAt b - c_addedAt a
  else c_addedAt b - c_addedAt a.

(** The [where] clause of the feed query: the column is neither NULL
    nor the empty array. *)
Definition has_links (u : User.t) : bool :=
  match User.youtubeLinks u with
  | None | Some [] => false
  | Some (_ :: _) => true
  end.

(** The body of the inner [forEach]: one feed item, or nothing for an
    entry without [id] or [url]. *)
Definition content_item (now : Z) (u : User.t) (link : Link.t)
  : list ContentItem :=
  if negb (truthy (Link.id link)) || negb (truthy (Link.url link)) then []
  else
    [ mkContent
        (or_else (Link.id link) "")
        (or_else (Link.title link) "Untitled Video")
        (or_else (Link.url link) "")
        (match Link.addedAt link with
         | Some d => d
         | None => now
         end)
        (only ["id"; "name"] (toJSON u)
           ++ [("profilePictureUrl", JStr (profilePictureUrl (User.id u)))]) ].

(** The outer [forEach]. *)
Definition user_content (now : Z) (u : User.t) : list ContentItem :=
  match User.youtubeLinks u with
  | Some (l :: ls) => flat_map (content_item now u) (l :: ls)
  | _ => []
  end.

(** [getAllContent].  The pre-allocated array, filled by index and
    then stripped of its holes, is the list of items in the order they
    were written. *)
Definition getAllContent (now : Z) (q : ContentQuery) (st : State)
  : Response * State :=
  match validate_getAllContent q with
  | Some e => (mkResponse 400 (Invalid e), st)
  | None =>
      let page := Z.max 1 (Joi.parseInt_or (q_page q) 1) in
      let limit := Z.min 50 (Z.max 1 (Joi.parseInt_or (q_limit q) 10)) in
      let sortBy :=
        match q_sortBy q with
        | Some s =>
            if existsb (String.eqb s) ["newest"; "oldest"; "popular"]
            then s else "newest"
        | None => "newest"
        end in
      let rows := sort by_created_at_desc (filter has_links (users st)) in
      let allContent := flat_map (user_content now) rows in
      let allContent := sort (getSortFn sortBy) allContent in
      let total := Z.of_nat (List.length allContent) in
      let startIndex := (page - 1) * limit in
      let endIndex := Z.min (startIndex + limit) total in
      let paginatedContent := slice allContent startIndex endIndex in
      (mkResponse 200
         (ContentPage paginatedContent
                      (pagination_of total limit page endIndex)),
       st)
  end.

(** *** user.route.js: the routes behind [authorize] *)

Definition get_profile_me (env : Env) (now : Z) (auth : Authorization)
  : State -> Response * State :=
  guarded env now auth (fun user => getProfile (User.id user)).

Definition put_profile_me (env : Env) (salt : string) (now : Z)
           (auth : Authorization) (b : ProfileBody) (file : option string)
  : State -> Response * State :=
  guarded env now auth
          (fun user => updateProfile salt (User.id user) b file).

Definition post_profile_youtube (env : Env) (salt : string) (now : Z)
           (auth : Authorization) (b : LinkBody)
  : State -> Response * State :=
  guarded env now auth
          (fun user => addYoutubeLink salt now (User.id user) b).

Definition delete_profile_youtube (env : Env) (salt : string) (now : Z)
           (auth : Authorization) (linkId : string)
  : State -> Response * State :=
  guarded env now auth
          (fun user => removeYoutubeLink salt (User.id user) linkId).

End Server.

(** A password change.  No route assigns the [password] attribute of an
    existing user; this is an [update] that does, which is what makes
    the condition of [beforeUpdate] true. *)
Definition changePassword (bcrypt_hash : string -> string -> string)
           (salt userId newPassword : string) (st : State) : State :=
  match findByPk userId (users st) with
  | None => st
  | Some row =>
      let '(_, tb) :=
        update bcrypt_hash salt (User.set_password newPassword)
               (loaded row) (users st) in
      with_users tb st
  end.

(** ** Further definitions *)

(** The row a successful sign-up stores. *)
Definition registered (bcrypt_hash : string -> string -> string)
           (salt uuid : string) (now : Z) (name email password : string)
  : User.t :=
  User.mk uuid name email (bcrypt_hash password salt)
          (Some (Jwt.sign uuid (Some 0) CONTROLLER_SECRET SEVEN_DAYS now))
          0 None None None (Some []) now.

(** What a sign-out may do to the row stored under a key: the row
    stays, its account and profile data are kept, and its version is
    the old one or the next. *)
Definition session_frame (before after : option User.t) : Prop :=
  match before, after with
  | Some r, Some r' =>
      User.id r' = User.id r /\ User.name r' = User.name r
      /\ User.email r' = User.email r
      /\ User.password r' = User.password r
      /\ User.bio r' = User.bio r /\ User.location r' = User.location r
      /\ User.profilePicture r' = User.profilePicture r
      /\ User.youtubeLinks r' = User.youtubeLinks r
      /\ User.createdAt r' = User.createdAt r
      /\ (r' = r
          \/ (User.tokenVersion r' = User.tokenVersion r + 1
              /\ User.refreshToken r' = None))
  | None, None => True
  | _, _ => False
  end.

(** The [user] object of a feed item. *)
Definition owner (u : User.t) : JsonObject :=
  only ["id"; "name"] (toJSON u)
    ++ [("profilePictureUrl", JStr (profilePictureUrl (User.id u)))].

(** No two rows carry the same e-mail: the [unique] constraint of the
    column. *)
Definition unique_emails (tb : Table) : Prop := NoDup (map User.email tb).

(** ** Middlewares, utilities and migrations *)

(** *** Response headers *)

Definition Headers := list (string * string).

(** [res.setHeader(name, value)]: a header already set takes the new
    value at its place, a new one is added.  The source spells every
    header name in one way. *)
Fixpoint setHeader (name value : string) (h : Headers) : Headers :=
  match h with
  | [] => [(name, value)]
  | (n, v) :: t =>
      if String.eqb n name then (name, value) :: t
      else (n, v) :: setHeader name value t
  end.

(** [res.getHeader(name)] *)
Definition getHeader (name : string) (h : Headers) : option string :=
  option_map snd (find (fun kv => String.eqb (fst kv) name) h).

(** What the CORS code reads of a request. *)
Record Request := mkRequest {
  method : string;
  origin : option string        (* [req.headers.origin] *)
}.

(** How a middleware hands over: it ends the response with a status,
    or calls [next()]. *)
Inductive Flow := Ended (code : Z) | Next.

(** [allowedOrigins.includes(origin)], [origin] possibly undefined. *)
Definition includes (l : list string) (o : option string) : bool :=
  match o with
  | Some s => existsb (String.eqb s) l
  | None => false
  end.

(** The [if (origin && allowedOrigins.includes(origin))] statement the
    three CORS blocks share. *)
Definition set_allow_origin (allowedOrigins : list string)
           (origin : option string) (h : Headers) : Headers :=
  if truthy origin && includes allowedOrigins origin
  then setHeader "Access-Control-Allow-Origin" (or_else origin "") h
  else setHeader "Access-Control-Allow-Origin" (nth 0 allowedOrigins "") h.

(** *** cors.middleware.js *)

Definition corsMiddleware (req : Request) (h : Headers) : Headers * Flow :=
  let allowedOrigins :=
    [ "http://localhost:3000";
      "http://localhost:5500";
      "https://csmbd-assignment-frontend.vercel.app" ] in
  let origin := origin req in
  if String.eqb (method req) "OPTIONS" then
    let h := setHeader "Access-Control-Allow-Origin" (or_else origin "*") h in
    let h := setHeader "Access-Control-Allow-Methods"
                       "GET, POST, PUT, DELETE, OPTIONS" h in
    let h := setHeader "Access-Control-Allow-Headers"
                       "Content-Type, Authorization, X-Requested-With" h in
    let h := setHeader "Access-Control-Allow-Credentials" "true" h in
    let h := setHeader "Access-Control-Max-Age" "86400" h in
    (h, Ended 204)
  else
    let h := set_allow_origin allowedOrigins origin h in
    let h := setHeader "Access-Control-Allow-Methods"
                       "GET, POST, PUT, DELETE" h in
    let h := setHeader "Access-Control-Allow-Headers"
                       "Content-Type, Authorization, X-Requested-With" h in
    let h := setHeader "Access-Control-Allow-Credentials" "true" h in
    (h, Next).

(** *** cors.util.js

    [applyCorsHeaders] returns to its caller; the second component is
    the status the response was ended with, if it was. *)
Definition applyCorsHeaders (req : Request) (h : Headers)
  : Headers * option Z :=
  let allowedOrigins :=
    [ "http://localhost:3000";
      "http://localhost:5500";
      "https://csmbd-assignment-frontend.vercel.app" ] in
  if String.eqb (method req) "OPTIONS" then
    let h := setHeader "Access-Control-Allow-Origin"
                       (or_else (origin req) "*") h in
    let h := setHeader "Access-Control-Allow-Methods"
                       "GET, POST, PUT, DELETE, OPTIONS" h in
    let h := setHeader "Access-Control-Allow-Headers"
                       "Content-Type, Authorization, X-Requested-With" h in
    let h := setHeader "Access-Control-Allow-Credentials" "true" h in
    let h := setHeader "Access-Control-Max-Age" "86400" h in
    (h, Some 204)
  else
    let origin := origin req in
    let h := set_allow_origin allowedOrigins origin h in
    let h := setHeader "Access-Control-Allow-Methods"
                       "GET, POST, PUT, DELETE" h in
    let h := setHeader "Access-Control-Allow-Headers"
                       "Content-Type, Authorization, X-Requested-With" h in
    let h := setHeader "Access-Control-Allow-Credentials" "true" h in
    (h, None).

(** *** user.controller.js: the profile picture *)

(** What the picture route answers with. *)
Inductive Reply :=
| ReplyJson (r : Response)
| ReplyFile (filePath : string)       (* the file, streamed *)
| ReplyEmpty (code : Z).

Section Files.
(** [fs.existsSync], [process.cwd()], [path.join], [path.extname] and
    [String.prototype.toLowerCase]. *)
Variable existsSync : string -> bool.
Variable cwd : string.
Variable path_join : list string -> string.
Variable extname : string -> string.
Variable toLowerCase : string -> string.

(** Whether PostgreSQL reads a text as a uuid, the type of the column
    [users.id]. *)
Variable is_uuid : string -> bool.

(** [getProfilePicture].  For a key without a row the query returns
    null when the key is a uuid and throws when it is not; the error
    goes to the error middleware, which answers 500 to a database
    error.  An error of the read stream is not represented. *)
Definition getProfilePicture (req : Request) (userId : string)
           (h : Headers) (st : State) : Headers * Reply :=
  let allowedOrigins :=
    [ "http://localhost:3005";
      "http://localhost:3005";
      "https://csmbd-assignment-frontend.vercel.app" ] in
  let origin := origin req in
  let h := set_allow_origin allowedOrigins origin h in
  let h := setHeader "Access-Control-Allow-Methods" "GET" h in
  let h := setHeader "Access-Control-Allow-Headers"
                     "Content-Type, Authorization" h in
  let h := setHeader "Access-Control-Allow-Credentials" "true" h in
  let h := setHeader "Cross-Origin-Resource-Policy" "cross-origin" h in
  let h := setHeader "Timing-Allow-Origin" "*" h in
  match findByPk userId (users st) with
  | None =>
      if is_uuid userId
      then (h, ReplyJson (fail 404 "User not found"))
      else (h, ReplyJson (fail 500 "Database error occurred"))
  | Some user =>
      let filePath :=
        if negb (truthy (User.profilePicture user))
        then path_join [cwd; "uploads"; "profile-pictures"; "default.png"]
        else path_join [cwd; or_else (User.profilePicture user) ""] in
      if negb (existsSync filePath)
      then (h, ReplyJson (fail 404 "Profile picture not found"))
      else
        let ext := toLowerCase (extname filePath) in
        let contentType :=
          if String.eqb ext ".jpg" || String.eqb ext ".jpeg"
          then "image/jpeg"
          else if String.eqb ext ".png" then "image/png"
          else if String.eqb ext ".gif" then "image/gif"
          else if String.eqb ext ".webp" then "image/webp"
          else if String.eqb ext ".svg" then "image/svg+xml"
          else "application/octet-stream" in
        let h := setHeader "Content-Type" contentType h in
        let h := setHeader "Cache-Control" "public, max-age=86400" h in
        (h, ReplyFile filePath)
  end.

(** [userRouter.get("/:id/profile-picture", corsMiddleware,
    getProfilePicture)] *)
Definition get_profile_picture (req : Request) (userId : string)
           (h : Headers) (st : State) : Headers * Reply :=
  match corsMiddleware req h with
  | (h, Ended code) => (h, ReplyEmpty code)
  | (h, Next) => getProfilePicture req userId h st
  end.
End Files.

(** *** error.middleware.js *)

Module Err.
(** One element of [err.errors]; [path] may be null. *)
Record Item := mkItem { path : option string; text : string }.

(** The error object, by what the middleware reads of it. *)
Record t := mk {
  name       : string;
  message    : option string;
  statusCode : option Z;
  errors     : option (list Item)
}.
End Err.

(** [a || b] on status codes. *)
Definition code_or (a : option Z) (b : Z) : Z :=
  match a with
  | Some c => if c =? 0 then b else c
  | None => b
  end.

(** The body of the [try] block up to the response: the message and
    status of [error], or nothing when a statement throws. *)
Definition error_of (err : Err.t) : option (option string * option Z) :=
  let error := (Some (or_else (Err.message err) "Internal server error"),
                Some (code_or (Err.statusCode err) 500)) in
  let step1 :=
    if String.eqb (Err.name err) "SequelizeUniqueConstraintError" then
      match Err.errors err with
      | Some (e :: _) =>
          let field := match Err.path e with
                       | Some p => p
                       | None => "null"
                       end in
          Some (Some (field ++ " already exists")%string, Some 409)
      | _ => None
      end
    else Some error in
  match step1 with
  | None => None
  | Some error =>
      let step2 :=
        if String.eqb (Err.name err) "SequelizeValidationError" then
          match Err.errors err with
          | Some es =>
              Some (Some (String.concat ", " (map Err.text es)), Some 400)
          | None => None
          end
        else Some error in
      match step2 with
      | None => None
      | Some error =>
          let error :=
            if String.eqb (Err.name err) "SequelizeDatabaseError"
            then (Some "Database error occurred", Some 500)
            else error in
          let error :=
            if String.eqb (Err.name err) "JsonWebTokenError"
            then (Some "Invalid token. Please log in again.", Some 401)
            else error in
          let error :=
            if String.eqb (Err.name err) "TokenExpiredError"
            then (Some "Your token has expired. Please log in again.",
                  Some 401)
            else error in
          let error :=
            if String.eqb (Err.name err) "SequelizeConnectionError"
               || String.eqb (Err.name err) "SequelizeConnectionRefusedError"
               || String.eqb (Err.name err) "SequelizeHostNotFoundError"
               || String.eqb (Err.name err) "SequelizeHostNotReachableError"
            then (Some "Database connection failed. Please try again.",
                  Some 503)
            else error in
          Some error
      end
  end.

(** The response is written inside the [try] as well: a status that is
    no three-digit number makes [res.status(..).json(..)] throw, and
    the [catch] answers in its place. *)
Definition errorMiddleware (err : Err.t) : Response :=
  match error_of err with
  | Some (message, statusCode) =>
      let code := code_or statusCode 500 in
      if (code <? 100) || (999 <? code)
      then fail 500 "Internal server error"
      else fail code (or_else message "Internal server error")
  | None => fail 500 "Internal server error"
  end.

(** *** upload.middleware.js *)

Definition ALLOWED_FILE_TYPES : list string :=
  ["image/jpeg"; "image/png"; "image/gif"; "image/webp"].

Definition MAX_FILE_SIZE : Z := 2 * 1024 * 1024.

(** What the upload step passes on as an error. *)
Inductive UploadError :=
| MulterError (code message : string)
| OtherError (message : option string).

(** [fileFilter]: the file is accepted, or refused with an error. *)
Definition fileFilter (mimetype : string) : UploadError + bool :=
  if existsb (String.eqb mimetype) ALLOWED_FILE_TYPES then inr true
  else inl (OtherError
              (Some ("Only " ++ String.concat ", " ALLOWED_FILE_TYPES
                             ++ " files are allowed")%string)).

(** [handleMulterError]: a response, or nothing when it calls
    [next()]. *)
Definition handleMulterError (err : option UploadError) : option Response :=
  match err with
  | Some (MulterError code message) =>
      if String.eqb code "LIMIT_FILE_SIZE" then
        Some (fail 400
                ("File size too large. Maximum size is "
                   ++ NilZero.string_of_int
                        (Z.to_int (MAX_FILE_SIZE / (1024 * 1024)))
                   ++ "MB.")%string)
      else if String.eqb code "LIMIT_UNEXPECTED_FILE" then
        Some (fail 400
                "Unexpected file upload field. Please use 'profilePicture' field.")
      else Some (fail 400 ("Upload error: " ++ message)%string)
  | Some (OtherError message) =>
      Some (fail 400 (or_else message "Error uploading file"))
  | None => None
  end.

(** What [uploadProfilePicture] leaves behind: no file part, a stored
    file with its path, or an error passed to the next error
    handler. *)
Inductive Upload :=
| NoFile
| Stored (path : string)
| Failed (err : UploadError).

Definition upload_error (u : Upload) : option UploadError :=
  match u with Failed e => Some e | _ => None end.

Definition upload_file (u : Upload) : option string :=
  match u with Stored p => Some p | _ => None end.

(** [userRouter.put("/profile/me", authorize, uploadProfilePicture,
    handleMulterError, updateProfile)] *)
Definition put_profile_me_upload
           (bcrypt_hash : string -> string -> string)
           (joi_email : string -> bool)
           (env : Env) (salt : string) (now : Z)
           (auth : Authorization) (u : Upload) (b : ProfileBody)
  : State -> Response * State :=
  guarded env now auth
          (fun user st =>
             match handleMulterError (upload_error u) with
             | Some r => (r, st)
             | None =>
                 updateProfile bcrypt_hash joi_email salt (User.id user) b
                               (upload_file u) st
             end).

(** *** migrations

    The database as the migration sees it: the column names of the
    [users] table, or nothing when the table does not exist. *)
Definition Schema := option (list string).

(** [ALTER TABLE users ADD COLUMN c]; the database refuses a column
    that exists. *)
Definition add_column (c : string) (cols : list string)
  : option (list string) :=
  if existsb (String.eqb c) cols then None else Some (cols ++ [c]).

(** One [if (!existingColumns.includes(c))] block; [None] is a
    statement that threw. *)
Definition add_if_missing (existingColumns : list string) (c : string)
           (cols : option (list string)) : option (list string) :=
  match cols with
  | None => None
  | Some cols =>
      if negb (existsb (String.eqb c) existingColumns)
      then add_column c cols
      else Some cols
  end.

(** [runMigrations]: the schema afterwards, or [None] when the
    function throws. *)
Definition runMigrations (NODE_ENV : option string) (db : Schema)
  : option Schema :=
  if match NODE_ENV with
     | Some e => String.eqb e "production"
     | None => false
     end
  then Some db
  else
    match db with
    | None => Some None
    | Some cols =>
        let existingColumns := cols in
        let r := Some cols in
        let r := add_if_missing existingColumns "refresh_token" r in
        let r := add_if_missing existingColumns "token_version" r in
        let r := add_if_missing existingColumns "bio" r in
        let r := add_if_missing existingColumns "location" r in
        let r := add_if_missing existingColumns "youtube_links" r in
        let r := add_if_missing existingColumns "profile_picture" r in
        match r with
        | Some cols' => Some (Some cols')
        | None => None
        end
    end.

(** ** Sample data

    One instance of the library functions and a small store, for
    running the handlers. *)

Module Demo.
Definition hash (password salt : string) : string :=
  ("$2a$10$" ++ salt ++ password)%string.

Definition compare (entered stored : string) : bool :=
  String.eqb stored (hash entered "salt").

Definition is_email (s : string) : bool :=
  match String.index 0 "@" s with Some _ => true | None => false end.

(** The sample store writes its keys "u-ann", "u-bob": texts of this
    form stand for uuids, every other text for none. *)
Definition is_uuid (s : string) : bool := String.prefix "u-" s.

Definition link (i : string) (d : Z) : Link.t :=
  Link.mk (Some i) (Some ("https://youtu.be/" ++ i)%string) (Some i)
          (Some d).

Definition ann : User.t :=
  User.mk "u-ann" "Ann Lee" "ann@x.com" (hash "password1" "salt")
          None 0 None None None (Some [link "a1" 100; link "a2" 300]) 1000.

Definition bob : User.t :=
  User.mk "u-bob" "Bob Ray" "bob@x.com" (hash "password2" "salt")
          None 0 None None None (Some [link "b1" 200]) 2000.

Definition store : State := mkState [ann; bob] [].

Definition env : Env := mkEnv (Some CONTROLLER_SECRET).

(** Ann's access token, issued at clock 5000 ms. *)
Definition ann_access : Jwt.Token :=
  Jwt.sign "u-ann" None CONTROLLER_SECRET ONE_DAY 5000.
End Demo.

(** ** What the claims talk about *)

(** The primary-key constraint of the [users] table. *)
Definition primary_key (tb : Table) : Prop := NoDup (map User.id tb).

(** The link collection carries no entry with this id. *)
Definition id_absent (linkId : string) (links : list Link.t) : Prop :=
  forall l, In l links -> Link.id l <> Some linkId.

(** The user objects a response body carries. *)
Definition returned_users (b : Body) : list JsonObject :=
  match b with
  | AuthData _ _ u => [u]
  | UserData u => [u]
  | UsersPage d _ => d
  | LinkAdded _ u => [u]
  | ContentPage d _ => map c_user d
  | Message _ _ | Invalid _ | AccessData _ => []
  end.

Definition no_password (r : Response) : Prop :=
  Forall (fun o => has_key "password" o = false) (returned_users (body r)).

(** The row of [pk] went from version [v] to [v + 1]. *)
Definition version_bumped_once (pk : string) (st st' : State) : Prop :=
  exists row row',
    findByPk pk (users st) = Some row
    /\ findByPk pk (users st') = Some row'
    /\ User.tokenVersion row' = User.tokenVersion row + 1.

(** No row changed its version, none appeared or went away. *)
Definition versions_kept (st st' : State) : Prop :=
  forall pk,
    option_map User.tokenVersion (findByPk pk (users st'))
    = option_map User.tokenVersion (findByPk pk (users st)).

(** Every refresh token of user [pk] that embeds version [v] is
    answered 401, whenever it is presented and whoever signed it. *)
Definition stale_refresh_rejected (is_uuid : string -> bool)
           (pk : string) (v : Z) (st : State) : Prop :=
  forall now key p,
    Jwt.userId p = pk -> Jwt.version p = Some v ->
    status (fst (refreshToken is_uuid now (Some (Jwt.Signed key p)) st)) = 401.

(** The three reasons for which a presented refresh token is refused. *)
Definition refresh_refused (now : Z) (token : Jwt.Token) (st : State) : Prop :=
  match Jwt.verify token (Some CONTROLLER_SECRET) now with
  | inl _ => True                       (* bad signature, or expired *)
  | inr p =>
      match findByPk (Jwt.userId p) (users st) with
      | None => True                    (* nobody stores this token *)
      | Some u =>
          User.refreshToken u <> Some token
          \/ Jwt.version p <> Some (User.tokenVersion u)
      end
  end.

(** The token verifies, but the id it names is no uuid and no row has
    it: the query for the user throws. *)
Definition refresh_lookup_throws (is_uuid : string -> bool) (now : Z)
           (token : Jwt.Token) (st : State) : Prop :=
  match Jwt.verify token (Some CONTROLLER_SECRET) now with
  | inl _ => False
  | inr p =>
      findByPk (Jwt.userId p) (users st) = None
      /\ is_uuid (Jwt.userId p) = false
  end.

(** The elements of [l] at the positions [a <= i < b]. *)
Definition segment {A : Type} (l : list A) (a b : Z) : list A :=
  firstn (Z.to_nat (b - a)) (skipn (Z.to_nat a) l).

(** The entry has an id and a url: neither is missing, neither is
    the empty string. *)
Definition has_id_and_url (l : Link.t) : bool :=
  match Link.id l, Link.url l with
  | Some i, Some u => negb (String.eqb i "") && negb (String.eqb u "")
  | _, _ => false
  end.

(** The feed item of a link [l] of user [u]: the id and url of the
    link, its title ("Untitled Video" for want of one), its date (the
    time of the request for want of one) and the owner's public
    identity. *)
Definition feed_item (now : Z) (u : User.t) (l : Link.t) : ContentItem :=
  mkContent
    (match Link.id l with Some i => i | None => "" end)
    (match Link.title l with
     | Some t => if String.eqb t "" then "Untitled Video" else t
     | None => "Untitled Video"
     end)
    (match Link.url l with Some x => x | None => "" end)
    (match Link.addedAt l with Some d => d | None => now end)
    (owner u).

(** The reference sequence of the feed, in the words of the
    specification: the link collections of all users, flattened,
    without the entries that lack an id or a url, each entry as a feed
    item. *)
Definition all_items (now : Z) (st : State) : list ContentItem :=
  flat_map (fun u => map (feed_item now u)
                         (filter has_id_and_url (currentLinks u)))
           (users st).


(** Newest first, unless the oldest are asked for. *)
Definition feed_order (sortBy : string) (a b : ContentItem) : Prop :=
  if String.eqb sortBy "oldest" then c_addedAt a <= c_addedAt b
  else c_addedAt b <= c_addedAt a.

(** The page a request is served: the number [parseInt] reads in
    [page], 1 where it reads none, zero or a number below 1. *)
Definition served_page (q : ContentQuery) : Z :=
  match Joi.parseInt (q_page q) with
  | Some z => if z <? 1 then 1 else z
  | None => 1
  end.

(** The limit a request is served: the number [parseInt] reads in
    [limit], 10 where it reads none or zero, and otherwise that number
    brought into [1, 50]. *)
Definition served_limit (q : ContentQuery) : Z :=
  match Joi.parseInt (q_limit q) with
  | Some z => if z =? 0 then 10
              else if z <? 1 then 1
              else if 50 <? z then 50
              else z
  | None => 10
  end.

Definition requested_sort (q : ContentQuery) : string :=
  match q_sortBy q with Some s => s | None => "newest" end.

(** What a profile update may do to the row stored under [pk]: the row
    stays, with the account fields as they were; the picture moves only
    with an upload; rows of other users stay as they are. *)
Definition profile_frame (userId pk : string) (file : option string)
           (before after : option User.t) : Prop :=
  match before, after with
  | Some r, Some r' =>
      User.id r' = User.id r
      /\ User.password r' = User.password r
      /\ User.refreshToken r' = User.refreshToken r
      /\ User.tokenVersion r' = User.tokenVersion r
      /\ User.youtubeLinks r' = User.youtubeLinks r
      /\ User.createdAt r' = User.createdAt r
      /\ (file = None -> User.profilePicture r' = User.profilePicture r)
      /\ (pk <> userId -> r' = r)
  | None, None => True
  | _, _ => False
  end.

(** The items and the pagination block of a feed response. *)
Definition page_items (r : Response) : list ContentItem :=
  match body r with ContentPage d _ => d | _ => [] end.

Definition page_meta (r : Response) : option Pagination :=
  match body r with ContentPage _ pg => Some pg | _ => None end.

(** ** Further notions *)

(** The constraints the [users] table declares. *)
Definition store_ok (st : State) : Prop :=
  primary_key (users st) /\ unique_emails (users st).

(** The e-mail a profile update asks for belongs to somebody else. *)
Definition email_taken (b : ProfileBody) (row : User.t) (st : State) : Prop :=
  exists e other,
    pb_email b = Some e /\ e <> User.email row
    /\ findOne_email e (users st) = Some other.

Definition supplied (v : option string) (old : string) : string :=
  match v with Some s => s | None => old end.

(** Between two states the table has the same length and every row
    whose id is not [uid] sits unchanged at its place. *)
Definition others_untouched (uid : string) (st st' : State) : Prop :=
  List.length (users st') = List.length (users st)
  /\ forall i row,
      nth_error (users st) i = Some row -> User.id row <> uid ->
      nth_error (users st') i = Some row.

(** What a route behind [authorize] may do: nothing when the request
    is turned away, and otherwise nothing to rows other than the
    authenticated user's. *)
Definition own_row_only (env : Env) (now : Z) (auth : Authorization)
           (st st' : State) : Prop :=
  match authorize env now auth st with
  | inl _ => st' = st
  | inr user => others_untouched (User.id user) st st'
  end.

(** The user objects of a listing response. *)
Definition page_users (r : Response) : list JsonObject :=
  match body r with UsersPage d _ => d | _ => [] end.

(** No user object of the response has one of the keys [ks]. *)
Definition keys_absent (ks : list string) (r : Response) : Prop :=
  Forall (fun o => forall k, In k ks -> has_key k o = false)
         (returned_users (body r)).

(** The response is an authentication answer whose [user] object has
    the key [k]. *)
Definition auth_user_has (k : string) (r : Response) : Prop :=
  exists accessToken refreshToken user,
    body r = AuthData accessToken refreshToken user
    /\ has_key k user = true.

(** ** Tables *)

Lemma findByPk_id pk tb row :
  findByPk pk tb = Some row -> User.id row = pk.
Proof.
  unfold findByPk. intros H. apply find_some in H.
  now apply String.eqb_eq.
Qed.

Lemma findByPk_write_row pk u tb :
  findByPk pk (write_row u tb)
  = if String.eqb pk (User.id u)
    then match findByPk pk tb with Some _ => Some u | None => None end
    else findByPk pk tb.
Proof.
  unfold findByPk, write_row.
  induction tb as [|r tb IH]; simpl.
  - now destruct (String.eqb pk (User.id u)).
  - destruct (String.eqb (User.id r) (User.id u)) eqn:Eru.
    + apply String.eqb_eq in Eru. rewrite Eru.
      rewrite (String.eqb_sym (User.id u) pk).
      destruct (String.eqb pk (User.id u)) eqn:Epu; [reflexivity|].
      exact IH.
    + destruct (String.eqb (User.id r) pk) eqn:Erp.
      * apply String.eqb_eq in Erp. subst pk. now rewrite Eru.
      * exact IH.
Qed.

Lemma findByPk_write_row_same u tb row :
  findByPk (User.id u) tb = Some row ->
  findByPk (User.id u) (write_row u tb) = Some u.
Proof.
  intros H. now rewrite findByPk_write_row, String.eqb_refl, H.
Qed.

(** The handlers that write read the row back for the response; the
    state they return does not depend on what the read finds. *)
Lemma snd_read_back {A : Type} (o : option A) (f : A -> Response)
      (r : Response) (s : State) :
  snd (match o with Some u => (f u, s) | None => (r, s) end) = s.
Proof. now destruct o. Qed.

(** Saving an instance whose password is untouched writes it as it is. *)
Lemma update_keeps_password bcrypt_hash salt assign row tb :
  User.password (assign row) = User.password row ->
  update bcrypt_hash salt assign (loaded row) tb
  = (loaded (assign row), write_row (assign row) tb).
Proof.
  intros H. unfold update, save, beforeUpdate, changed_password. simpl.
  now rewrite H, String.eqb_refl.
Qed.

(** ** Link collections *)

Lemma filter_other_id_le linkId links :
  (List.length (filter (other_id linkId) links) <= List.length links)%nat.
Proof.
  induction links as [|l links IH]; simpl; [lia|].
  destruct (other_id linkId l); simpl; lia.
Qed.

Lemma other_id_true linkId l :
  other_id linkId l = true <-> Link.id l <> Some linkId.
Proof.
  unfold other_id. destruct (Link.id l) as [i|]; simpl.
  - rewrite negb_true_iff. split.
    + intros E [= ->]. now rewrite String.eqb_refl in E.
    + intros N. apply String.eqb_neq. congruence.
  - split; [discriminate | reflexivity].
Qed.

Lemma filter_other_id_absent linkId links :
  id_absent linkId links -> filter (other_id linkId) links = links.
Proof.
  unfold id_absent. induction links as [|l links IH]; intros H; simpl.
  - reflexivity.
  - assert (E : other_id linkId l = true)
      by (apply other_id_true, H; simpl; auto).
    rewrite E, IH; [reflexivity|]. intros; apply H; simpl; auto.
Qed.

Lemma filter_other_id_length linkId links :
  List.length (filter (other_id linkId) links) = List.length links
  <-> id_absent linkId links.
Proof.
  split.
  - unfold id_absent. induction links as [|l links IH]; simpl.
    + intros _ ? [].
    + destruct (other_id linkId l) eqn:E; simpl.
      * intros H x [<-|Hx].
        -- now apply other_id_true.
        -- apply IH; [lia | exact Hx].
      * pose proof (filter_other_id_le linkId links). lia.
  - intros H. now rewrite filter_other_id_absent.
Qed.

(** C8. Removing a link id that the user's collection does not hold is
    answered 404 "YouTube link not found" and returns the state it was
    given: nothing is written.  The handler detects the case by
    comparing lengths, and the lengths agree exactly when no entry
    carries the id. *)
Theorem removeYoutubeLink_unknown_id :
  forall bcrypt_hash salt userId linkId st row,
    findByPk userId (users st) = Some row ->
    id_absent linkId (currentLinks row) ->
    removeYoutubeLink bcrypt_hash salt userId linkId st
    = (fail 404 "YouTube link not found", st)
    /\ List.length (filter (other_id linkId) (currentLinks row))
       = List.length (currentLinks row).
Proof.
  intros h salt userId linkId st row Hrow Habs.
  apply filter_other_id_length in Habs.
  split; [|exact Habs].
  unfold removeYoutubeLink. rewrite Hrow, Habs, Nat.eqb_refl. reflexivity.
Qed.

(** Conversely the 404 is only given when the id is absent. *)
Lemma removeYoutubeLink_known_id bcrypt_hash salt userId linkId st row :
  findByPk userId (users st) = Some row ->
  ~ id_absent linkId (currentLinks row) ->
  status (fst (removeYoutubeLink bcrypt_hash salt userId linkId st)) = 200.
Proof.
  intros Hrow Hpres. unfold removeYoutubeLink. rewrite Hrow.
  destruct (Nat.eqb _ _) eqn:E.
  - apply Nat.eqb_eq in E. symmetry in E.
    apply filter_other_id_length in E. contradiction.
  - rewrite update_keeps_password by reflexivity.
    pose proof (findByPk_id _ _ _ Hrow) as Hid.
    replace userId with
      (User.id (User.set_youtubeLinks
                  (Some (filter (other_id linkId) (currentLinks row))) row))
      at 1 by exact Hid.
    erewrite findByPk_write_row_same; [reflexivity|].
    simpl. rewrite Hid. exact Hrow.
Qed.

(** The round trip of add and remove when the generated id is free.
    When no entry of the collection already carries the id generated
    for the new link (the clock reading, as a string), a successful add
    followed by the removal of the returned id answers 200 and leaves
    the user's row as it was, with the collection that was read before
    the add (a NULL collection is read as, and comes back as, the empty
    array). *)
Theorem add_then_remove_restores_links :
  forall bcrypt_hash salt salt' now userId b st row newLink shown st1,
    findByPk userId (users st) = Some row ->
    id_absent (timestamp_id now) (currentLinks row) ->
    addYoutubeLink bcrypt_hash salt now userId b st
    = (mkResponse 201 (LinkAdded newLink shown), st1) ->
    Link.id newLink = Some (timestamp_id now)
    /\ exists row2 st2,
        removeYoutubeLink bcrypt_hash salt' userId (timestamp_id now) st1
        = (mkResponse 200 (UserData (public_user row2)), st2)
        /\ findByPk userId (users st2) = Some row2
        /\ row2 = User.set_youtubeLinks (Some (currentLinks row)) row
        /\ currentLinks row2 = currentLinks row.
Proof.
  intros h salt salt' now userId b st row newLink shown st1 Hrow Habs Hadd.
  pose proof (findByPk_id _ _ _ Hrow) as Hid.
  unfold addYoutubeLink in Hadd.
  destruct (validate_addYoutubeLink b); [discriminate|].
  rewrite Hrow in Hadd.
  rewrite update_keeps_password in Hadd by reflexivity.
  set (link := Link.mk (Some (timestamp_id now)) (lb_youtubeUrl b)
                       (lb_title b) (Some now)) in *.
  set (row1 := User.set_youtubeLinks (Some (currentLinks row ++ [link])) row)
    in *.
  assert (H1 : findByPk userId (write_row row1 (users st)) = Some row1).
  { rewrite <- Hid. apply (findByPk_write_row_same row1 _ row).
    simpl. now rewrite Hid. }
  rewrite H1 in Hadd. injection Hadd as <- _ <-.
  split; [reflexivity|].
  unfold removeYoutubeLink. simpl users. rewrite H1.
  assert (Hf : filter (other_id (timestamp_id now)) (currentLinks row1)
               = currentLinks row).
  { change (currentLinks row1) with (currentLinks row ++ [link]).
    rewrite filter_app, filter_other_id_absent by exact Habs.
    unfold link, other_id. simpl. rewrite String.eqb_refl. simpl.
    apply app_nil_r. }
  rewrite Hf.
  assert (Hlen : Nat.eqb (List.length (currentLinks row1))
                         (List.length (currentLinks row)) = false).
  { apply Nat.eqb_neq.
    change (currentLinks row1) with (currentLinks row ++ [link]).
    rewrite length_app. simpl. lia. }
  rewrite Hlen, update_keeps_password by reflexivity.
  set (row2 := User.set_youtubeLinks (Some (currentLinks row)) row1).
  assert (H2 : findByPk userId (write_row row2 (write_row row1 (users st)))
               = Some row2).
  { rewrite <- Hid. apply (findByPk_write_row_same row2 _ row1).
    simpl. now rewrite Hid. }
  rewrite H2. exists row2. eexists.
  split; [reflexivity|]. split; [exact H2|]. split; reflexivity.
Qed.

(** ** The state after each writing handler *)

Lemma save_keeps_password bcrypt_hash salt p c tb :
  User.password c = User.password p ->
  save bcrypt_hash salt (mkInstance p c) tb = (loaded c, write_row c tb).
Proof.
  intros H. unfold save, beforeUpdate, changed_password. simpl.
  now rewrite H, String.eqb_refl.
Qed.

Lemma updateProfile_state bcrypt_hash joi_email salt userId b file st :
  snd (updateProfile bcrypt_hash joi_email salt userId b file st) = st
  \/ exists row d,
      findByPk userId (users st) = Some row
      /\ (file = None -> User.upd_profilePicture d = None)
      /\ snd (updateProfile bcrypt_hash joi_email salt userId b file st)
         = with_users (write_row (User.set_profile d row) (users st)) st.
Proof.
  unfold updateProfile.
  destruct (validate_updateProfile joi_email b); [now left|].
  destruct (findByPk userId (users st)) as [row|] eqn:Hrow; [|now left].
  match goal with
  | |- context [if ?c then _ else _] => destruct c
  end; [now left|].
  right. rewrite update_keeps_password by reflexivity.
  rewrite snd_read_back.
  eexists. eexists. split; [reflexivity|]. split; [|reflexivity].
  now intros ->.
Qed.

Lemma addYoutubeLink_state bcrypt_hash salt now userId b st :
  snd (addYoutubeLink bcrypt_hash salt now userId b st) = st
  \/ exists row links,
      findByPk userId (users st) = Some row
      /\ snd (addYoutubeLink bcrypt_hash salt now userId b st)
         = with_users
             (write_row (User.set_youtubeLinks links row) (users st)) st.
Proof.
  unfold addYoutubeLink.
  destruct (validate_addYoutubeLink b); [now left|].
  destruct (findByPk userId (users st)) as [row|] eqn:Hrow; [|now left].
  right. rewrite update_keeps_password by reflexivity.
  rewrite snd_read_back. eexists. eexists. split; reflexivity.
Qed.

Lemma removeYoutubeLink_state bcrypt_hash salt userId linkId st :
  snd (removeYoutubeLink bcrypt_hash salt userId linkId st) = st
  \/ exists row links,
      findByPk userId (users st) = Some row
      /\ snd (removeYoutubeLink bcrypt_hash salt userId linkId st)
         = with_users
             (write_row (User.set_youtubeLinks links row) (users st)) st.
Proof.
  unfold removeYoutubeLink.
  destruct (findByPk userId (users st)) as [row|] eqn:Hrow; [|now left].
  destruct (Nat.eqb _ _); [now left|].
  right. rewrite update_keeps_password by reflexivity.
  rewrite snd_read_back. eexists. eexists. split; reflexivity.
Qed.

Lemma signIn_state bcrypt_hash bcrypt_compare joi_email salt now b st :
  snd (signIn bcrypt_hash bcrypt_compare joi_email salt now b st) = st
  \/ exists row token,
      In row (users st)
      /\ snd (signIn bcrypt_hash bcrypt_compare joi_email salt now b st)
         = with_users
             (write_row (User.set_refreshToken token row) (users st)) st.
Proof.
  unfold signIn.
  destruct (validate_login joi_email b); [now left|].
  destruct (login_email b) as [email|]; [|now left].
  destruct (login_password b) as [password|]; [|now left].
  destruct (findOne_email email (users st)) as [row|] eqn:Hrow; [|now left].
  destruct (negb _); [now left|].
  right. unfold generateTokens.
  rewrite save_keeps_password by reflexivity. simpl.
  eexists. eexists. split; [|reflexivity].
  unfold findOne_email in Hrow. now apply find_some in Hrow.
Qed.

Lemma refreshToken_state is_uuid now presented st :
  snd (refreshToken is_uuid now presented st) = st.
Proof.
  unfold refreshToken.
  repeat match goal with
         | |- context [match ?x with _ => _ end] => destruct x
         end; reflexivity.
Qed.

Lemma primary_key_find tb row :
  primary_key tb -> In row tb -> findByPk (User.id row) tb = Some row.
Proof.
  unfold primary_key, findByPk.
  induction tb as [|r tb IH]; simpl; intros Hnd Hin; [contradiction|].
  inversion Hnd as [|? ? Hnotin Hnd']; subst.
  destruct Hin as [->|Hin].
  - now rewrite String.eqb_refl.
  - destruct (String.eqb (User.id r) (User.id row)) eqn:E.
    + apply String.eqb_eq in E. exfalso. apply Hnotin. rewrite E.
      now apply in_map.
    + now apply IH.
Qed.

Lemma profile_frame_refl userId pk file o : profile_frame userId pk file o o.
Proof. destruct o; simpl; [repeat split; reflexivity | exact I]. Qed.

(** C10. [updateProfile] leaves the blacklist alone, adds and removes no
    row, changes no row but the caller's, and on that row keeps [id],
    [password], [refreshToken], [tokenVersion], [youtubeLinks] and
    [createdAt]; without an uploaded file [profilePicture] is kept too. *)
Theorem updateProfile_frame :
  forall bcrypt_hash joi_email salt userId b file st pk,
    let st' :=
      snd (updateProfile bcrypt_hash joi_email salt userId b file st) in
    tokenBlacklist st' = tokenBlacklist st
    /\ profile_frame userId pk file
         (findByPk pk (users st)) (findByPk pk (users st')).
Proof.
  intros h em salt userId b file st pk st'. subst st'.
  destruct (updateProfile_state h em salt userId b file st)
    as [-> | (row & d & Hrow & Hfile & ->)].
  - split; [reflexivity | apply profile_frame_refl].
  - split; [reflexivity|]. simpl users.
    pose proof (findByPk_id _ _ _ Hrow) as Hid.
    rewrite findByPk_write_row. simpl User.id. rewrite Hid.
    destruct (String.eqb pk userId) eqn:E; [|apply profile_frame_refl].
    apply String.eqb_eq in E. subst pk. rewrite Hrow. simpl.
    repeat split; try reflexivity.
    + intros F. now rewrite (Hfile F).
    + intros N; now elim N.
Qed.

(** ** Tokens *)

Lemma CONTROLLER_SECRET_nonempty : String.eqb CONTROLLER_SECRET "" = false.
Proof. reflexivity. Qed.

Lemma verify_inr key p secret now d :
  Jwt.verify (Jwt.Signed key p) secret now = inr d ->
  d = p /\ secret = Some key /\ String.eqb key "" = false
  /\ now / 1000 < Jwt.exp p.
Proof.
  unfold Jwt.verify. destruct secret as [s|]; [|discriminate].
  destruct (String.eqb s "") eqn:Es; [discriminate|].
  destruct (String.eqb key s) eqn:Ek; [|discriminate].
  apply String.eqb_eq in Ek. subst s.
  destruct (Jwt.exp p <=? now / 1000) eqn:Ee; [discriminate|].
  intros [= <-]. apply Z.leb_gt in Ee. auto.
Qed.

Lemma verify_signed key p now :
  String.eqb key "" = false -> now / 1000 < Jwt.exp p ->
  Jwt.verify (Jwt.Signed key p) (Some key) now = inr p.
Proof.
  intros Hk He. unfold Jwt.verify. rewrite Hk, String.eqb_refl.
  apply Z.leb_gt in He. now rewrite He.
Qed.

Lemma Jwt_eqb_eq t u : Jwt.eqb t u = true <-> t = u.
Proof.
  unfold Jwt.eqb. destruct (Jwt.Token_eq_dec t u); split;
    congruence || discriminate.
Qed.

(** ** Token versions *)

Lemma versions_kept_refl st : versions_kept st st.
Proof. intros pk. reflexivity. Qed.

Lemma versions_kept_write st row u :
  findByPk (User.id row) (users st) = Some row ->
  User.id u = User.id row ->
  User.tokenVersion u = User.tokenVersion row ->
  versions_kept st (with_users (write_row u (users st)) st).
Proof.
  intros Hrow Hid Hv pk. simpl users.
  rewrite findByPk_write_row, Hid.
  destruct (String.eqb pk (User.id row)) eqn:E; [|reflexivity].
  apply String.eqb_eq in E. subst pk. rewrite Hrow. simpl. now rewrite Hv.
Qed.

Lemma versions_kept_found st pk row u :
  findByPk pk (users st) = Some row ->
  User.id u = User.id row ->
  User.tokenVersion u = User.tokenVersion row ->
  versions_kept st (with_users (write_row u (users st)) st).
Proof.
  intros Hrow. pose proof (findByPk_id _ _ _ Hrow) as <-.
  now apply versions_kept_write.
Qed.

Lemma stale_refresh is_uuid pk v st row :
  findByPk pk (users st) = Some row ->
  User.tokenVersion row <> v ->
  stale_refresh_rejected is_uuid pk v st.
Proof.
  intros Hrow Hv now key p Hp Hver. unfold refreshToken. simpl Jwt.falsy.
  cbv iota.
  destruct (Jwt.verify (Jwt.Signed key p) (Some CONTROLLER_SECRET) now)
    as [e|d] eqn:Hverify; [reflexivity|].
  apply verify_inr in Hverify as (-> & _). rewrite Hp, Hrow.
  destruct (negb _); [reflexivity|].
  rewrite Hver.
  assert (E : (v =? User.tokenVersion row) = false)
    by (apply Z.eqb_neq; congruence).
  now rewrite E.
Qed.

Lemma changePassword_row bcrypt_hash salt pk newPassword st row :
  findByPk pk (users st) = Some row ->
  newPassword <> User.password row ->
  findByPk pk (users (changePassword bcrypt_hash salt pk newPassword st))
  = Some (User.set_tokenVersion (User.tokenVersion row + 1)
            (User.set_password (bcrypt_hash newPassword salt) row)).
Proof.
  intros Hrow Hnew. unfold changePassword. rewrite Hrow.
  unfold update, save, beforeUpdate, changed_password. simpl.
  apply String.eqb_neq in Hnew. rewrite Hnew. simpl.
  pose proof (findByPk_id _ _ _ Hrow) as Hid.
  rewrite findByPk_write_row. simpl. rewrite Hid, String.eqb_refl, Hrow.
  reflexivity.
Qed.

(** A sign-out that gets through the guard with a token the controller
    signed: the row is written with the next version and no refresh
    token; the access token joins the blacklist. *)
Lemma post_signout_accepted bcrypt_hash env salt now p st resp st' :
  post_signout bcrypt_hash env salt now
               (Bearer (Jwt.Signed CONTROLLER_SECRET p)) st = (resp, st') ->
  status resp = 200 ->
  exists row,
    findByPk (Jwt.userId p) (users st) = Some row
    /\ users st'
       = write_row (User.set_refreshToken None
                      (User.set_tokenVersion (User.tokenVersion row + 1) row))
                   (users st)
    /\ isTokenBlacklisted st' (Jwt.Signed CONTROLLER_SECRET p) = true.
Proof.
  unfold post_signout, guarded, authorize. simpl extractToken. simpl Jwt.falsy.
  cbv iota.
  destruct (isTokenBlacklisted st _) eqn:Hbl;
    [intros [= <- <-]; discriminate|].
  destruct (Jwt.verify _ (JWT_SECRET env) now) as [e|d] eqn:Hverify;
    [destruct e; intros [= <- <-]; discriminate|].
  apply verify_inr in Hverify as (-> & Henv & _ & Hexp).
  destruct (String.eqb (Jwt.userId p) "") eqn:Hu;
    [intros [= <- <-]; discriminate|].
  destruct (findByPk (Jwt.userId p) (users st)) as [row|] eqn:Hrow;
    [|intros [= <- <-]; discriminate].
  unfold signOut. simpl extractToken. simpl Jwt.falsy. cbv iota.
  rewrite (verify_signed _ _ _ CONTROLLER_SECRET_nonempty Hexp), Hu.
  simpl negb. cbv iota.
  assert (Husers : users (blacklist_add (Jwt.Signed CONTROLLER_SECRET p) st)
                   = users st).
  { unfold blacklist_add. now rewrite Hbl. }
  rewrite Husers, Hrow.
  rewrite save_keeps_password by reflexivity.
  intros [= <- <-] _. exists row. split; [reflexivity|].
  split; [reflexivity|].
  unfold blacklist_add. rewrite Hbl. unfold isTokenBlacklisted. simpl.
  rewrite existsb_app. simpl.
  assert (E : Jwt.eqb (Jwt.Signed CONTROLLER_SECRET p)
                      (Jwt.Signed CONTROLLER_SECRET p) = true)
    by now apply Jwt_eqb_eq.
  rewrite E. now rewrite orb_true_r.
Qed.

(** The lifecycle that claim C1 describes, under the condition it
    needs: the token of the sign-out is one the controller's literal
    verifies.  The stored [tokenVersion] then goes up by exactly one on
    a password change and on a sign-out that the guard lets through;
    profile update, link add and remove, sign-in and refresh leave
    every user's version as it was; and after a password change or
    such a sign-out every refresh token embedding the previous version
    is answered 401. *)
Lemma tokenVersion_lifecycle :
  forall bcrypt_hash bcrypt_compare joi_email is_uuid,
    (forall salt pk newPassword st row,
        findByPk pk (users st) = Some row ->
        newPassword <> User.password row ->
        let st' := changePassword bcrypt_hash salt pk newPassword st in
        version_bumped_once pk st st'
        /\ stale_refresh_rejected is_uuid pk (User.tokenVersion row) st')
    /\ (forall env salt now p st resp st',
           post_signout bcrypt_hash env salt now
                        (Bearer (Jwt.Signed CONTROLLER_SECRET p)) st
           = (resp, st') ->
           status resp = 200 ->
           version_bumped_once (Jwt.userId p) st st'
           /\ forall row,
               findByPk (Jwt.userId p) (users st) = Some row ->
               stale_refresh_rejected is_uuid (Jwt.userId p)
                                      (User.tokenVersion row) st')
    /\ (forall salt userId b file st,
           versions_kept st
             (snd (updateProfile bcrypt_hash joi_email salt userId b file st)))
    /\ (forall salt now userId b st,
           versions_kept st
             (snd (addYoutubeLink bcrypt_hash salt now userId b st)))
    /\ (forall salt userId linkId st,
           versions_kept st
             (snd (removeYoutubeLink bcrypt_hash salt userId linkId st)))
    /\ (forall salt now b st,
           primary_key (users st) ->
           versions_kept st
             (snd (signIn bcrypt_hash bcrypt_compare joi_email salt now b st)))
    /\ (forall now presented st,
           versions_kept st (snd (refreshToken is_uuid now presented st))).
Proof.
  intros h cmp em is_uuid. repeat apply conj.
  - intros salt pk newPassword st row Hrow Hnew st'.
    pose proof (changePassword_row h salt pk newPassword st row Hrow Hnew)
      as Hrow'.
    split.
    + exists row. eexists. split; [exact Hrow|]. split; [exact Hrow'|].
      reflexivity.
    + eapply stale_refresh; [exact Hrow'|]. simpl. lia.
  - intros env salt now p st resp st' Hout Hok.
    destruct (post_signout_accepted _ _ _ _ _ _ _ _ Hout Hok)
      as (row & Hrow & Husers & _).
    pose proof (findByPk_id _ _ _ Hrow) as Hid.
    assert (Hrow' : findByPk (Jwt.userId p) (users st')
                    = Some (User.set_refreshToken None
                              (User.set_tokenVersion
                                 (User.tokenVersion row + 1) row))).
    { rewrite Husers, findByPk_write_row. simpl User.id.
      now rewrite Hid, String.eqb_refl, Hrow. }
    split.
    + exists row. eexists. split; [exact Hrow|]. split; [exact Hrow'|].
      reflexivity.
    + intros row0 Hrow0. rewrite Hrow in Hrow0. injection Hrow0 as <-.
      eapply stale_refresh; [exact Hrow'|]. simpl. lia.
  - intros salt userId b file st.
    destruct (updateProfile_state h em salt userId b file st)
      as [-> | (row & d & Hrow & _ & ->)]; [apply versions_kept_refl|].
    now apply (versions_kept_found st userId row).
  - intros salt now userId b st.
    destruct (addYoutubeLink_state h salt now userId b st)
      as [-> | (row & l & Hrow & ->)]; [apply versions_kept_refl|].
    now apply (versions_kept_found st userId row).
  - intros salt userId linkId st.
    destruct (removeYoutubeLink_state h salt userId linkId st)
      as [-> | (row & l & Hrow & ->)]; [apply versions_kept_refl|].
    now apply (versions_kept_found st userId row).
  - intros salt now b st Hpk.
    destruct (signIn_state h cmp em salt now b st)
      as [-> | (row & t & Hin & ->)]; [apply versions_kept_refl|].
    apply (versions_kept_write st row); try reflexivity.
    now apply primary_key_find.
  - intros now presented st. rewrite refreshToken_state.
    apply versions_kept_refl.
Qed.

(** The same on the sample store, where [JWT_SECRET] is the literal:
    Ann changes her password, Ann signs out, Ann signs in. *)
Lemma tokenVersion_lifecycle_witness :
  version_bumped_once "u-ann" Demo.store
    (changePassword Demo.hash "salt2" "u-ann" "password9" Demo.store)
  /\ version_bumped_once "u-ann" Demo.store
       (snd (post_signout Demo.hash Demo.env "salt" 6000
                          (Bearer Demo.ann_access) Demo.store))
  /\ versions_kept Demo.store
       (snd (signIn Demo.hash Demo.compare Demo.is_email "salt" 6000
                    (mkLogin (Some "ann@x.com") (Some "password1") [])
                    Demo.store)).
Proof.
  pose proof (tokenVersion_lifecycle Demo.hash Demo.compare Demo.is_email
                                     Demo.is_uuid)
    as (Hpw & Hout & _ & _ & _ & Hin & _).
  split; [|split].
  - apply (Hpw "salt2" "u-ann" "password9" Demo.store Demo.ann);
      [reflexivity | discriminate].
  - refine (proj1 (Hout Demo.env "salt" 6000
                         (Jwt.mkPayload "u-ann" None 5 86405) Demo.store
                         _ _ (surjective_pairing _) _)).
    reflexivity.
  - apply Hin. repeat constructor; simpl; intuition discriminate.
Defined.

(** ** Refresh *)

Lemma stored_token_eqb (u : User.t) (token : Jwt.Token) :
  match User.refreshToken u with
  | Some stored => Jwt.eqb stored token
  | None => false
  end = true <-> User.refreshToken u = Some token.
Proof.
  destruct (User.refreshToken u) as [t|].
  - rewrite Jwt_eqb_eq. split; congruence.
  - split; discriminate.
Qed.

Lemma version_eqb (p : Jwt.Payload) (v : Z) :
  match Jwt.version p with
  | Some w => w =? v
  | None => false
  end = true <-> Jwt.version p = Some v.
Proof.
  destruct (Jwt.version p) as [w|].
  - rewrite Z.eqb_eq. split; congruence.
  - split; discriminate.
Qed.

(** C2, as stated, at the empty token: its signature does not verify,
    so the claim promises 401; the handler answers 400. *)
Lemma refreshToken_empty_token_is_400 :
  refresh_refused 0 (Jwt.Malformed "") Demo.store
  /\ fst (refreshToken Demo.is_uuid 0 (Some (Jwt.Malformed "")) Demo.store)
     = fail 400 "Refresh token is required"
  /\ ~ (status (fst (refreshToken Demo.is_uuid 0 (Some (Jwt.Malformed ""))
                                  Demo.store))
        = 401
        <-> refresh_refused 0 (Jwt.Malformed "") Demo.store).
Proof.
  split; [exact I|]. split; [reflexivity|].
  intros [_ H]. specialize (H I). discriminate H.
Qed.

(** C2 (amended). A request without a refresh token, or with the empty
    string, is answered 400.  A token that verifies under the
    controller's secret but names an id that is no uuid makes the query
    for the user throw, and is answered 500.  For every other presented
    token the answer is 401 exactly when the token does not verify
    under the controller's secret (bad signature or expired), or is not
    the token stored for the user it names, or embeds a version other
    than that user's current [tokenVersion]; otherwise it is 200 with a
    fresh one-day access token for that user.  The state, and with it
    the stored refresh token, is never changed. *)
Theorem refreshToken_outcome :
  forall is_uuid,
    (forall now st,
        status (fst (refreshToken is_uuid now None st)) = 400
        /\ status (fst (refreshToken is_uuid now (Some (Jwt.Malformed ""))
                                     st)) = 400)
    /\ (forall now presented st,
           snd (refreshToken is_uuid now presented st) = st)
    /\ (forall now token st,
           Jwt.falsy token = false ->
           (refresh_lookup_throws is_uuid now token st ->
            fst (refreshToken is_uuid now (Some token) st)
            = fail 500 "Failed to refresh token")
           /\ (~ refresh_lookup_throws is_uuid now token st ->
               (status (fst (refreshToken is_uuid now (Some token) st)) = 401
                <-> refresh_refused now token st)
               /\ (~ refresh_refused now token st ->
                   exists p u,
                     Jwt.verify token (Some CONTROLLER_SECRET) now = inr p
                     /\ findByPk (Jwt.userId p) (users st) = Some u
                     /\ User.id u = Jwt.userId p
                     /\ fst (refreshToken is_uuid now (Some token) st)
                        = mkResponse 200
                            (AccessData
                               (Jwt.sign (User.id u) None
                                         CONTROLLER_SECRET ONE_DAY now))))).
Proof.
  intros is_uuid.
  split; [intros; split; reflexivity|].
  split; [apply refreshToken_state|].
  intros now token st Hfalsy.
  unfold refreshToken, refresh_refused, refresh_lookup_throws.
  rewrite Hfalsy.
  destruct (Jwt.verify token (Some CONTROLLER_SECRET) now) as [e|p];
    [split; [contradiction|];
     intros _; split; [split; auto | intros N; now elim N]|].
  destruct (findByPk (Jwt.userId p) (users st)) as [u|] eqn:Hu.
  2:{ destruct (is_uuid (Jwt.userId p)) eqn:Hid.
      - split; [intros [_ F]; discriminate|].
        intros _. split; [split; auto | intros N; now elim N].
      - split; [reflexivity|]. intros N. elim N. now split. }
  split; [intros [F _]; discriminate|]. intros _.
  pose proof (stored_token_eqb u token) as Hs.
  pose proof (version_eqb p (User.tokenVersion u)) as Hv.
  destruct (match User.refreshToken u with
            | Some stored => Jwt.eqb stored token
            | None => false
            end) eqn:Es; simpl negb; cbv iota.
  - destruct (match Jwt.version p with
              | Some v => v =? User.tokenVersion u
              | None => false
              end) eqn:Ev; simpl negb; cbv iota.
    + assert (Hst : User.refreshToken u = Some token) by now apply Hs.
      assert (Hve : Jwt.version p = Some (User.tokenVersion u))
        by now apply Hv.
      split.
      * split; [discriminate|]. intros [N|N]; contradiction.
      * intros _. exists p, u.
        split; [reflexivity|]. split; [exact Hu|].
        split; [now apply findByPk_id in Hu | reflexivity].
    + assert (Hve : Jwt.version p <> Some (User.tokenVersion u)).
      { intros E. apply Hv in E. discriminate. }
      split; [split; auto|]. intros N. elim N. now right.
  - assert (Hst : User.refreshToken u <> Some token).
    { intros E. apply Hs in E. discriminate. }
    split; [split; auto|]. intros N. elim N. now left.
Qed.

(** C2 (amended), on the sample store after Ann signed in at clock
    5000: the refresh token she was given is answered 200, and a token
    the controller's secret signs for the id "42", which is no uuid, is
    answered 500. *)
Lemma refreshToken_outcome_witness :
  let st := snd (signIn Demo.hash Demo.compare Demo.is_email "salt" 5000
                        (mkLogin (Some "ann@x.com") (Some "password1") [])
                        Demo.store) in
  let token := Jwt.sign "u-ann" (Some 0) CONTROLLER_SECRET SEVEN_DAYS 5000 in
  let other := Jwt.sign "42" (Some 0) CONTROLLER_SECRET SEVEN_DAYS 5000 in
  fst (refreshToken Demo.is_uuid 6000 (Some token) st)
  = mkResponse 200
      (AccessData (Jwt.sign "u-ann" None CONTROLLER_SECRET ONE_DAY 6000))
  /\ fst (refreshToken Demo.is_uuid 6000 (Some other) st)
     = fail 500 "Failed to refresh token".
Proof.
  intros st token other. split.
  - destruct (proj2 (proj2 (refreshToken_outcome Demo.is_uuid))
                    6000 token st eq_refl) as [_ H].
    destruct H as [_ H]; [vm_compute; intros [F _]; discriminate|].
    destruct H as (p & u & Hp & Hu & _ & Hr).
    + vm_compute. intros [N|N]; apply N; reflexivity.
    + vm_compute in Hp. injection Hp as <-.
      vm_compute in Hu. injection Hu as <-. exact Hr.
  - apply (proj2 (proj2 (refreshToken_outcome Demo.is_uuid))
                 6000 other st eq_refl).
    vm_compute. split; reflexivity.
Defined.

(** ** The guard *)

Lemma save_current bcrypt_hash salt i tb :
  snd (save bcrypt_hash salt i tb)
  = write_row (current (fst (save bcrypt_hash salt i tb))) tb
  /\ User.id (current (fst (save bcrypt_hash salt i tb)))
     = User.id (current i).
Proof.
  unfold save, beforeUpdate. destruct (changed_password i); simpl; auto.
Qed.

(** The round trip of claim C5 under the condition it needs: the
    environment's [JWT_SECRET] is the literal the controller signs
    with. *)
Lemma authorize_accepts_issued bcrypt_hash env salt now now' user tb row
      accessToken refreshToken user' tb' blacklist :
  JWT_SECRET env = Some CONTROLLER_SECRET ->
  generateTokens bcrypt_hash salt now user tb
  = (accessToken, refreshToken, user', tb') ->
  findByPk (User.id (current user)) tb = Some row ->
  User.id (current user) <> "" ->
  isTokenBlacklisted (mkState tb' blacklist) accessToken = false ->
  now' / 1000 < now / 1000 + ONE_DAY ->
  exists u,
    authorize env now' (Bearer accessToken) (mkState tb' blacklist) = inr u
    /\ User.id u = User.id (current user).
Proof.
  intros Henv Hgen Hrow Hid Hbl Hexp. unfold generateTokens in Hgen.
  match type of Hgen with
  | context [save ?h ?s ?i ?t] =>
      pose proof (save_current h s i t) as [Hsnd Hcur];
      destruct (save h s i t) as [i2 t2]
  end.
  simpl in Hsnd, Hcur. injection Hgen as <- <- <- <-.
  unfold authorize. simpl extractToken. unfold Jwt.sign at 1.
  simpl Jwt.falsy. cbv iota. unfold Jwt.sign in Hbl. rewrite Hbl, Henv.
  rewrite verify_signed by (exact CONTROLLER_SECRET_nonempty || exact Hexp).
  simpl Jwt.userId. apply String.eqb_neq in Hid. rewrite Hid.
  simpl users. rewrite Hsnd, findByPk_write_row, Hcur, String.eqb_refl, Hrow.
  exists (current i2). split; [reflexivity | exact Hcur].
Qed.

(** C5, at the failing configuration: [JWT_SECRET] is not set.  Ann
    signs in on the sample store and presents the access token she was
    just given; the guard answers 401. *)
Theorem authorize_rejects_issued_token_without_env_secret :
  let '(resp, st) :=
    signIn Demo.hash Demo.compare Demo.is_email "salt" 5000
           (mkLogin (Some "ann@x.com") (Some "password1") []) Demo.store in
  resp = mkResponse 200
           (AuthData Demo.ann_access
              (Jwt.sign "u-ann" (Some 0) CONTROLLER_SECRET SEVEN_DAYS 5000)
              (delete "refreshToken"
                 (delete "password"
                    (toJSON (User.set_refreshToken
                               (Some (Jwt.sign "u-ann" (Some 0)
                                        CONTROLLER_SECRET SEVEN_DAYS 5000))
                               Demo.ann)))))
  /\ authorize (mkEnv None) 5000 (Bearer Demo.ann_access) st
     = inl (fail 401 "Invalid authentication token. Please log in again.")
  /\ authorize (mkEnv (Some "another secret")) 5000
               (Bearer Demo.ann_access) st
     = inl (fail 401 "Invalid authentication token. Please log in again.").
Proof. vm_compute. repeat split. Qed.

(** ** Sign-out *)

(** C6, as stated, at an expired token: Ann's access token of clock
    5000 presented two days later is answered 401 by the guard, and the
    handler is not reached. *)
Lemma post_signout_expired_token_is_401 :
  post_signout Demo.hash Demo.env "salt" (5000 + 2 * 86400 * 1000)
               (Bearer Demo.ann_access) Demo.store
  = (fail 401 "Your session has expired. Please log in again.", Demo.store).
Proof. reflexivity. Qed.

Lemma authorize_bearer_401 env now token st r :
  authorize env now (Bearer token) st = inl r -> status r = 401.
Proof.
  unfold authorize. simpl extractToken. cbv iota.
  repeat match goal with
         | |- context [match ?x with _ => _ end] => destruct x
         end; intros [= <-]; reflexivity.
Qed.

Lemma signOut_bearer_200 bcrypt_hash salt now token req_user st :
  status (fst (signOut bcrypt_hash salt now (Bearer token) req_user st)) = 200.
Proof.
  unfold signOut. simpl extractToken. cbv iota.
  destruct (Jwt.falsy token); [reflexivity|].
  destruct (Jwt.verify _ _ _); [reflexivity|].
  destruct (negb _); [|reflexivity].
  destruct req_user; [|reflexivity].
  destruct (findByPk _ _); [|reflexivity].
  now destruct (save _ _ _ _).
Qed.

(** C6 (amended). The [signOut] handler answers 200 for every bearer
    token, valid or not, but the route reaches it only through
    [authorize]: a request carrying a bearer token is answered 200 when
    the guard accepts the token and 401 when it does not (empty,
    blacklisted, not verifying under [JWT_SECRET], expired, or naming no
    user). *)
Theorem post_signout_status :
  forall bcrypt_hash env salt now token st,
    (forall req_user,
        status (fst (signOut bcrypt_hash salt now (Bearer token) req_user st))
        = 200)
    /\ match authorize env now (Bearer token) st with
       | inr _ =>
           status (fst (post_signout bcrypt_hash env salt now
                                     (Bearer token) st)) = 200
       | inl _ =>
           status (fst (post_signout bcrypt_hash env salt now
                                     (Bearer token) st)) = 401
           /\ snd (post_signout bcrypt_hash env salt now (Bearer token) st)
              = st
       end.
Proof.
  intros h env salt now token st. split.
  - intros req_user. apply signOut_bearer_200.
  - unfold post_signout, guarded.
    destruct (authorize env now (Bearer token) st) as [r|u] eqn:Ha.
    + split; [|reflexivity]. simpl. now apply authorize_bearer_401 in Ha.
    + apply signOut_bearer_200.
Qed.

Lemma refreshToken_users is_uuid now presented st st' :
  users st' = users st ->
  fst (refreshToken is_uuid now presented st')
  = fst (refreshToken is_uuid now presented st).
Proof.
  intros Hu. unfold refreshToken. rewrite Hu.
  repeat match goal with
         | |- context [match ?x with _ => _ end] => destruct x
         end; reflexivity.
Qed.

(** C1, at the failing configuration: [JWT_SECRET] is not the literal
    that [signOut] verifies with.  A sign-out that the guard lets
    through is answered 200, and yet no sign-out changes any row: no
    [tokenVersion] goes up, no stored refresh token is cleared, and
    every refresh request is answered after the sign-out as it was
    before. *)
Theorem signOut_under_other_secret_bumps_nothing :
  forall bcrypt_hash is_uuid env salt now auth st,
    JWT_SECRET env <> Some CONTROLLER_SECRET ->
    let r := post_signout bcrypt_hash env salt now auth st in
    users (snd r) = users st
    /\ (forall u, authorize env now auth st = inr u -> status (fst r) = 200)
    /\ (forall now' presented,
           fst (refreshToken is_uuid now' presented (snd r))
           = fst (refreshToken is_uuid now' presented st)).
Proof.
  intros h is_uuid env salt now auth st Henv r.
  assert (Husers : users (snd r) = users st).
  { subst r. unfold post_signout, guarded.
    destruct (authorize env now auth st) as [resp|u] eqn:Ha;
      [reflexivity|].
    unfold authorize in Ha.
    destruct auth as [| | |t]; simpl extractToken in Ha; cbv iota in Ha;
      try discriminate.
    destruct (Jwt.falsy t) eqn:Hf; [discriminate|].
    destruct (isTokenBlacklisted st t); [discriminate|].
    destruct t as [s|key p]; [discriminate|].
    destruct (Jwt.verify (Jwt.Signed key p) (JWT_SECRET env) now)
      as [e|d] eqn:Hv; [destruct e; discriminate|].
    apply verify_inr in Hv as (_ & Hkey & _).
    unfold signOut. simpl extractToken. cbv iota. rewrite Hf.
    destruct (Jwt.verify (Jwt.Signed key p) (Some CONTROLLER_SECRET) now)
      as [e'|d'] eqn:Hv';
      [cbn [snd]; unfold blacklist_add;
       now destruct (isTokenBlacklisted st _)|].
    apply verify_inr in Hv' as (_ & Hkey' & _).
    elim Henv. congruence. }
  split; [exact Husers|]. split.
  - intros u Ha. subst r. unfold post_signout, guarded. rewrite Ha.
    unfold authorize in Ha.
    destruct auth as [| | |t]; simpl extractToken in Ha; cbv iota in Ha;
      try discriminate.
    apply signOut_bearer_200.
  - intros now' presented. now apply refreshToken_users.
Qed.

(** C1, on the sample store with [JWT_SECRET] set to another secret:
    Ann signs in at clock 5000; a sign-out with a token for Ann that
    the guard accepts is answered 200, Ann's [tokenVersion] is still 0
    and the refresh token of clock 5000 is still answered 200. *)
Lemma signOut_under_other_secret_bumps_nothing_witness :
  let env := mkEnv (Some "another secret") in
  let st := snd (signIn Demo.hash Demo.compare Demo.is_email "salt" 5000
                        (mkLogin (Some "ann@x.com") (Some "password1") [])
                        Demo.store) in
  let refresh := Jwt.sign "u-ann" (Some 0) CONTROLLER_SECRET SEVEN_DAYS 5000 in
  let bearer := Jwt.sign "u-ann" None "another secret" ONE_DAY 5000 in
  let r := post_signout Demo.hash env "salt" 6000 (Bearer bearer) st in
  status (fst r) = 200
  /\ option_map User.tokenVersion (findByPk "u-ann" (users (snd r))) = Some 0
  /\ option_map User.refreshToken (findByPk "u-ann" (users (snd r)))
     = Some (Some refresh)
  /\ status (fst (refreshToken Demo.is_uuid 7000 (Some refresh) (snd r)))
     = 200.
Proof.
  intros env st refresh bearer r.
  assert (Henv : JWT_SECRET env <> Some CONTROLLER_SECRET) by discriminate.
  destruct (signOut_under_other_secret_bumps_nothing
              Demo.hash Demo.is_uuid env "salt" 6000 (Bearer bearer) st Henv)
    as (Husers & Hok & Href).
  fold r in Husers, Hok, Href.
  split; [|split; [|split]].
  - eapply Hok. reflexivity.
  - rewrite Husers. reflexivity.
  - rewrite Husers. reflexivity.
  - rewrite Href. reflexivity.
Defined.

(** ** Sorting and slicing *)

Section SortFacts.
Context {A : Type} (cmp : A -> A -> Z).

Lemma insert_sorted_perm x l : Permutation (insert_sorted cmp x l) (x :: l).
Proof.
  induction l as [|y t IH]; simpl; [reflexivity|].
  destruct (cmp x y <=? 0); [reflexivity|].
  rewrite IH. apply perm_swap.
Qed.

Lemma sort_perm l : Permutation (sort cmp l) l.
Proof.
  induction l as [|x l IH]; simpl; [reflexivity|].
  rewrite insert_sorted_perm. now constructor.
Qed.

Variable le : A -> A -> Prop.
Hypothesis cmp_le : forall x y, cmp x y <= 0 <-> le x y.
Hypothesis le_total : forall x y, le x y \/ le y x.
Hypothesis le_trans : forall x y z, le x y -> le y z -> le x z.

Lemma insert_sorted_sorted x l :
  StronglySorted le l -> StronglySorted le (insert_sorted cmp x l).
Proof.
  induction 1 as [|y t Hs IH Hy]; simpl.
  - constructor; constructor.
  - destruct (cmp x y <=? 0) eqn:E.
    + apply Z.leb_le, cmp_le in E.
      constructor; [now constructor|].
      constructor; [exact E|].
      eapply Forall_impl; [|exact Hy]. intros z Hz. now apply (le_trans x y z).
    + apply Z.leb_gt in E.
      assert (Hyx : le y x).
      { destruct (le_total x y) as [H|H]; [|exact H].
        apply cmp_le in H. lia. }
      constructor; [exact IH|].
      eapply Permutation_Forall;
        [symmetry; apply insert_sorted_perm|].
      now constructor.
Qed.

Lemma sort_sorted l : StronglySorted le (sort cmp l).
Proof.
  induction l as [|x l IH]; simpl; [constructor|].
  now apply insert_sorted_sorted.
Qed.
End SortFacts.

Lemma Forall_firstn {A : Type} (P : A -> Prop) n (l : list A) :
  Forall P l -> Forall P (firstn n l).
Proof.
  intros H. revert n. induction H; intros [|n]; simpl; constructor; auto.
Qed.

Lemma Forall_skipn {A : Type} (P : A -> Prop) n (l : list A) :
  Forall P l -> Forall P (skipn n l).
Proof.
  intros H. revert n. induction H; intros [|n]; simpl; auto.
Qed.

Lemma Forall_slice {A : Type} (P : A -> Prop) (l : list A) a b :
  Forall P l -> Forall P (slice l a b).
Proof. intros H. unfold slice. now apply Forall_firstn, Forall_skipn. Qed.

(** Between [0] and the length, [slice] is the segment of positions. *)
Lemma slice_segment {A : Type} (l : list A) a b :
  0 <= a -> 0 <= b <= Z.of_nat (List.length l) ->
  (Z.of_nat (List.length l) < a -> b = Z.of_nat (List.length l)) ->
  slice l a b = segment l a b.
Proof.
  intros Ha Hb Hab. unfold slice, segment.
  assert (E1 : (a <? 0) = false) by (apply Z.ltb_ge; lia).
  assert (E2 : (b <? 0) = false) by (apply Z.ltb_ge; lia).
  rewrite E1, E2. rewrite (Z.min_l b) by lia.
  destruct (Z_le_gt_dec a (Z.of_nat (List.length l))) as [Hle|Hgt].
  - now rewrite (Z.min_l a) by lia.
  - rewrite (Z.min_r a) by lia. rewrite Hab by lia.
    rewrite Z.sub_diag. simpl firstn.
    rewrite (skipn_all2 l) by lia. now rewrite firstn_nil.
Qed.

(** ** Responses without the password *)

Lemma public_user_no_password u : has_key "password" (public_user u) = false.
Proof. destruct u. reflexivity. Qed.

Lemma deleted_no_password u :
  has_key "password" (delete "refreshToken" (delete "password" (toJSON u)))
  = false.
Proof. destruct u. reflexivity. Qed.

Lemma content_item_no_password now u link :
  Forall (fun c => has_key "password" (c_user c) = false)
         (content_item now u link).
Proof.
  unfold content_item.
  destruct (_ || _); constructor; [|constructor].
  destruct u. reflexivity.
Qed.

Lemma Forall_flat_map {A B : Type} (P : B -> Prop) (f : A -> list B) l :
  (forall x, Forall P (f x)) -> Forall P (flat_map f l).
Proof.
  intros H. induction l as [|x l IH]; simpl; [constructor|].
  apply Forall_app. split; auto.
Qed.

Lemma user_content_no_password now u :
  Forall (fun c => has_key "password" (c_user c) = false)
         (user_content now u).
Proof.
  unfold user_content. destruct (User.youtubeLinks u) as [[|l ls]|];
    try constructor.
  apply Forall_flat_map. intros; apply content_item_no_password.
Qed.

Ltac split_handler :=
  repeat match goal with
         | |- context [match ?x with _ => _ end] =>
             lazymatch x with
             | context [write_row] => fail
             | _ => destruct x eqn:?
             end
         end.

(** C9. No user object carried by a response of any handler has a
    [password] key: sign-up, sign-in, the user listing, user by id, own
    profile, profile update, link add and remove, and the content feed. *)
Theorem responses_carry_no_password :
  forall bcrypt_hash bcrypt_compare joi_email,
    (forall salt uuid now b st,
        no_password (fst (signUp bcrypt_hash joi_email salt uuid now b st)))
    /\ (forall salt now b st,
           no_password
             (fst (signIn bcrypt_hash bcrypt_compare joi_email salt now b st)))
    /\ (forall page_q limit_q st,
           no_password (fst (getUsers page_q limit_q st)))
    /\ (forall userId st, no_password (fst (getUserById userId st)))
    /\ (forall userId st, no_password (fst (getProfile userId st)))
    /\ (forall salt userId b file st,
           no_password
             (fst (updateProfile bcrypt_hash joi_email salt userId b file st)))
    /\ (forall salt now userId b st,
           no_password (fst (addYoutubeLink bcrypt_hash salt now userId b st)))
    /\ (forall salt userId linkId st,
           no_password
             (fst (removeYoutubeLink bcrypt_hash salt userId linkId st)))
    /\ (forall now q st, no_password (fst (getAllContent now q st))).
Proof.
  intros h cmp em. unfold no_password. repeat apply conj.
  - intros. unfold signUp, generateTokens. split_handler; simpl;
      repeat constructor.
    all: try apply deleted_no_password.
  - intros. unfold signIn, generateTokens. split_handler; simpl;
      repeat constructor.
    all: try apply deleted_no_password.
  - intros. unfold getUsers. destruct (_ || _); simpl; [constructor|].
    apply Forall_map, Forall_forall. intros; apply public_user_no_password.
  - intros. unfold getUserById. split_handler; simpl; repeat constructor.
    all: try apply public_user_no_password.
  - intros. unfold getProfile. split_handler; simpl; repeat constructor.
    all: try apply public_user_no_password.
  - intros. unfold updateProfile. split_handler; simpl; repeat constructor.
    all: try apply public_user_no_password.
  - intros. unfold addYoutubeLink. split_handler; simpl; repeat constructor.
    all: try apply public_user_no_password.
  - intros. unfold removeYoutubeLink. split_handler; simpl;
      repeat constructor.
    all: try apply public_user_no_password.
  - intros. unfold getAllContent.
    destruct (validate_getAllContent q); simpl; [constructor|].
    apply Forall_map, Forall_slice.
    eapply Permutation_Forall; [symmetry; apply sort_perm|].
    apply Forall_flat_map. intros; apply user_content_no_password.
Qed.

(** ** The content feed *)

Lemma first_error_cons c cs :
  Joi.first_error (c :: cs) = None -> c = None /\ Joi.first_error cs = None.
Proof. destruct c; simpl; [discriminate | auto]. Qed.

(** A value the schema lets through is absent, or one in which Joi
    reads a safe integer within the bounds. *)
Lemma integer_key_ok k lo hi v :
  Joi.integer_key k lo hi v = None ->
  match Joi.number v with
  | None => True
  | Some n =>
      exists z,
        n = Joi.Integer z
        /\ - Joi.MAX_SAFE_INTEGER <= z <= Joi.MAX_SAFE_INTEGER
        /\ lo <= z
        /\ match hi with Some h => z <= h | None => True end
  end.
Proof.
  unfold Joi.integer_key.
  destruct (Joi.number v) as [[c| |z]|]; try discriminate; [|auto].
  destruct (Joi.unsafe z) eqn:Eu; [discriminate|].
  destruct (z <? lo) eqn:El; [discriminate|]. apply Z.ltb_ge in El.
  intros H. exists z. split; [reflexivity|].
  unfold Joi.unsafe in Eu. apply orb_false_iff in Eu as [E1 E2].
  apply Z.ltb_ge in E1, E2. split; [lia|]. split; [exact El|].
  destruct hi as [h|]; [|exact I].
  destruct (h <? z) eqn:Eh; [discriminate|]. now apply Z.ltb_ge in Eh.
Qed.

(** The decimal numerals the schema lets through. *)
Lemma integer_key_numeral k lo hi z :
  Joi.integer_key k lo hi (Joi.QInt z) = None
  <-> - Joi.MAX_SAFE_INTEGER <= z <= Joi.MAX_SAFE_INTEGER
      /\ lo <= z
      /\ match hi with Some h => z <= h | None => True end.
Proof.
  unfold Joi.integer_key, Joi.number, Joi.unsafe.
  destruct (Z.ltb_spec z (- Joi.MAX_SAFE_INTEGER));
    destruct (Z.ltb_spec Joi.MAX_SAFE_INTEGER z); cbn [orb];
    try (split; [discriminate | lia]).
  destruct (Z.ltb_spec z (- Joi.MAX_SAFE_INTEGER)); [lia|].
  destruct (Z.ltb_spec Joi.MAX_SAFE_INTEGER z); [lia|]. cbn [orb].
  destruct (Z.ltb_spec z lo); [split; [discriminate | lia]|].
  destruct hi as [h|]; [|split; [lia | reflexivity]].
  destruct (Z.ltb_spec h z); split; try discriminate; try lia; reflexivity.
Qed.

(** The clamps of the handler, whatever the query. *)
Lemma served_values q :
  Z.max 1 (Joi.parseInt_or (q_page q) 1) = served_page q
  /\ Z.min 50 (Z.max 1 (Joi.parseInt_or (q_limit q) 10)) = served_limit q
  /\ 1 <= served_page q
  /\ 1 <= served_limit q <= 50.
Proof.
  unfold served_page, served_limit, Joi.parseInt_or.
  destruct (Joi.parseInt (q_page q)) as [p|];
    destruct (Joi.parseInt (q_limit q)) as [l|];
    repeat match goal with
           | |- context [?x =? ?y] => destruct (Z.eqb_spec x y)
           | |- context [?x <? ?y] => destruct (Z.ltb_spec x y)
           end; lia.
Qed.

Lemma validated_query q :
  validate_getAllContent q = None ->
  (forall z, q_page q = Joi.QInt z ->
             1 <= z <= Joi.MAX_SAFE_INTEGER /\ served_page q = z)
  /\ (forall z, q_limit q = Joi.QInt z -> 1 <= z <= 50 /\ served_limit q = z)
  /\ (q_page q = Joi.QAbsent -> served_page q = 1)
  /\ (q_limit q = Joi.QAbsent -> served_limit q = 10)
  /\ In (requested_sort q) ["newest"; "oldest"; "popular"]
  /\ match q_sortBy q with
     | Some s =>
         if existsb (String.eqb s) ["newest"; "oldest"; "popular"]
         then s else "newest"
     | None => "newest"
     end = requested_sort q.
Proof.
  unfold validate_getAllContent. intros H.
  apply first_error_cons in H as [Hp H].
  apply first_error_cons in H as [Hl H].
  apply first_error_cons in H as [Hs _].
  unfold served_page, served_limit, requested_sort.
  split; [|split; [|split; [|split; [|split]]]].
  - intros z Hz. rewrite Hz in Hp |- *.
    apply integer_key_numeral in Hp. cbn [Joi.parseInt].
    destruct (Z.ltb_spec z 1); lia.
  - intros z Hz. rewrite Hz in Hl |- *.
    apply integer_key_numeral in Hl. cbn [Joi.parseInt].
    destruct (Z.eqb_spec z 0); [lia|].
    destruct (Z.ltb_spec z 1); [lia|].
    destruct (Z.ltb_spec 50 z); lia.
  - intros ->. reflexivity.
  - intros ->. reflexivity.
  - destruct (q_sortBy q) as [s|]; [|simpl; auto].
    destruct (existsb (String.eqb s) ["newest"; "oldest"; "popular"])
      eqn:Es; [|discriminate].
    apply existsb_exists in Es. destruct Es as (x & Hx & Ex).
    apply String.eqb_eq in Ex. now subst x.
  - destruct (q_sortBy q) as [s|]; [|reflexivity].
    destruct (existsb (String.eqb s) ["newest"; "oldest"; "popular"])
      eqn:Es; [reflexivity | discriminate].
Qed.

(** C4, as stated, at [limit=100] and at [page=0]: the claim promises a
    200 with the values clamped; validation answers 400. *)
Lemma getAllContent_out_of_range_is_400 :
  fst (getAllContent 0 (mkQuery Joi.QAbsent (Joi.QInt 100) None [])
                     Demo.store)
  = mkResponse 400 (Invalid (Joi.mkError "limit" "number.max"))
  /\ fst (getAllContent 0 (mkQuery (Joi.QInt 0) Joi.QAbsent None [])
                        Demo.store)
     = mkResponse 400 (Invalid (Joi.mkError "page" "number.min")).
Proof. split; reflexivity. Qed.

(** C4 (amended). The schema decides on what Joi reads: a [limit] that
    Joi reads as an integer outside [1, 50] and a [page] that it reads
    as an integer below 1 are rejected with 400, however they are
    written.  Every request that passes validation is answered 200,
    with the numbers that [parseInt] reads: the page is that number, or
    1 where [parseInt] reads none or one below 1, and the limit is that
    number brought into [1, 50], or 10 where it reads none or zero; so
    the page is at least 1 and the limit within [1, 50].  For a page
    and a limit written as decimal numerals these are the numbers
    supplied, and the clamps do nothing; they act on the texts that the
    two readers take differently. *)
Theorem getAllContent_page_and_limit :
  forall now q st,
    (forall z, Joi.number (q_limit q) = Some (Joi.Integer z) ->
               z < 1 \/ 50 < z ->
               status (fst (getAllContent now q st)) = 400)
    /\ (forall z, Joi.number (q_page q) = Some (Joi.Integer z) -> z < 1 ->
                  status (fst (getAllContent now q st)) = 400)
    /\ (forall z, q_limit q = Joi.QInt z -> z < 1 \/ 50 < z ->
                  status (fst (getAllContent now q st)) = 400)
    /\ (forall z, q_page q = Joi.QInt z -> z < 1 ->
                  status (fst (getAllContent now q st)) = 400)
    /\ (validate_getAllContent q = None ->
        exists pg,
          status (fst (getAllContent now q st)) = 200
          /\ page_meta (fst (getAllContent now q st)) = Some pg
          /\ currentPage pg = served_page q
          /\ limit pg = served_limit q
          /\ 1 <= currentPage pg
          /\ 1 <= limit pg <= 50
          /\ (forall z, q_page q = Joi.QInt z -> currentPage pg = z)
          /\ (forall z, q_limit q = Joi.QInt z -> limit pg = z)
          /\ (q_page q = Joi.QAbsent -> currentPage pg = 1)
          /\ (q_limit q = Joi.QAbsent -> limit pg = 10)).
Proof.
  intros now q st.
  assert (Hlimit : forall z, Joi.number (q_limit q) = Some (Joi.Integer z) ->
                             z < 1 \/ 50 < z ->
                             status (fst (getAllContent now q st)) = 400).
  { intros z Hz Hrange. unfold getAllContent.
    destruct (validate_getAllContent q) eqn:Hv; [reflexivity|].
    unfold validate_getAllContent in Hv.
    apply first_error_cons in Hv as [_ Hv].
    apply first_error_cons in Hv as [Hl _].
    apply integer_key_ok in Hl. rewrite Hz in Hl.
    destruct Hl as (z' & [= <-] & _ & Hlo & Hhi). lia. }
  assert (Hpage : forall z, Joi.number (q_page q) = Some (Joi.Integer z) ->
                            z < 1 ->
                            status (fst (getAllContent now q st)) = 400).
  { intros z Hz Hrange. unfold getAllContent.
    destruct (validate_getAllContent q) eqn:Hv; [reflexivity|].
    unfold validate_getAllContent in Hv.
    apply first_error_cons in Hv as [Hp _].
    apply integer_key_ok in Hp. rewrite Hz in Hp.
    destruct Hp as (z' & [= <-] & _ & Hlo & _). lia. }
  split; [exact Hlimit|]. split; [exact Hpage|].
  split; [|split].
  - intros z Hz Hrange. unfold getAllContent.
    destruct (validate_getAllContent q) eqn:Hv; [reflexivity|].
    apply validated_query in Hv as (_ & Hl & _).
    destruct (Hl z Hz). lia.
  - intros z Hz Hrange. unfold getAllContent.
    destruct (validate_getAllContent q) eqn:Hv; [reflexivity|].
    apply validated_query in Hv as (Hp & _).
    destruct (Hp z Hz). lia.
  - intros Hv. unfold getAllContent. rewrite Hv.
    destruct (served_values q) as (-> & -> & Hp & Hl).
    destruct (validated_query q Hv) as (Hqp & Hql & Hap & Hal & _).
    eexists. split; [reflexivity|]. split; [reflexivity|].
    cbn [currentPage limit pagination_of].
    split; [reflexivity|]. split; [reflexivity|].
    split; [exact Hp|]. split; [exact Hl|].
    split; [intros z Hz; now destruct (Hqp z Hz)|].
    split; [intros z Hz; now destruct (Hql z Hz)|].
    split; assumption.
Qed.

(** C4 (amended), at [limit=100], at [page=0], at [page=2&limit=5], and
    at [limit=100e-1], which Joi reads as 10 and [parseInt] as 100: the
    request passes and is served with the limit 50. *)
Lemma getAllContent_page_and_limit_witness :
  status (fst (getAllContent 0 (mkQuery Joi.QAbsent (Joi.QInt 100) None [])
                             Demo.store)) = 400
  /\ status (fst (getAllContent 0 (mkQuery (Joi.QInt 0) Joi.QAbsent None [])
                                Demo.store)) = 400
  /\ (exists pg,
         page_meta (fst (getAllContent 0
                           (mkQuery (Joi.QInt 2) (Joi.QInt 5) None [])
                           Demo.store)) = Some pg
         /\ currentPage pg = 2 /\ limit pg = 5)
  /\ (exists pg,
         page_meta (fst (getAllContent 0
                           (mkQuery Joi.QAbsent
                                    (Joi.QText (Joi.Integer 10) (Some 100))
                                    None [])
                           Demo.store)) = Some pg
         /\ currentPage pg = 1 /\ limit pg = 50).
Proof.
  split; [|split; [|split]].
  - apply (proj1 (proj2 (proj2 (getAllContent_page_and_limit
                                  0 (mkQuery Joi.QAbsent (Joi.QInt 100)
                                             None [])
                                  Demo.store))) 100 eq_refl).
    right. reflexivity.
  - apply (proj1 (proj2 (proj2 (proj2 (getAllContent_page_and_limit
                                         0 (mkQuery (Joi.QInt 0) Joi.QAbsent
                                                    None [])
                                         Demo.store)))) 0 eq_refl).
    reflexivity.
  - destruct (proj2 (proj2 (proj2 (proj2 (getAllContent_page_and_limit
                              0 (mkQuery (Joi.QInt 2) (Joi.QInt 5) None [])
                              Demo.store)))) eq_refl)
      as (pg & _ & Hm & _ & _ & _ & _ & Hp & Hl & _).
    exists pg. split; [exact Hm|].
    split; [exact (Hp 2 eq_refl) | exact (Hl 5 eq_refl)].
  - destruct (proj2 (proj2 (proj2 (proj2 (getAllContent_page_and_limit
                              0 (mkQuery Joi.QAbsent
                                         (Joi.QText (Joi.Integer 10)
                                                    (Some 100))
                                         None [])
                              Demo.store)))) eq_refl)
      as (pg & _ & Hm & Hp & Hl & _).
    exists pg. split; [exact Hm|]. split; [exact Hp | exact Hl].
Defined.

Lemma getSortFn_feed_order sortBy a b :
  In sortBy ["newest"; "oldest"; "popular"] ->
  getSortFn sortBy a b <= 0 <-> feed_order sortBy a b.
Proof.
  unfold getSortFn, feed_order.
  intros [<-|[<-|[<-|[]]]]; simpl; lia.
Qed.

Lemma feed_order_total sortBy a b :
  feed_order sortBy a b \/ feed_order sortBy b a.
Proof. unfold feed_order. destruct (String.eqb sortBy "oldest"); lia. Qed.

Lemma feed_order_trans sortBy a b c :
  feed_order sortBy a b -> feed_order sortBy b c -> feed_order sortBy a c.
Proof. unfold feed_order. destruct (String.eqb sortBy "oldest"); lia. Qed.

Lemma user_content_links now u :
  user_content now u = flat_map (content_item now u) (currentLinks u).
Proof.
  unfold user_content, currentLinks.
  now destruct (User.youtubeLinks u) as [[|l ls]|].
Qed.

Lemma user_content_without_links now u :
  has_links u = false -> user_content now u = [].
Proof.
  unfold has_links, user_content.
  now destruct (User.youtubeLinks u) as [[|l ls]|].
Qed.

Lemma flat_map_has_links now tb :
  flat_map (user_content now) (filter has_links tb)
  = flat_map (user_content now) tb.
Proof.
  induction tb as [|u tb IH]; simpl; [reflexivity|].
  destruct (has_links u) eqn:E; simpl.
  - now rewrite IH.
  - now rewrite (user_content_without_links now u E), IH.
Qed.

(** The inner [forEach] keeps exactly the entries that have an id and
    a url, and makes of each the feed item of the reference. *)
Lemma content_item_feed_item now u l :
  content_item now u l
  = if has_id_and_url l then [feed_item now u l] else [].
Proof.
  unfold content_item, has_id_and_url, feed_item, owner, or_else, truthy.
  destruct l as [i x t d]. cbn [Link.id Link.url Link.title Link.addedAt].
  destruct i as [i|]; [|reflexivity].
  destruct x as [x|]; [|now destruct (String.eqb i "")].
  destruct (String.eqb i ""); [reflexivity|].
  destruct (String.eqb x ""); [reflexivity|].
  cbn [negb orb andb]. do 2 f_equal.
  destruct t as [t|]; [|reflexivity]. now destruct (String.eqb t "").
Qed.

Lemma user_content_feed_items now u :
  user_content now u
  = map (feed_item now u) (filter has_id_and_url (currentLinks u)).
Proof.
  rewrite user_content_links.
  induction (currentLinks u) as [|l ls IH]; [reflexivity|].
  cbn [flat_map filter]. rewrite IH, content_item_feed_item.
  now destruct (has_id_and_url l).
Qed.

(** The unsorted [allContent] array holds the items of every user. *)
Lemma allContent_all_items now st :
  Permutation
    (flat_map (user_content now)
       (sort by_created_at_desc (filter has_links (users st))))
    (all_items now st).
Proof.
  rewrite (Permutation_flat_map _ (sort_perm by_created_at_desc _)).
  rewrite flat_map_has_links. unfold all_items.
  erewrite flat_map_ext; [reflexivity|].
  intros u. apply user_content_feed_items.
Qed.

Lemma or_else_nonempty s d :
  String.eqb s "" = false -> or_else (Some s) d = s.
Proof. intros H. unfold or_else, truthy. now rewrite H. Qed.

(** The feed handler on a validated query, with the served page and
    limit in place of the parsed and clamped ones. *)
Lemma getAllContent_validated now q st :
  validate_getAllContent q = None ->
  let sorted :=
    sort (getSortFn (requested_sort q))
         (flat_map (user_content now)
            (sort by_created_at_desc (filter has_links (users st)))) in
  let total := Z.of_nat (List.length sorted) in
  let startIndex := (served_page q - 1) * served_limit q in
  let endIndex := Z.min (startIndex + served_limit q) total in
  getAllContent now q st
  = (mkResponse 200
       (ContentPage (segment sorted startIndex endIndex)
                    (pagination_of total (served_limit q)
                                   (served_page q) endIndex)),
     st).
Proof.
  intros Hv. destruct (validated_query q Hv) as (_ & _ & _ & _ & Hs & Es).
  destruct (served_values q) as (Ep & El & Hp & Hl).
  unfold getAllContent. rewrite Hv, Ep, El, Es.
  cbv zeta. rewrite slice_segment; [reflexivity| | |]; nia.
Qed.

Section Example.
(** A holds two links, B one. *)
Variables (now : Z) (a b : User.t).
Variables (i1 u1 i2 u2 i3 u3 : string) (t1 t2 t3 : option string).
Variables (d1 d2 d3 : Z).

Let A := User.set_youtubeLinks
           (Some [Link.mk (Some i1) (Some u1) t1 (Some d1);
                  Link.mk (Some i2) (Some u2) t2 (Some d2)]) a.
Let B := User.set_youtubeLinks
           (Some [Link.mk (Some i3) (Some u3) t3 (Some d3)]) b.

Hypothesis named : Forall (fun s => s <> "") [i1; i2; i3; u1; u2; u3].
Hypothesis dated : d1 < d3 < d2.

Lemma example_sorted sortBy :
  In sortBy ["newest"; "oldest"; "popular"] ->
  let sorted :=
    sort (getSortFn sortBy)
         (flat_map (user_content now)
            (sort by_created_at_desc (filter has_links [A; B]))) in
  map (fun c => (c_id c, c_addedAt c)) sorted
  = if String.eqb sortBy "oldest"
    then [(i1, d1); (i3, d3); (i2, d2)]
    else [(i2, d2); (i3, d3); (i1, d1)].
Proof.
  intros Hs.
  repeat match goal with
         | H : Forall _ (_ :: _) |- _ => inversion H; subst; clear H
         end.
  repeat match goal with
         | H : ?s <> "" |- _ => apply String.eqb_neq in H
         end.
  change (filter has_links [A; B]) with [A; B].
  unfold sort at 2. simpl fold_right. unfold by_created_at_desc.
  destruct (_ <=? 0);
    unfold A, B, user_content, content_item; simpl flat_map;
    simpl Link.id; simpl Link.url; simpl Link.addedAt; cbv iota;
    unfold truthy;
    repeat match goal with
           | H : String.eqb _ "" = false |- _ => rewrite H
           end;
    simpl negb; simpl orb; cbv iota; simpl app;
    destruct Hs as [<-|[<-|[<-|[]]]];
    unfold sort, getSortFn; simpl String.eqb; cbv iota;
    simpl fold_right; simpl c_addedAt;
    repeat match goal with
           | |- context [?x <=? 0] =>
               destruct (Z.leb_spec x 0); try lia; simpl insert_sorted;
               simpl c_addedAt
           end;
    cbn [map c_id c_addedAt];
    rewrite !or_else_nonempty by assumption;
    reflexivity.
Qed.
End Example.

Lemma map_segment {A B : Type} (f : A -> B) (l : list A) a b :
  map f (segment l a b) = segment (map f l) a b.
Proof. unfold segment. now rewrite skipn_map, firstn_map. Qed.

(** C3. For every query that passes validation the feed answers 200
    with the positions [(page-1)*limit, min((page-1)*limit+limit, total))
    of a sequence that holds exactly the reference items: those of all
    users' links without the entries that lack an id or a url.  The
    sequence is ordered by [addedAt], newest first for [newest] and
    [popular], oldest first for [oldest]; page and limit are the ones
    the request is served, which the response reports.  Every page of
    at least 1 (up to the largest safe integer), every limit from 1 to
    50 and each of the three orders, written in decimal numerals, is a
    query that passes validation and is served as written.  In
    particular,
    with A holding links dated d1 and d2 and B one dated d3, where
    d1 < d3 < d2: [newest] lists d2, d3, d1; [oldest] lists d1, d3, d2;
    and page 2 with limit 1 holds the d3 item only, with both
    [hasNextPage] and [hasPreviousPage] set. *)
Theorem getAllContent_sorted_page :
  (forall now q st,
      validate_getAllContent q = None ->
      exists sorted,
        Permutation sorted (all_items now st)
        /\ StronglySorted (feed_order (requested_sort q)) sorted
        /\ let total := Z.of_nat (List.length sorted) in
           let startIndex := (served_page q - 1) * served_limit q in
           let endIndex := Z.min (startIndex + served_limit q) total in
           getAllContent now q st
           = (mkResponse 200
                (ContentPage
                   (segment sorted startIndex endIndex)
                   (pagination_of total (served_limit q)
                                  (served_page q) endIndex)),
              st))
  /\ (forall page limit sortBy,
         1 <= page <= Joi.MAX_SAFE_INTEGER ->
         1 <= limit <= 50 ->
         In sortBy ["newest"; "oldest"; "popular"] ->
         let q := mkQuery (Joi.QInt page) (Joi.QInt limit) (Some sortBy) [] in
         validate_getAllContent q = None
         /\ served_page q = page
         /\ served_limit q = limit
         /\ requested_sort q = sortBy)
  /\ (forall now a b i1 u1 t1 d1 i2 u2 t2 d2 i3 u3 t3 d3 blacklist,
       Forall (fun s => s <> "") [i1; i2; i3; u1; u2; u3] ->
       d1 < d3 < d2 ->
       let A := User.set_youtubeLinks
                  (Some [Link.mk (Some i1) (Some u1) t1 (Some d1);
                         Link.mk (Some i2) (Some u2) t2 (Some d2)]) a in
       let B := User.set_youtubeLinks
                  (Some [Link.mk (Some i3) (Some u3) t3 (Some d3)]) b in
       let feed sortBy page limit :=
         fst (getAllContent now (mkQuery page limit (Some sortBy) [])
                            (mkState [A; B] blacklist)) in
       map c_addedAt (page_items (feed "newest" Joi.QAbsent Joi.QAbsent))
       = [d2; d3; d1]
       /\ map c_id (page_items (feed "newest" Joi.QAbsent Joi.QAbsent))
          = [i2; i3; i1]
       /\ map c_addedAt (page_items (feed "oldest" Joi.QAbsent Joi.QAbsent))
          = [d1; d3; d2]
       /\ map c_id (page_items (feed "oldest" Joi.QAbsent Joi.QAbsent))
          = [i1; i3; i2]
       /\ map c_id (page_items (feed "newest" (Joi.QInt 2) (Joi.QInt 1)))
          = [i3]
       /\ option_map hasNextPage
            (page_meta (feed "newest" (Joi.QInt 2) (Joi.QInt 1))) = Some true
       /\ option_map hasPreviousPage
            (page_meta (feed "newest" (Joi.QInt 2) (Joi.QInt 1))) = Some true).
Proof.
  split; [|split].
  - intros now q st Hv.
    pose proof (getAllContent_validated now q st Hv) as Heq.
    cbv zeta in Heq.
    eexists. split; [|split; [|exact Heq]].
    + rewrite sort_perm. apply allContent_all_items.
    + destruct (validated_query q Hv) as (_ & _ & _ & _ & Hs & _).
      apply sort_sorted.
      * intros x y. now apply getSortFn_feed_order.
      * apply feed_order_total.
      * apply feed_order_trans.
  - intros page limit sortBy Hp Hl Hs q.
    assert (Hv : validate_getAllContent q = None).
    { unfold validate_getAllContent, q. cbn [q_page q_limit q_sortBy
        q_unknown].
      assert (E1 : Joi.integer_key "page" 1 None (Joi.QInt page) = None)
        by (apply integer_key_numeral; unfold Joi.MAX_SAFE_INTEGER in *; lia).
      assert (E2 : Joi.integer_key "limit" 1 (Some 50) (Joi.QInt limit)
                   = None)
        by (apply integer_key_numeral; unfold Joi.MAX_SAFE_INTEGER; lia).
      rewrite E1, E2. simpl in Hs.
      destruct Hs as [<-|[<-|[<-|[]]]]; reflexivity. }
    split; [exact Hv|].
    destruct (validated_query q Hv) as (Hqp & Hql & _).
    split; [now destruct (Hqp page eq_refl)|].
    split; [now destruct (Hql limit eq_refl) | reflexivity].
  - intros now a b i1 u1 t1 d1 i2 u2 t2 d2 i3 u3 t3 d3 blacklist Hne Hd
           A B feed.
    pose proof (example_sorted now a b i1 u1 i2 u2 i3 u3 t1 t2 t3 d1 d2 d3
                               Hne Hd) as Hex.
    pose proof (Hex "newest" ltac:(simpl; auto)) as Hnew.
    pose proof (Hex "oldest" ltac:(simpl; auto)) as Hold.
    clear Hex. cbv zeta in Hnew, Hold. simpl String.eqb in Hnew, Hold.
    cbv iota in Hnew, Hold. fold A B in Hnew, Hold.
    assert (Hfeed : forall sortBy page limit,
               validate_getAllContent (mkQuery page limit (Some sortBy) [])
               = None ->
               forall keys,
                 map (fun c => (c_id c, c_addedAt c))
                     (sort (getSortFn sortBy)
                        (flat_map (user_content now)
                           (sort by_created_at_desc
                                 (filter has_links [A; B])))) = keys ->
                 let q' := mkQuery page limit (Some sortBy) [] in
                 let total := Z.of_nat (List.length keys) in
                 let startIndex :=
                   (served_page q' - 1) * served_limit q' in
                 let endIndex :=
                   Z.min (startIndex + served_limit q') total in
                 map (fun c => (c_id c, c_addedAt c))
                     (page_items (feed sortBy page limit))
                 = segment keys startIndex endIndex
                 /\ page_meta (feed sortBy page limit)
                    = Some (pagination_of total (served_limit q')
                                          (served_page q') endIndex)).
    { intros sortBy page limit Hq keys Hkeys. subst feed. cbv beta zeta.
      rewrite (getAllContent_validated now _ _ Hq).
      unfold page_items, page_meta.
      cbn [fst body users requested_sort q_sortBy].
      rewrite map_segment, Hkeys.
      rewrite <- (length_map (fun c => (c_id c, c_addedAt c))), Hkeys.
      split; reflexivity. }
    destruct (Hfeed "newest" Joi.QAbsent Joi.QAbsent eq_refl _ Hnew)
      as [Hn _].
    destruct (Hfeed "oldest" Joi.QAbsent Joi.QAbsent eq_refl _ Hold)
      as [Ho _].
    destruct (Hfeed "newest" (Joi.QInt 2) (Joi.QInt 1) eq_refl _ Hnew)
      as [Hp Hm].
    clear Hfeed Hnew Hold.
    assert (Hsnd : forall l : list ContentItem,
               map c_addedAt l
               = map snd (map (fun c => (c_id c, c_addedAt c)) l))
      by (intros; now rewrite map_map).
    assert (Hfst : forall l : list ContentItem,
               map c_id l
               = map fst (map (fun c => (c_id c, c_addedAt c)) l))
      by (intros; now rewrite map_map).
    rewrite !Hsnd, !Hfst, Hn, Ho, Hp, Hm.
    repeat split; reflexivity.
Qed.

(** C3, on the sample store: Ann's links are dated 100 and 300, Bob's
    200; page 2 with limit 1 is Bob's link. *)
Lemma getAllContent_sorted_page_witness :
  let q := mkQuery (Joi.QInt 2) (Joi.QInt 1) (Some "newest") [] in
  (exists sorted,
      Permutation sorted (all_items 0 Demo.store)
      /\ StronglySorted (feed_order "newest") sorted
      /\ page_items (fst (getAllContent 0 q Demo.store))
         = segment sorted 1 2)
  /\ map c_id (page_items (fst (getAllContent 0 q Demo.store))) = ["b1"].
Proof.
  intros q. split.
  - destruct (proj1 getAllContent_sorted_page 0 q Demo.store eq_refl)
      as (sorted & Hperm & Hsorted & Hfeed).
    exists sorted. split; [exact Hperm|]. split; [exact Hsorted|].
    cbv zeta in Hfeed. rewrite Hfeed. unfold page_items. simpl fst.
    simpl body. cbv iota.
    rewrite (Permutation_length Hperm). reflexivity.
  - assert (Hnamed : Forall (fun s => s <> "")
                       ["a1"; "a2"; "b1"; "https://youtu.be/a1";
                        "https://youtu.be/a2"; "https://youtu.be/b1"])
      by (repeat constructor; discriminate).
    assert (Hdated : 100 < 200 < 300) by lia.
    pose proof (proj2 (proj2 getAllContent_sorted_page)
                  0 Demo.ann Demo.bob
                  "a1" "https://youtu.be/a1" (Some "a1") 100
                  "a2" "https://youtu.be/a2" (Some "a2") 300
                  "b1" "https://youtu.be/b1" (Some "b1") 200
                  [] Hnamed Hdated) as H.
    exact (proj1 (proj2 (proj2 (proj2 (proj2 H))))).
Defined.

(** C8, on the sample store: Ann has no link with id "zzz". *)
Lemma removeYoutubeLink_unknown_id_witness :
  removeYoutubeLink Demo.hash "salt" "u-ann" "zzz" Demo.store
  = (fail 404 "YouTube link not found", Demo.store).
Proof.
  apply (removeYoutubeLink_unknown_id Demo.hash "salt" "u-ann" "zzz"
                                      Demo.store Demo.ann eq_refl).
  intros l [<-|[<-|[]]]; discriminate.
Defined.

(** C7, at two adds within one millisecond.  The id of a link is the
    clock reading, which the handler takes for a unique id: both links
    get the id "1700000000000", and removing the id returned by the
    second add removes the first link as well.  The collection after
    the removal is not the collection before the second add, as the
    claim has it. *)
Lemma add_then_remove_same_millisecond :
  let clock := 1700000000000 in
  let first := mkLinkBody (Some "https://youtu.be/one") (Some "one") [] in
  let second := mkLinkBody (Some "https://youtu.be/two") (Some "two") [] in
  let st1 := snd (addYoutubeLink Demo.hash "salt" clock "u-ann" first
                                 Demo.store) in
  let added := addYoutubeLink Demo.hash "salt" clock "u-ann" second st1 in
  let st3 := snd (removeYoutubeLink Demo.hash "salt" "u-ann"
                                    "1700000000000" (snd added)) in
  (exists user,
      fst added
      = mkResponse 201
          (LinkAdded (Link.mk (Some "1700000000000")
                              (Some "https://youtu.be/two") (Some "two")
                              (Some clock)) user))
  /\ option_map User.youtubeLinks (findByPk "u-ann" (users st1))
     = Some (Some [Demo.link "a1" 100; Demo.link "a2" 300;
                   Link.mk (Some "1700000000000")
                           (Some "https://youtu.be/one") (Some "one")
                           (Some clock)])
  /\ option_map User.youtubeLinks (findByPk "u-ann" (users st3))
     = Some (Some [Demo.link "a1" 100; Demo.link "a2" 300])
  /\ option_map User.youtubeLinks (findByPk "u-ann" (users st3))
     <> option_map User.youtubeLinks (findByPk "u-ann" (users st1)).
Proof.
  cbv zeta. split; [eexists; reflexivity|].
  split; [reflexivity|]. split; [reflexivity|]. discriminate.
Qed.

(** The round trip on the sample store at clock 7000, where the
    generated id is free. *)
Lemma add_then_remove_restores_links_witness :
  let body := mkLinkBody (Some "https://youtu.be/new") (Some "new") [] in
  let st1 := snd (addYoutubeLink Demo.hash "salt" 7000 "u-ann" body
                                 Demo.store) in
  exists row2 st2,
    removeYoutubeLink Demo.hash "salt" "u-ann" (timestamp_id 7000) st1
    = (mkResponse 200 (UserData (public_user row2)), st2)
    /\ User.youtubeLinks row2 = User.youtubeLinks Demo.ann.
Proof.
  intros body st1.
  assert (Habs : id_absent (timestamp_id 7000) (currentLinks Demo.ann))
    by (intros l [<-|[<-|[]]]; discriminate).
  destruct (add_then_remove_restores_links
              Demo.hash "salt" "salt" 7000 "u-ann" body Demo.store Demo.ann
              _ _ _ eq_refl Habs eq_refl)
    as (_ & row2 & st2 & Hrem & _ & Hrow & _).
  exists row2, st2. split; [exact Hrem|]. now rewrite Hrow.
Defined.

(** * Further properties of the handlers *)

(** ** Sign-up and sign-in *)

Lemma string_key_required k lo hi rule v :
  Joi.string_key k true false lo hi rule v = None ->
  exists s,
    v = Some s /\ String.eqb s "" = false
    /\ match rule with Some (_, ok) => ok s = true | None => True end.
Proof.
  unfold Joi.string_key. destruct v as [s|]; [|discriminate].
  destruct (String.eqb s "") eqn:Es; [discriminate|].
  destruct (match lo with Some n => _ | None => false end); [discriminate|].
  destruct (match hi with Some n => _ | None => false end); [discriminate|].
  intros H. exists s. split; [reflexivity|]. split; [exact Es|].
  destruct rule as [[c ok]|]; [|exact I].
  now destruct (ok s).
Qed.

Lemma validated_register joi_email b :
  validate_register joi_email b = None ->
  exists name email password,
    reg_name b = Some name /\ reg_email b = Some email
    /\ reg_password b = Some password
    /\ String.eqb password "" = false /\ joi_email email = true
    /\ String.eqb email "" = false.
Proof.
  unfold validate_register. intros H.
  apply first_error_cons in H as [Hn H].
  apply first_error_cons in H as [He H].
  apply first_error_cons in H as [Hp _].
  apply string_key_required in Hn as (n & -> & _ & _).
  apply string_key_required in He as (e & -> & Hene & Hem).
  apply string_key_required in Hp as (p & -> & Hp & _).
  exists n, e, p. auto 10.
Qed.

Lemma write_row_fresh u tb :
  findByPk (User.id u) tb = None -> write_row u tb = tb.
Proof.
  unfold findByPk, write_row. induction tb as [|r tb IH]; simpl;
    [reflexivity|].
  destruct (String.eqb (User.id r) (User.id u)); [discriminate|].
  intros H. now rewrite IH.
Qed.

Lemma write_row_app u tb tb' :
  write_row u (tb ++ tb') = write_row u tb ++ write_row u tb'.
Proof. apply map_app. Qed.

Lemma findOne_email_app_fresh e tb u :
  findOne_email e tb = None -> User.email u = e ->
  findOne_email e (tb ++ [u]) = Some u.
Proof.
  unfold findOne_email. intros Hnone He.
  induction tb as [|r tb IH]; simpl in *.
  - now rewrite He, String.eqb_refl.
  - destruct (String.eqb (User.email r) e); [discriminate | auto].
Qed.

Lemma signUp_created bcrypt_hash joi_email salt uuid now b st
      name email password :
  validate_register joi_email b = None ->
  reg_name b = Some name -> reg_email b = Some email ->
  reg_password b = Some password ->
  findOne_email email (users st) = None ->
  findByPk uuid (users st) = None ->
  let row := registered bcrypt_hash salt uuid now name email password in
  signUp bcrypt_hash joi_email salt uuid now b st
  = (mkResponse 201
       (AuthData (Jwt.sign uuid None CONTROLLER_SECRET ONE_DAY now)
                 (Jwt.sign uuid (Some 0) CONTROLLER_SECRET SEVEN_DAYS now)
                 (delete "refreshToken" (delete "password" (toJSON row)))),
     mkState (users st ++ [row]) (tokenBlacklist st)).
Proof.
  intros Hv Hn He Hp Hfree Hfresh row.
  destruct (validated_register _ _ Hv) as (n & e & p & Hn' & He' & Hp' & Hne & _).
  rewrite Hn in Hn'. rewrite He in He'. rewrite Hp in Hp'.
  injection Hn' as <-. injection He' as <-. injection Hp' as <-.
  unfold signUp. rewrite Hv, Hn, He, Hp, Hfree.
  unfold create, beforeCreate. simpl User.password. rewrite Hne.
  simpl negb. cbv iota. unfold generateTokens.
  rewrite save_keeps_password by reflexivity.
  simpl current. rewrite write_row_app.
  rewrite write_row_fresh by exact Hfresh.
  simpl write_row. simpl User.id. rewrite String.eqb_refl.
  reflexivity.
Qed.

(** X1. A successful sign-up appends exactly one row and touches no
    other: the row carries the given name and e-mail, the bcrypt hash of
    the password, version 0 and the refresh token that the response
    returns; the response is 201. *)
Theorem signUp_appends_hashed_row :
  forall bcrypt_hash joi_email salt uuid now b st name email password,
    validate_register joi_email b = None ->
    reg_name b = Some name -> reg_email b = Some email ->
    reg_password b = Some password ->
    findOne_email email (users st) = None ->
    findByPk uuid (users st) = None ->
    exists access refresh shown row,
      signUp bcrypt_hash joi_email salt uuid now b st
      = (mkResponse 201 (AuthData access refresh shown),
         mkState (users st ++ [row]) (tokenBlacklist st))
      /\ User.id row = uuid /\ User.name row = name
      /\ User.email row = email
      /\ User.password row = bcrypt_hash password salt
      /\ User.tokenVersion row = 0
      /\ User.refreshToken row = Some refresh
      /\ Jwt.verify refresh (Some CONTROLLER_SECRET) now
         = inr (Jwt.mkPayload uuid (Some 0) (now / 1000)
                              (now / 1000 + SEVEN_DAYS))
      /\ Jwt.verify access (Some CONTROLLER_SECRET) now
         = inr (Jwt.mkPayload uuid None (now / 1000)
                              (now / 1000 + ONE_DAY)).
Proof.
  intros h em salt uuid now b st name email password
         Hv Hn He Hp Hfree Hfresh.
  rewrite (signUp_created h em salt uuid now b st name email password
                          Hv Hn He Hp Hfree Hfresh).
  eexists. eexists. eexists. eexists. split; [reflexivity|].
  repeat split.
  - apply verify_signed; [reflexivity | simpl; unfold SEVEN_DAYS; lia].
  - apply verify_signed; [reflexivity | simpl; unfold ONE_DAY; lia].
Qed.

(** X1, on the sample store: Cy registers. *)
Lemma signUp_appends_hashed_row_witness :
  exists access refresh shown row,
    signUp Demo.hash Demo.is_email "salt" "u-cy" 9000
           (mkRegister (Some "Cy Dee") (Some "cy@x.com")
                       (Some "password3") []) Demo.store
    = (mkResponse 201 (AuthData access refresh shown),
       mkState (users Demo.store ++ [row]) [])
    /\ User.password row = Demo.hash "password3" "salt".
Proof.
  destruct (signUp_appends_hashed_row
              Demo.hash Demo.is_email "salt" "u-cy" 9000
              (mkRegister (Some "Cy Dee") (Some "cy@x.com")
                          (Some "password3") [])
              Demo.store "Cy Dee" "cy@x.com" "password3"
              eq_refl eq_refl eq_refl eq_refl eq_refl eq_refl)
    as (a & r & s & row & H & _ & _ & _ & Hpw & _).
  exists a, r, s, row. split; [exact H | exact Hpw].
Defined.

(** X2. After a successful sign-up, every further sign-up with the same
    e-mail, whatever the name, password or generated id, is answered
    409 and changes nothing. *)
Theorem signUp_twice_conflicts :
  forall bcrypt_hash joi_email salt uuid now b st resp st1
         salt2 uuid2 now2 b2,
    findByPk uuid (users st) = None ->
    signUp bcrypt_hash joi_email salt uuid now b st = (resp, st1) ->
    status resp = 201 ->
    validate_register joi_email b2 = None ->
    reg_email b2 = reg_email b ->
    signUp bcrypt_hash joi_email salt2 uuid2 now2 b2 st1
    = (fail 409 "User already exists", st1).
Proof.
  intros h em salt uuid now b st resp st1 salt2 uuid2 now2 b2
         Hfresh Hup Hok Hv2 Hsame.
  assert (Hv : validate_register em b = None).
  { unfold signUp in Hup. destruct (validate_register em b); [|reflexivity].
    injection Hup as <- _. discriminate. }
  destruct (validated_register _ _ Hv) as (n & e & p & Hn & He & Hp & _).
  assert (Hfree : findOne_email e (users st) = None).
  { unfold signUp in Hup. rewrite Hv, Hn, He, Hp in Hup.
    destruct (findOne_email e (users st)); [|reflexivity].
    injection Hup as <- _. discriminate. }
  rewrite (signUp_created h em salt uuid now b st n e p
                          Hv Hn He Hp Hfree Hfresh) in Hup.
  injection Hup as _ <-.
  destruct (validated_register _ _ Hv2) as (n2 & e2 & p2 & Hn2 & He2 & Hp2 & _).
  rewrite Hsame, He in He2. injection He2 as <-.
  unfold signUp. rewrite Hv2, Hn2, Hp2, Hsame, He. simpl users.
  erewrite findOne_email_app_fresh; [reflexivity | exact Hfree | reflexivity].
Qed.

(** X2, on the sample store: Cy registers twice. *)
Lemma signUp_twice_conflicts_witness :
  let b := mkRegister (Some "Cy Dee") (Some "cy@x.com")
                      (Some "password3") [] in
  let st1 := snd (signUp Demo.hash Demo.is_email "salt" "u-cy" 9000 b
                         Demo.store) in
  signUp Demo.hash Demo.is_email "salt" "u-cy2" 9500
         (mkRegister (Some "Cyrus") (Some "cy@x.com") (Some "password4") [])
         st1
  = (fail 409 "User already exists", st1).
Proof.
  intros b st1.
  apply (signUp_twice_conflicts
           Demo.hash Demo.is_email "salt" "u-cy" 9000 b Demo.store
           _ st1 "salt" "u-cy2" 9500 _ eq_refl (surjective_pairing _));
    reflexivity.
Defined.

Lemma validated_login joi_email b :
  validate_login joi_email b = None ->
  exists email password,
    login_email b = Some email /\ login_password b = Some password
    /\ String.eqb password "" = false /\ joi_email email = true.
Proof.
  unfold validate_login. intros H.
  apply first_error_cons in H as [He H].
  apply first_error_cons in H as [Hp _].
  apply string_key_required in He as (e & -> & _ & Hem).
  apply string_key_required in Hp as (p & -> & Hp & _).
  exists e, p. auto.
Qed.

Lemma signIn_success bcrypt_hash bcrypt_compare joi_email salt now b st
      email password row :
  validate_login joi_email b = None ->
  login_email b = Some email -> login_password b = Some password ->
  findOne_email email (users st) = Some row ->
  bcrypt_compare password (User.password row) = true ->
  let access := Jwt.sign (User.id row) None CONTROLLER_SECRET ONE_DAY now in
  let refresh := Jwt.sign (User.id row) (Some (User.tokenVersion row))
                          CONTROLLER_SECRET SEVEN_DAYS now in
  let row' := User.set_refreshToken (Some refresh) row in
  signIn bcrypt_hash bcrypt_compare joi_email salt now b st
  = (mkResponse 200
       (AuthData access refresh
                 (delete "refreshToken" (delete "password" (toJSON row')))),
     with_users (write_row row' (users st)) st).
Proof.
  intros Hv He Hp Hrow Hcmp. cbv zeta.
  unfold signIn. rewrite Hv, He, Hp, Hrow, Hcmp. simpl negb. cbv iota.
  unfold generateTokens. rewrite save_keeps_password by reflexivity.
  reflexivity.
Qed.

Lemma findOne_email_in e tb row :
  findOne_email e tb = Some row -> In row tb /\ User.email row = e.
Proof.
  unfold findOne_email. intros H. apply find_some in H as [Hin He].
  split; [exact Hin | now apply String.eqb_eq].
Qed.

(** X3. Sign-in answers 400 to a body the schema rejects, 404 to an
    e-mail no row carries, 401 when bcrypt does not match the password
    against the stored hash, and 200 otherwise; whenever the answer is
    not 200 the state is returned as it was given. *)
Theorem signIn_outcomes :
  forall bcrypt_hash bcrypt_compare joi_email salt now b st,
    let r := signIn bcrypt_hash bcrypt_compare joi_email salt now b st in
    (status (fst r) <> 200 -> snd r = st)
    /\ match validate_login joi_email b with
       | Some e => fst r = mkResponse 400 (Invalid e)
       | None =>
           exists email password,
             login_email b = Some email
             /\ login_password b = Some password
             /\ match findOne_email email (users st) with
                | None => fst r = fail 404 "User not found"
                | Some row =>
                    if bcrypt_compare password (User.password row)
                    then status (fst r) = 200
                    else fst r = fail 401 "Invalid password"
                end
       end.
Proof.
  intros h cmp em salt now b st r. subst r.
  destruct (validate_login em b) as [e|] eqn:Hv.
  - unfold signIn. rewrite Hv. split; [reflexivity | reflexivity].
  - destruct (validated_login _ _ Hv) as (email & password & He & Hp & _).
    destruct (findOne_email email (users st)) as [row|] eqn:Hrow.
    + destruct (cmp password (User.password row)) eqn:Hcmp.
      * rewrite (signIn_success h cmp em salt now b st email password row
                                Hv He Hp Hrow Hcmp).
        split; [intros N; now elim N|].
        exists email, password. rewrite Hrow, Hcmp. auto.
      * unfold signIn. rewrite Hv, He, Hp, Hrow, Hcmp. simpl.
        split; [reflexivity|].
        exists email, password. rewrite Hrow, Hcmp. auto.
    + unfold signIn. rewrite Hv, He, Hp, Hrow. simpl.
      split; [reflexivity|].
      exists email, password. rewrite Hrow. auto.
Qed.

(** X3, on the sample store: Ann mistypes her password. *)
Lemma signIn_outcomes_witness :
  signIn Demo.hash Demo.compare Demo.is_email "salt" 5000
         (mkLogin (Some "ann@x.com") (Some "password9") []) Demo.store
  = (fail 401 "Invalid password", Demo.store).
Proof.
  pose proof (signIn_outcomes Demo.hash Demo.compare Demo.is_email "salt"
                5000 (mkLogin (Some "ann@x.com") (Some "password9") [])
                Demo.store) as [Hst Hr].
  cbv zeta in Hst, Hr.
  rewrite (surjective_pairing (signIn _ _ _ _ _ _ _)).
  rewrite Hst by (vm_compute; discriminate).
  reflexivity.
Defined.

(** X4. Provided bcrypt matches a password against its own hash, the
    credentials of a successful sign-up sign in: the answer is 200 with
    an access token naming the new user.  A password that bcrypt does
    not match against the stored hash is answered 401. *)
Theorem signUp_then_signIn :
  forall bcrypt_hash bcrypt_compare joi_email salt uuid now b st resp st1
         email password salt2 now2,
    findByPk uuid (users st) = None ->
    signUp bcrypt_hash joi_email salt uuid now b st = (resp, st1) ->
    status resp = 201 ->
    reg_email b = Some email -> reg_password b = Some password ->
    (bcrypt_compare password (bcrypt_hash password salt) = true ->
     exists refresh shown st2,
       signIn bcrypt_hash bcrypt_compare joi_email salt2 now2
              (mkLogin (Some email) (Some password) []) st1
       = (mkResponse 200
            (AuthData (Jwt.sign uuid None CONTROLLER_SECRET ONE_DAY now2)
                      refresh shown), st2))
    /\ (forall other,
           other <> "" ->
           bcrypt_compare other (bcrypt_hash password salt) = false ->
           signIn bcrypt_hash bcrypt_compare joi_email salt2 now2
                  (mkLogin (Some email) (Some other) []) st1
           = (fail 401 "Invalid password", st1)).
Proof.
  intros h cmp em salt uuid now b st resp st1 email password salt2 now2
         Hfresh Hup Hok He Hp.
  assert (Hv : validate_register em b = None).
  { unfold signUp in Hup. destruct (validate_register em b); [|reflexivity].
    injection Hup as <- _. discriminate. }
  destruct (validated_register _ _ Hv)
    as (n & e & p & Hn & He' & Hp' & Hpne & Hem & Hene).
  rewrite He in He'. rewrite Hp in Hp'.
  injection He' as <-. injection Hp' as <-.
  assert (Hfree : findOne_email email (users st) = None).
  { unfold signUp in Hup. rewrite Hv, Hn, He, Hp in Hup.
    destruct (findOne_email email (users st)); [|reflexivity].
    injection Hup as <- _. discriminate. }
  rewrite (signUp_created h em salt uuid now b st n email password
                          Hv Hn He Hp Hfree Hfresh) in Hup.
  injection Hup as _ <-.
  set (row := registered h salt uuid now n email password).
  assert (Hrow : findOne_email email (users st ++ [row]) = Some row)
    by now apply findOne_email_app_fresh.
  assert (Hlogin : forall pw, String.eqb pw "" = false ->
             validate_login em (mkLogin (Some email) (Some pw) []) = None).
  { intros pw Hpw. unfold validate_login, Joi.string_key. simpl.
    now rewrite Hene, Hem, Hpw. }
  split.
  - intros Hcmp.
    rewrite (signIn_success h cmp em salt2 now2 _
                            (mkState (users st ++ [row]) (tokenBlacklist st))
                            email password row
                            (Hlogin _ Hpne) eq_refl eq_refl Hrow Hcmp).
    eexists. eexists. eexists. reflexivity.
  - intros other Hother Hcmp. apply String.eqb_neq in Hother.
    unfold signIn. rewrite (Hlogin _ Hother).
    cbn [login_email login_password users]. rewrite Hrow.
    change (User.password row) with (h password salt). now rewrite Hcmp.
Qed.

(** X4, on the sample store: Cy registers, then signs in. *)
Lemma signUp_then_signIn_witness :
  let b := mkRegister (Some "Cy Dee") (Some "cy@x.com")
                      (Some "password3") [] in
  let st1 := snd (signUp Demo.hash Demo.is_email "salt" "u-cy" 9000 b
                         Demo.store) in
  exists refresh shown st2,
    signIn Demo.hash Demo.compare Demo.is_email "salt" 9900
           (mkLogin (Some "cy@x.com") (Some "password3") []) st1
    = (mkResponse 200
         (AuthData (Jwt.sign "u-cy" None CONTROLLER_SECRET ONE_DAY 9900)
                   refresh shown), st2).
Proof.
  intros b st1.
  apply (signUp_then_signIn
           Demo.hash Demo.compare Demo.is_email "salt" "u-cy" 9000 b
           Demo.store _ st1 "cy@x.com" "password3" "salt" 9900
           eq_refl (surjective_pairing _) eq_refl eq_refl eq_refl).
  reflexivity.
Defined.

(** ** Refresh tokens *)

Lemma refreshToken_stored is_uuid now token st p u :
  Jwt.falsy token = false ->
  Jwt.verify token (Some CONTROLLER_SECRET) now = inr p ->
  findByPk (Jwt.userId p) (users st) = Some u ->
  User.refreshToken u = Some token ->
  Jwt.version p = Some (User.tokenVersion u) ->
  refreshToken is_uuid now (Some token) st
  = (mkResponse 200
       (AccessData (Jwt.sign (User.id u) None CONTROLLER_SECRET ONE_DAY now)),
     st).
Proof.
  intros Hf Hv Hu Hs Hver. unfold refreshToken.
  rewrite Hf, Hv, Hu, Hs, Hver.
  assert (E : Jwt.eqb token token = true) by now apply Jwt_eqb_eq.
  now rewrite E, Z.eqb_refl.
Qed.

Lemma refreshToken_not_stored is_uuid now key p st u :
  findByPk (Jwt.userId p) (users st) = Some u ->
  User.refreshToken u <> Some (Jwt.Signed key p) ->
  status (fst (refreshToken is_uuid now (Some (Jwt.Signed key p)) st)) = 401.
Proof.
  intros Hu Hs. unfold refreshToken. simpl Jwt.falsy. cbv iota.
  destruct (Jwt.verify _ _ _) as [e|d] eqn:Hv; [reflexivity|].
  apply verify_inr in Hv as (-> & _). rewrite Hu.
  destruct (match User.refreshToken u with
            | Some stored => Jwt.eqb stored (Jwt.Signed key p)
            | None => false
            end) eqn:E; [|reflexivity].
  apply stored_token_eqb in E. contradiction.
Qed.

(** X5. After a successful sign-in the refresh token it returned is
    the only one refresh accepts for that user: it is answered 200
    until the second its seven days are over and 401 from then on, and
    every other token naming the user, such as the one stored before
    this sign-in, is answered 401. *)
Theorem signIn_rotates_refresh_token :
  forall bcrypt_hash bcrypt_compare joi_email is_uuid salt now b st
         email password row,
    primary_key (users st) ->
    validate_login joi_email b = None ->
    login_email b = Some email -> login_password b = Some password ->
    findOne_email email (users st) = Some row ->
    bcrypt_compare password (User.password row) = true ->
    let st' :=
      snd (signIn bcrypt_hash bcrypt_compare joi_email salt now b st) in
    let refresh := Jwt.sign (User.id row) (Some (User.tokenVersion row))
                            CONTROLLER_SECRET SEVEN_DAYS now in
    (forall now',
        status (fst (refreshToken is_uuid now' (Some refresh) st'))
        = if now' / 1000 <? now / 1000 + SEVEN_DAYS then 200 else 401)
    /\ (forall now' key p,
           Jwt.userId p = User.id row ->
           Jwt.Signed key p <> refresh ->
           status (fst (refreshToken is_uuid now' (Some (Jwt.Signed key p))
                                     st'))
           = 401).
Proof.
  intros h cmp em is_uuid salt now b st email password row
         Hpk Hv He Hp Hrow Hcmp st' refresh.
  subst st'.
  rewrite (signIn_success h cmp em salt now b st email password row
                          Hv He Hp Hrow Hcmp).
  simpl snd. fold refresh.
  set (row' := User.set_refreshToken (Some refresh) row).
  assert (Hfind : findByPk (User.id row)
                    (users (with_users (write_row row' (users st)) st))
                  = Some row').
  { simpl users. change (User.id row) with (User.id row').
    apply (findByPk_write_row_same row' _ row).
    change (User.id row') with (User.id row).
    apply primary_key_find; [exact Hpk|].
    now apply findOne_email_in in Hrow. }
  split.
  - intros now'.
    destruct (now' / 1000 <? now / 1000 + SEVEN_DAYS) eqn:E.
    + apply Z.ltb_lt in E.
      assert (Hver : Jwt.verify refresh (Some CONTROLLER_SECRET) now'
                     = inr (Jwt.mkPayload (User.id row)
                              (Some (User.tokenVersion row)) (now / 1000)
                              (now / 1000 + SEVEN_DAYS)))
        by (apply verify_signed; [reflexivity | exact E]).
      now rewrite (refreshToken_stored is_uuid now' refresh _ _ row' eq_refl
                                       Hver Hfind eq_refl eq_refl).
    + apply Z.ltb_ge in E. unfold refreshToken, refresh, Jwt.sign.
      simpl Jwt.falsy. cbv iota. unfold Jwt.verify.
      rewrite CONTROLLER_SECRET_nonempty, String.eqb_refl. simpl Jwt.exp.
      apply Z.leb_le in E. now rewrite E.
  - intros now' key p Hp' Hneq.
    apply (refreshToken_not_stored is_uuid now' key p _ row').
    + rewrite Hp'. exact Hfind.
    + simpl. congruence.
Qed.

(** X5, on the sample store: Ann signs in at clock 5000. *)
Lemma signIn_rotates_refresh_token_witness :
  let st' := snd (signIn Demo.hash Demo.compare Demo.is_email "salt" 5000
                         (mkLogin (Some "ann@x.com") (Some "password1") [])
                         Demo.store) in
  status (fst (refreshToken Demo.is_uuid (5000 + 604799 * 1000)
                 (Some (Jwt.sign "u-ann" (Some 0) CONTROLLER_SECRET
                                 SEVEN_DAYS 5000)) st')) = 200
  /\ status (fst (refreshToken Demo.is_uuid (5000 + 604800 * 1000)
                    (Some (Jwt.sign "u-ann" (Some 0) CONTROLLER_SECRET
                                    SEVEN_DAYS 5000)) st')) = 401.
Proof.
  intros st'.
  assert (Hpk : primary_key (users Demo.store))
    by (repeat constructor; simpl; intuition discriminate).
  destruct (signIn_rotates_refresh_token
              Demo.hash Demo.compare Demo.is_email Demo.is_uuid "salt" 5000
              (mkLogin (Some "ann@x.com") (Some "password1") [])
              Demo.store "ann@x.com" "password1" Demo.ann
              Hpk eq_refl eq_refl eq_refl eq_refl eq_refl) as [H _].
  split; [exact (H (5000 + 604799 * 1000)) | exact (H (5000 + 604800 * 1000))].
Defined.

(** ** The guard and sign-out *)

Lemma authorize_inr env now auth st u :
  authorize env now auth st = inr u ->
  exists t p,
    auth = Bearer t
    /\ Jwt.falsy t = false
    /\ isTokenBlacklisted st t = false
    /\ Jwt.verify t (JWT_SECRET env) now = inr p
    /\ Jwt.userId p <> ""
    /\ findByPk (Jwt.userId p) (users st) = Some u.
Proof.
  unfold authorize.
  destruct auth as [| | |t]; simpl extractToken; cbv iota;
    try discriminate.
  destruct (Jwt.falsy t) eqn:Hf; [discriminate|].
  destruct (isTokenBlacklisted st t) eqn:Hb; [discriminate|].
  destruct (Jwt.verify t (JWT_SECRET env) now) as [[]|p] eqn:Hv;
    try discriminate.
  destruct (String.eqb (Jwt.userId p) "") eqn:Hu; [discriminate|].
  destruct (findByPk (Jwt.userId p) (users st)) as [row|] eqn:Hrow;
    [|discriminate].
  intros [= <-]. exists t, p. apply String.eqb_neq in Hu. auto 10.
Qed.

Lemma authorize_bearer_inr env now t p st u :
  Jwt.falsy t = false ->
  isTokenBlacklisted st t = false ->
  Jwt.verify t (JWT_SECRET env) now = inr p ->
  Jwt.userId p <> "" ->
  findByPk (Jwt.userId p) (users st) = Some u ->
  authorize env now (Bearer t) st = inr u.
Proof.
  intros Hf Hb Hv Hu Hrow. unfold authorize.
  simpl extractToken. cbv iota. rewrite Hf, Hb, Hv.
  apply String.eqb_neq in Hu. now rewrite Hu, Hrow.
Qed.

(** X6. The guard accepts a request exactly when its header carries a
    non-empty bearer token that is not blacklisted, verifies under
    [JWT_SECRET] at the time of the request, and names an existing
    user; it then yields that user's row.  Nothing else is consulted:
    not the token's version, not the user's [tokenVersion] or stored
    refresh token. *)
Theorem authorize_accepts_iff :
  forall env now auth st u,
    authorize env now auth st = inr u
    <-> exists t p,
        auth = Bearer t
        /\ Jwt.falsy t = false
        /\ isTokenBlacklisted st t = false
        /\ Jwt.verify t (JWT_SECRET env) now = inr p
        /\ Jwt.userId p <> ""
        /\ findByPk (Jwt.userId p) (users st) = Some u.
Proof.
  intros env now auth st u. split.
  - apply authorize_inr.
  - intros (t & p & -> & Hf & Hb & Hv & Hu & Hrow).
    now apply (authorize_bearer_inr env now t p).
Qed.

(** X6, on the sample store with Ann's access token. *)
Lemma authorize_accepts_iff_witness :
  authorize Demo.env 6000 (Bearer Demo.ann_access) Demo.store
  = inr Demo.ann.
Proof.
  apply authorize_accepts_iff.
  exists Demo.ann_access, (Jwt.mkPayload "u-ann" None 5 86405).
  repeat split. discriminate.
Defined.

Lemma users_blacklist_add t st : users (blacklist_add t st) = users st.
Proof. unfold blacklist_add. now destruct (isTokenBlacklisted st t). Qed.

Lemma blacklist_add_has t st : isTokenBlacklisted (blacklist_add t st) t = true.
Proof.
  unfold blacklist_add. destruct (isTokenBlacklisted st t) eqn:E; [exact E|].
  unfold isTokenBlacklisted. simpl. rewrite existsb_app. simpl.
  assert (Ht : Jwt.eqb t t = true) by now apply Jwt_eqb_eq.
  rewrite Ht. now rewrite orb_true_r.
Qed.

Lemma blacklist_add_other t t' st :
  t' <> t ->
  isTokenBlacklisted (blacklist_add t st) t' = isTokenBlacklisted st t'.
Proof.
  intros Hne. unfold blacklist_add.
  destruct (isTokenBlacklisted st t); [reflexivity|].
  unfold isTokenBlacklisted. simpl. rewrite existsb_app. simpl.
  assert (Ht : Jwt.eqb t' t = false).
  { destruct (Jwt.eqb t' t) eqn:E; [|reflexivity].
    apply Jwt_eqb_eq in E. contradiction. }
  rewrite Ht. now rewrite !orb_false_r.
Qed.

(** The states in which [signOut] can leave the server. *)
Lemma signOut_state bcrypt_hash salt now auth req_user st :
  snd (signOut bcrypt_hash salt now auth req_user st) = st
  \/ exists t,
      auth = Bearer t /\ Jwt.falsy t = false
      /\ (snd (signOut bcrypt_hash salt now auth req_user st)
          = blacklist_add t st
          \/ exists p row,
              Jwt.verify t (Some CONTROLLER_SECRET) now = inr p
              /\ findByPk (Jwt.userId p) (users st) = Some row
              /\ snd (signOut bcrypt_hash salt now auth req_user st)
                 = with_users
                     (write_row
                        (User.set_refreshToken None
                           (User.set_tokenVersion
                              (User.tokenVersion row + 1) row))
                        (users st))
                     (blacklist_add t st)).
Proof.
  unfold signOut. destruct auth as [| | |t]; simpl extractToken; cbv iota;
    try (now left).
  destruct (Jwt.falsy t) eqn:Hf; [now left|].
  right. exists t. split; [reflexivity|]. split; [exact Hf|].
  destruct (Jwt.verify t (Some CONTROLLER_SECRET) now) as [e|p] eqn:Hv;
    [now left|].
  destruct (negb (String.eqb (Jwt.userId p) "")); [|now left].
  destruct req_user; [|now left].
  rewrite users_blacklist_add.
  destruct (findByPk (Jwt.userId p) (users st)) as [row|] eqn:Hrow;
    [|now left].
  right. exists p, row. split; [reflexivity|]. split; [exact Hrow|].
  rewrite save_keeps_password by reflexivity. reflexivity.
Qed.

Lemma signOut_blacklists bcrypt_hash salt now t req_user st :
  Jwt.falsy t = false ->
  isTokenBlacklisted
    (snd (signOut bcrypt_hash salt now (Bearer t) req_user st)) t = true.
Proof.
  intros Hf. unfold signOut. simpl extractToken. cbv iota. rewrite Hf.
  destruct (Jwt.verify t (Some CONTROLLER_SECRET) now);
    [apply blacklist_add_has|].
  destruct (negb _); [|apply blacklist_add_has].
  destruct req_user; [|apply blacklist_add_has].
  destruct (findByPk _ _); [|apply blacklist_add_has].
  destruct (save _ _ _ _). apply blacklist_add_has.
Qed.

Lemma post_signout_state bcrypt_hash env salt now auth st :
  snd (post_signout bcrypt_hash env salt now auth st) = st
  \/ exists u,
      authorize env now auth st = inr u
      /\ snd (post_signout bcrypt_hash env salt now auth st)
         = snd (signOut bcrypt_hash salt now auth (Some u) st).
Proof.
  unfold post_signout, guarded.
  destruct (authorize env now auth st) as [r|u]; [now left|].
  right. exists u. auto.
Qed.

(** X7. A sign-out that is answered 200 puts its token on the
    blacklist, and for as long as the token is there it is answered 401
    "Session has been invalidated" when presented again, at any time
    and under any configuration of the secret.  The handler schedules
    the removal of the entry only when the token verifies under the
    controller's literal, and then for the token's expiry: the delay it
    passes is [exp * 1000 - now], a positive number of milliseconds. *)
Theorem signed_out_token_is_rejected :
  forall bcrypt_hash env salt now t st resp st',
    post_signout bcrypt_hash env salt now (Bearer t) st = (resp, st') ->
    status resp = 200 ->
    isTokenBlacklisted st' t = true
    /\ (forall env' now' st'',
           isTokenBlacklisted st'' t = true ->
           authorize env' now' (Bearer t) st''
           = inl (fail 401
                       "Session has been invalidated. Please log in again."))
    /\ match Jwt.verify t (Some CONTROLLER_SECRET) now with
       | inr p =>
           signOut_timeout now (Bearer t) = Some (Jwt.exp p * 1000 - now)
           /\ 0 < Jwt.exp p * 1000 - now
       | inl _ => signOut_timeout now (Bearer t) = None
       end.
Proof.
  intros h env salt now t st resp st' Hout Hok.
  assert (Hacc : exists u, authorize env now (Bearer t) st = inr u).
  { unfold post_signout, guarded in Hout.
    destruct (authorize env now (Bearer t) st) as [r|u] eqn:Ha;
      [|now exists u].
    injection Hout as <- _. apply authorize_bearer_401 in Ha. lia. }
  destruct Hacc as [u Ha].
  pose proof Ha as Ha'.
  apply authorize_inr in Ha' as (t0 & p & [= <-] & Hf & _).
  assert (Hst : st' = snd (signOut h salt now (Bearer t) (Some u) st)).
  { unfold post_signout, guarded in Hout. rewrite Ha in Hout.
    now rewrite Hout. }
  split; [rewrite Hst; now apply signOut_blacklists|].
  split.
  - intros env' now' st'' Hbl.
    unfold authorize. simpl extractToken. cbv iota. now rewrite Hf, Hbl.
  - unfold signOut_timeout. simpl extractToken. cbv iota. rewrite Hf.
    destruct (Jwt.verify t (Some CONTROLLER_SECRET) now) as [e|q] eqn:Hv;
      [reflexivity|].
    split; [reflexivity|].
    unfold Jwt.verify in Hv. destruct t as [s|key pl]; [discriminate|].
    destruct (String.eqb CONTROLLER_SECRET ""); [discriminate|].
    destruct (String.eqb key CONTROLLER_SECRET); [|discriminate].
    destruct (Z.leb_spec (Jwt.exp pl) (now / 1000)) as [|Hexp];
      [discriminate|].
    injection Hv as <-.
    pose proof (Z.mul_div_le now 1000 ltac:(lia)).
    pose proof (Z.mul_succ_div_gt now 1000 ltac:(lia)). lia.
Qed.

(** X7, on the sample store: Ann signs out at 6000 and reuses the
    token; its removal is due at the token's expiry. *)
Lemma signed_out_token_is_rejected_witness :
  let st' := snd (post_signout Demo.hash Demo.env "salt" 6000
                               (Bearer Demo.ann_access) Demo.store) in
  isTokenBlacklisted st' Demo.ann_access = true
  /\ authorize Demo.env 6001 (Bearer Demo.ann_access) st'
     = inl (fail 401 "Session has been invalidated. Please log in again.")
  /\ signOut_timeout 6000 (Bearer Demo.ann_access)
     = Some 86399000.
Proof.
  intros st'.
  destruct (signed_out_token_is_rejected
              Demo.hash Demo.env "salt" 6000 Demo.ann_access Demo.store
              _ st' (surjective_pairing _) eq_refl) as (Hbl & Hrej & Htimer).
  split; [exact Hbl|]. split; [exact (Hrej Demo.env 6001 st' Hbl)|].
  exact (proj1 Htimer).
Defined.

Lemma session_frame_refl o : session_frame o o.
Proof. destruct o; simpl; auto 12. Qed.

(** X8. Whatever the request, the sign-out route adds and removes no
    row, leaves name, e-mail, password hash, profile fields, links and
    creation time of every row as they were, and changes a row at most
    by moving its version to the next and clearing its stored refresh
    token. *)
Theorem post_signout_frame :
  forall bcrypt_hash env salt now auth st pk,
    session_frame
      (findByPk pk (users st))
      (findByPk pk
         (users (snd (post_signout bcrypt_hash env salt now auth st)))).
Proof.
  intros h env salt now auth st pk.
  destruct (post_signout_state h env salt now auth st)
    as [-> | (u & _ & ->)]; [apply session_frame_refl|].
  destruct (signOut_state h salt now auth (Some u) st)
    as [-> | (t & _ & _ & [-> | (p & row & _ & Hrow & ->)])].
  - apply session_frame_refl.
  - rewrite users_blacklist_add. apply session_frame_refl.
  - simpl users. rewrite findByPk_write_row. simpl User.id.
    pose proof (findByPk_id _ _ _ Hrow) as Hid. rewrite Hid.
    destruct (String.eqb pk (Jwt.userId p)) eqn:E;
      [|apply session_frame_refl].
    apply String.eqb_eq in E. subst pk. rewrite Hrow. simpl.
    repeat split; try reflexivity. right. auto.
Qed.

Lemma post_signout_keeps_rows bcrypt_hash env salt now auth st pk u :
  findByPk pk (users st) = Some u ->
  exists u',
    findByPk pk (users (snd (post_signout bcrypt_hash env salt now auth st)))
    = Some u'
    /\ User.id u' = User.id u.
Proof.
  intros Hu.
  destruct (post_signout_state bcrypt_hash env salt now auth st)
    as [-> | (u0 & _ & ->)]; [now exists u|].
  destruct (signOut_state bcrypt_hash salt now auth (Some u0) st)
    as [-> | (t & _ & _ & [-> | (p & row & _ & Hrow & ->)])].
  - now exists u.
  - rewrite users_blacklist_add. now exists u.
  - simpl users. rewrite findByPk_write_row. simpl User.id.
    pose proof (findByPk_id _ _ _ Hrow) as Hid. rewrite Hid.
    destruct (String.eqb pk (Jwt.userId p)) eqn:E; [|now exists u].
    apply String.eqb_eq in E. subst pk. rewrite Hrow.
    rewrite Hrow in Hu. injection Hu as <-.
    eexists. split; reflexivity.
Qed.

(** X9. Sign-out blacklists the presented token only.  Any other token
    that the guard accepted before the sign-out request (the refresh
    token of the same session presented as a bearer, or a token of
    another session of the same user) is accepted after it as well, for
    the same user. *)
Theorem signOut_spares_other_tokens :
  forall bcrypt_hash env salt now auth st t' u env' now',
    auth <> Bearer t' ->
    authorize env' now' (Bearer t') st = inr u ->
    exists u',
      authorize env' now' (Bearer t')
                (snd (post_signout bcrypt_hash env salt now auth st))
      = inr u'
      /\ User.id u' = User.id u.
Proof.
  intros h env salt now auth st t' u env' now' Hne Hacc.
  apply authorize_inr in Hacc
    as (t0 & p & [= <-] & Hf & Hb & Hv & Hu & Hrow).
  destruct (post_signout_keeps_rows h env salt now auth st _ _ Hrow)
    as (u' & Hrow' & Hid).
  exists u'. split; [|exact Hid].
  apply (authorize_bearer_inr _ _ _ p); try assumption.
  destruct (post_signout_state h env salt now auth st)
    as [-> | (u0 & _ & ->)]; [exact Hb|].
  destruct (signOut_state h salt now auth (Some u0) st)
    as [-> | (t & -> & _ & [-> | (p1 & row & _ & _ & ->)])];
    [exact Hb| |].
  - rewrite blacklist_add_other; [exact Hb | congruence].
  - unfold with_users, isTokenBlacklisted. simpl tokenBlacklist.
    fold (isTokenBlacklisted (blacklist_add t st) t').
    rewrite blacklist_add_other; [exact Hb | congruence].
Qed.

(** X9, on the sample store: Ann signs in at clock 5000, signs out
    with the access token, and presents the refresh token of that
    session as a bearer. *)
Lemma signOut_spares_other_tokens_witness :
  let st1 := snd (signIn Demo.hash Demo.compare Demo.is_email "salt" 5000
                         (mkLogin (Some "ann@x.com") (Some "password1") [])
                         Demo.store) in
  let refresh := Jwt.sign "u-ann" (Some 0) CONTROLLER_SECRET SEVEN_DAYS
                          5000 in
  let st2 := snd (post_signout Demo.hash Demo.env "salt" 6000
                               (Bearer Demo.ann_access) st1) in
  option_map User.tokenVersion (findByPk "u-ann" (users st2)) = Some 1
  /\ exists u',
      authorize Demo.env 7000 (Bearer refresh) st2 = inr u'
      /\ User.id u' = "u-ann".
Proof.
  intros st1 refresh st2. split; [reflexivity|].
  refine (signOut_spares_other_tokens
            Demo.hash Demo.env "salt" 6000 (Bearer Demo.ann_access) st1
            refresh
            (User.set_refreshToken (Some refresh) Demo.ann)
            Demo.env 7000 _ eq_refl).
  discriminate.
Defined.

(** ** Links *)

Lemma to_int_not_nil z :
  Z.to_int z <> Decimal.Pos Decimal.Nil /\ Z.to_int z <> Decimal.Neg Decimal.Nil.
Proof.
  destruct z as [|p|p]; simpl; split; try discriminate;
    intros [= H]; now apply DecimalPos.Unsigned.to_uint_nonnil in H.
Qed.

Lemma timestamp_id_inj a b : timestamp_id a = timestamp_id b -> a = b.
Proof.
  unfold timestamp_id. intros H.
  apply DecimalZ.to_int_inj.
  destruct (to_int_not_nil a) as [Ha1 Ha2].
  destruct (to_int_not_nil b) as [Hb1 Hb2].
  pose proof (NilZero.isi _ Ha1 Ha2) as Ia.
  pose proof (NilZero.isi _ Hb1 Hb2) as Ib.
  rewrite H in Ia. rewrite Ia in Ib. now injection Ib.
Qed.

Lemma timestamp_id_nonempty now : String.eqb (timestamp_id now) "" = false.
Proof.
  unfold timestamp_id. destruct (to_int_not_nil now) as [H1 H2].
  destruct (Z.to_int now) as [d|d]; simpl; [|reflexivity].
  destruct d; simpl; try reflexivity.
Qed.

Lemma validated_link b :
  validate_addYoutubeLink b = None ->
  exists url title,
    lb_youtubeUrl b = Some url /\ lb_title b = Some title
    /\ String.eqb url "" = false /\ youtube_pattern url = true
    /\ String.eqb title "" = false.
Proof.
  unfold validate_addYoutubeLink. intros H.
  apply first_error_cons in H as [Hu H].
  apply first_error_cons in H as [Ht _].
  apply string_key_required in Hu as (u & -> & Hune & Hpat).
  apply string_key_required in Ht as (t & -> & Htne & _).
  exists u, t. auto 10.
Qed.

Lemma addYoutubeLink_created bcrypt_hash salt now userId b st row :
  validate_addYoutubeLink b = None ->
  findByPk userId (users st) = Some row ->
  let newLink := Link.mk (Some (timestamp_id now)) (lb_youtubeUrl b)
                         (lb_title b) (Some now) in
  let row' := User.set_youtubeLinks (Some (currentLinks row ++ [newLink]))
                                    row in
  addYoutubeLink bcrypt_hash salt now userId b st
  = (mkResponse 201 (LinkAdded newLink (public_user row')),
     with_users (write_row row' (users st)) st).
Proof.
  intros Hv Hrow. cbv zeta. unfold addYoutubeLink. rewrite Hv, Hrow.
  rewrite update_keeps_password by reflexivity.
  pose proof (findByPk_id _ _ _ Hrow) as Hid.
  match goal with
  | |- context [write_row ?u _] => set (row' := u)
  end.
  assert (H : findByPk userId (write_row row' (users st)) = Some row').
  { rewrite <- Hid. change (User.id row) with (User.id row').
    apply (findByPk_write_row_same row' _ row).
    change (User.id row') with (User.id row). now rewrite Hid. }
  now rewrite H.
Qed.

(** X10. A link submission is answered 201 exactly when the body passes
    the schema and the user exists.  It then stores the user's previous
    links, in their order, followed by one new entry carrying the
    submitted url and title, the clock reading as date and its decimal
    string as id; in every other case the state is returned as it was
    given. *)
Theorem addYoutubeLink_appends :
  forall bcrypt_hash salt now userId b st,
    let r := addYoutubeLink bcrypt_hash salt now userId b st in
    (status (fst r) = 201
     <-> validate_addYoutubeLink b = None
         /\ exists row, findByPk userId (users st) = Some row)
    /\ (status (fst r) <> 201 -> snd r = st)
    /\ (forall row,
           status (fst r) = 201 ->
           findByPk userId (users st) = Some row ->
           exists url title,
             lb_youtubeUrl b = Some url /\ lb_title b = Some title
             /\ youtube_pattern url = true
             /\ findByPk userId (users (snd r))
                = Some (User.set_youtubeLinks
                          (Some (currentLinks row
                                   ++ [Link.mk (Some (timestamp_id now))
                                               (Some url) (Some title)
                                               (Some now)]))
                          row)).
Proof.
  intros h salt now userId b st r. subst r.
  destruct (validate_addYoutubeLink b) as [e|] eqn:Hv.
  - unfold addYoutubeLink. rewrite Hv. simpl.
    split; [split; [discriminate | intros [[=] _]]|].
    split; [reflexivity | discriminate].
  - destruct (findByPk userId (users st)) as [row|] eqn:Hrow.
    + rewrite (addYoutubeLink_created h salt now userId b st row Hv Hrow).
      simpl fst. simpl snd. simpl status.
      split; [split; [intros _; split; [reflexivity | now exists row]
                     | reflexivity]|].
      split; [intros N; now elim N|].
      intros row0 _ [= <-].
      destruct (validated_link b Hv) as (url & title & Hu & Ht & _ & Hpat & _).
      exists url, title. rewrite Hu, Ht.
      split; [reflexivity|]. split; [reflexivity|]. split; [exact Hpat|].
      simpl users.
      pose proof (findByPk_id _ _ _ Hrow) as Hid.
      rewrite findByPk_write_row. simpl User.id.
      now rewrite Hid, String.eqb_refl, Hrow.
    + unfold addYoutubeLink. rewrite Hv, Hrow. simpl.
      split; [split; [discriminate | intros [_ [row [=]]]]|].
      split; [reflexivity | discriminate].
Qed.

(** X10, on the sample store: Bob adds a second link. *)
Lemma addYoutubeLink_appends_witness :
  option_map User.youtubeLinks
    (findByPk "u-bob"
       (users (snd (addYoutubeLink Demo.hash "salt" 7000 "u-bob"
                      (mkLinkBody (Some "youtu.be/b2") (Some "second") [])
                      Demo.store))))
  = Some (Some [Demo.link "b1" 200;
                Link.mk (Some "7000") (Some "youtu.be/b2") (Some "second")
                        (Some 7000)]).
Proof.
  destruct (addYoutubeLink_appends
              Demo.hash "salt" 7000 "u-bob"
              (mkLinkBody (Some "youtu.be/b2") (Some "second") [])
              Demo.store) as (_ & _ & H).
  destruct (H Demo.bob eq_refl eq_refl) as (url & title & Hu & Ht & _ & Hr).
  injection Hu as <-. injection Ht as <-.
  now rewrite Hr.
Defined.

(** X11. The id of a new link is the decimal string of the clock in
    milliseconds, so the ids returned by two successful submissions are
    equal exactly when both were made in the same millisecond. *)
Theorem link_ids_equal_iff_same_millisecond :
  forall bcrypt_hash salt1 salt2 now1 now2 userId1 userId2 b1 b2 st1 st2
         link1 link2 shown1 shown2,
    fst (addYoutubeLink bcrypt_hash salt1 now1 userId1 b1 st1)
    = mkResponse 201 (LinkAdded link1 shown1) ->
    fst (addYoutubeLink bcrypt_hash salt2 now2 userId2 b2 st2)
    = mkResponse 201 (LinkAdded link2 shown2) ->
    (Link.id link1 = Link.id link2 <-> now1 = now2).
Proof.
  intros h salt1 salt2 now1 now2 userId1 userId2 b1 b2 st1 st2
         link1 link2 shown1 shown2 H1 H2.
  assert (Hid : forall salt now userId b st link shown,
             fst (addYoutubeLink h salt now userId b st)
             = mkResponse 201 (LinkAdded link shown) ->
             Link.id link = Some (timestamp_id now)).
  { intros salt now userId b st link shown H.
    unfold addYoutubeLink in H.
    destruct (validate_addYoutubeLink b); [discriminate|].
    destruct (findByPk userId (users st)); [|discriminate].
    destruct (update _ _ _ _ _) as [i tb].
    destruct (findByPk userId tb); [|discriminate].
    simpl in H. now injection H as <- _. }
  rewrite (Hid _ _ _ _ _ _ _ H1), (Hid _ _ _ _ _ _ _ H2). split.
  - intros [= E]. now apply timestamp_id_inj.
  - now intros ->.
Qed.

(** X11, on the sample store: Ann and Bob submit one millisecond
    apart. *)
Lemma link_ids_equal_iff_same_millisecond_witness :
  Some (timestamp_id 7000) <> Some (timestamp_id 7001).
Proof.
  intros E.
  pose proof (link_ids_equal_iff_same_millisecond
                Demo.hash "salt" "salt" 7000 7001 "u-ann" "u-bob"
                (mkLinkBody (Some "youtu.be/x") (Some "x") [])
                (mkLinkBody (Some "youtu.be/y") (Some "y") [])
                Demo.store Demo.store _ _ _ _ eq_refl eq_refl) as [H _].
  specialize (H E). discriminate H.
Defined.

(** Under the primary-key constraint a write replaces one row, in
    place. *)
Lemma write_row_split tb row u :
  primary_key tb ->
  findByPk (User.id u) tb = Some row ->
  exists l1 l2,
    tb = l1 ++ row :: l2 /\ write_row u tb = l1 ++ u :: l2
    /\ (forall r, In r (l1 ++ l2) -> User.id r <> User.id u).
Proof.
  unfold primary_key, findByPk, write_row.
  induction tb as [|r tb IH]; simpl; intros Hnd Hfind; [discriminate|].
  inversion Hnd as [|? ? Hnotin Hnd']; subst.
  destruct (String.eqb (User.id r) (User.id u)) eqn:E.
  - injection Hfind as <-. apply String.eqb_eq in E.
    exists [], tb. simpl.
    assert (Hfree : forall x, In x tb -> User.id x <> User.id u).
    { intros x Hx Hid. apply Hnotin. rewrite E, <- Hid. now apply in_map. }
    split; [reflexivity|]. split; [|exact Hfree].
    f_equal. rewrite <- (map_id tb) at 2. apply map_ext_in.
    intros x Hx. apply Hfree in Hx. apply String.eqb_neq in Hx.
    now rewrite Hx.
  - destruct (IH Hnd' Hfind) as (l1 & l2 & -> & Hw & Hfree).
    exists (r :: l1), l2. simpl. split; [reflexivity|].
    split; [now rewrite Hw|].
    intros x [<-|Hx]; [now apply String.eqb_neq | now apply Hfree].
Qed.

Lemma feed_items_other_links now links l row :
  map (feed_item now (User.set_youtubeLinks links row)) l
  = map (feed_item now row) l.
Proof. reflexivity. Qed.

Lemma getAllContent_total now q st :
  validate_getAllContent q = None ->
  option_map total (page_meta (fst (getAllContent now q st)))
  = Some (Z.of_nat (List.length (all_items now st))).
Proof.
  intros Hq. rewrite (getAllContent_validated now q st Hq).
  unfold page_meta. cbn [fst body option_map pagination_of total].
  rewrite (Permutation_length (sort_perm _ _)).
  now rewrite (Permutation_length (allContent_all_items now st)).
Qed.

(** X12. Under the primary-key constraint, a link that was added is in
    the feed: the items of all users after a successful submission are
    those before it plus one item with the new id, the submitted title
    and url, the clock reading as date and the submitter as owner; the
    total the feed reports grows by one. *)
Theorem added_link_is_listed :
  forall bcrypt_hash salt now userId b st row url title now' q,
    primary_key (users st) ->
    validate_addYoutubeLink b = None ->
    findByPk userId (users st) = Some row ->
    lb_youtubeUrl b = Some url -> lb_title b = Some title ->
    validate_getAllContent q = None ->
    let st' := snd (addYoutubeLink bcrypt_hash salt now userId b st) in
    Permutation
      (all_items now' st')
      (mkContent (timestamp_id now) title url now (owner row)
         :: all_items now' st)
    /\ exists n,
        option_map total (page_meta (fst (getAllContent now' q st)))
        = Some n
        /\ option_map total (page_meta (fst (getAllContent now' q st')))
           = Some (n + 1).
Proof.
  intros h salt now userId b st row url title now' q
         Hpk Hv Hrow Hu Ht Hq st'.
  subst st'.
  rewrite (addYoutubeLink_created h salt now userId b st row Hv Hrow).
  simpl snd. rewrite Hu, Ht.
  set (link := Link.mk (Some (timestamp_id now)) (Some url) (Some title)
                       (Some now)).
  set (row' := User.set_youtubeLinks (Some (currentLinks row ++ [link])) row).
  destruct (validated_link b Hv) as (url0 & title0 & Hu0 & Ht0 & Hune & _ & Htne).
  rewrite Hu in Hu0. rewrite Ht in Ht0.
  injection Hu0 as <-. injection Ht0 as <-.
  pose proof (findByPk_id _ _ _ Hrow) as Hid.
  assert (Hrow' : findByPk (User.id row') (users st) = Some row)
    by (change (User.id row') with (User.id row); now rewrite Hid).
  destruct (write_row_split _ _ _ Hpk Hrow') as (l1 & l2 & Htb & Hw & _).
  assert (Hcomplete : has_id_and_url link = true).
  { unfold has_id_and_url, link. simpl.
    now rewrite timestamp_id_nonempty, Hune. }
  assert (Hitem : feed_item now' row link
                  = mkContent (timestamp_id now) title url now (owner row)).
  { unfold feed_item, link. simpl. now rewrite Htne. }
  assert (Hperm : Permutation
                    (all_items now' (with_users (write_row row' (users st)) st))
                    (mkContent (timestamp_id now) title url now (owner row)
                       :: all_items now' st)).
  { unfold all_items. simpl users. rewrite Hw, Htb.
    rewrite !flat_map_app. cbn [flat_map].
    change (currentLinks row') with (currentLinks row ++ [link]).
    rewrite filter_app, map_app. cbn [filter]. rewrite Hcomplete.
    unfold row'. rewrite !feed_items_other_links.
    cbn [map]. rewrite Hitem.
    rewrite <- !app_assoc. cbn [app].
    rewrite (Permutation_middle (flat_map _ l1)).
    apply Permutation_app_head.
    symmetry. apply Permutation_middle. }
  split; [exact Hperm|].
  rewrite !(getAllContent_total _ _ _ Hq).
  eexists. split; [reflexivity|]. f_equal.
  rewrite (Permutation_length Hperm). simpl List.length. lia.
Qed.

(** X12, on the sample store: Bob's new link raises the total from
    three to four. *)
Lemma added_link_is_listed_witness :
  let st' := snd (addYoutubeLink Demo.hash "salt" 7000 "u-bob"
                    (mkLinkBody (Some "youtu.be/b2") (Some "second") [])
                    Demo.store) in
  option_map total
    (page_meta (fst (getAllContent 8000 (mkQuery Joi.QAbsent Joi.QAbsent
                                                 None []) st')))
  = Some 4.
Proof.
  intros st'.
  assert (Hpk : primary_key (users Demo.store))
    by (repeat constructor; simpl; intuition discriminate).
  destruct (added_link_is_listed
              Demo.hash "salt" 7000 "u-bob"
              (mkLinkBody (Some "youtu.be/b2") (Some "second") [])
              Demo.store Demo.bob "youtu.be/b2" "second" 8000
              (mkQuery Joi.QAbsent Joi.QAbsent None [])
              Hpk eq_refl eq_refl eq_refl eq_refl eq_refl)
    as (_ & n & Hn & H).
  vm_compute in Hn. injection Hn as <-. exact H.
Defined.

Lemma removeYoutubeLink_removed bcrypt_hash salt userId linkId st row :
  findByPk userId (users st) = Some row ->
  ~ id_absent linkId (currentLinks row) ->
  let row' := User.set_youtubeLinks
                (Some (filter (other_id linkId) (currentLinks row))) row in
  removeYoutubeLink bcrypt_hash salt userId linkId st
  = (mkResponse 200 (UserData (public_user row')),
     with_users (write_row row' (users st)) st).
Proof.
  intros Hrow Hpres. cbv zeta. unfold removeYoutubeLink. rewrite Hrow.
  destruct (Nat.eqb _ _) eqn:E.
  - apply Nat.eqb_eq in E. symmetry in E.
    apply filter_other_id_length in E. contradiction.
  - rewrite update_keeps_password by reflexivity.
    pose proof (findByPk_id _ _ _ Hrow) as Hid.
    match goal with
    | |- context [write_row ?u _] => set (row' := u)
    end.
    assert (H : findByPk userId (write_row row' (users st)) = Some row').
    { rewrite <- Hid. change (User.id row) with (User.id row').
      apply (findByPk_write_row_same row' _ row).
      change (User.id row') with (User.id row). now rewrite Hid. }
    now rewrite H.
Qed.

Lemma filter_other_id_clean linkId links :
  id_absent linkId (filter (other_id linkId) links).
Proof.
  intros l Hl. apply filter_In in Hl as [_ H]. now apply other_id_true.
Qed.

(** X13. Removing a link id that the user's collection holds answers
    200 and stores the collection without every entry carrying that id,
    the other entries kept in their order; no entry with the id is left,
    so removing the same id once more is answered 404 and changes
    nothing. *)
Theorem removeYoutubeLink_removes_every_match :
  forall bcrypt_hash salt salt' userId linkId st row,
    findByPk userId (users st) = Some row ->
    ~ id_absent linkId (currentLinks row) ->
    let r := removeYoutubeLink bcrypt_hash salt userId linkId st in
    exists row',
      status (fst r) = 200
      /\ findByPk userId (users (snd r)) = Some row'
      /\ User.youtubeLinks row'
         = Some (filter (other_id linkId) (currentLinks row))
      /\ (forall l, In l (currentLinks row')
                    <-> In l (currentLinks row)
                        /\ Link.id l <> Some linkId)
      /\ removeYoutubeLink bcrypt_hash salt' userId linkId (snd r)
         = (fail 404 "YouTube link not found", snd r).
Proof.
  intros h salt salt' userId linkId st row Hrow Hpres r. subst r.
  rewrite (removeYoutubeLink_removed h salt userId linkId st row Hrow Hpres).
  set (row' := User.set_youtubeLinks
                 (Some (filter (other_id linkId) (currentLinks row))) row).
  simpl fst. simpl snd.
  pose proof (findByPk_id _ _ _ Hrow) as Hid.
  assert (H : findByPk userId
                (users (with_users (write_row row' (users st)) st))
              = Some row').
  { simpl users. rewrite <- Hid. change (User.id row) with (User.id row').
    apply (findByPk_write_row_same row' _ row).
    change (User.id row') with (User.id row). now rewrite Hid. }
  exists row'. split; [reflexivity|]. split; [exact H|].
  split; [reflexivity|]. split.
  - intros l. change (currentLinks row')
      with (filter (other_id linkId) (currentLinks row)).
    rewrite filter_In, other_id_true. reflexivity.
  - unfold removeYoutubeLink. rewrite H.
    change (currentLinks row')
      with (filter (other_id linkId) (currentLinks row)).
    rewrite (filter_other_id_absent linkId
               (filter (other_id linkId) (currentLinks row)))
      by apply filter_other_id_clean.
    now rewrite Nat.eqb_refl.
Qed.

(** X13, on the sample store: Ann removes her link "a1". *)
Lemma removeYoutubeLink_removes_every_match_witness :
  let r := removeYoutubeLink Demo.hash "salt" "u-ann" "a1" Demo.store in
  option_map User.youtubeLinks (findByPk "u-ann" (users (snd r)))
  = Some (Some [Demo.link "a2" 300])
  /\ removeYoutubeLink Demo.hash "salt" "u-ann" "a1" (snd r)
     = (fail 404 "YouTube link not found", snd r).
Proof.
  intros r.
  destruct (removeYoutubeLink_removes_every_match
              Demo.hash "salt" "salt" "u-ann" "a1" Demo.store Demo.ann
              eq_refl) as (row' & _ & Hf & Hl & _ & Hagain).
  - intros H. apply (H (Demo.link "a1" 100)); [simpl; auto | reflexivity].
  - split; [|exact Hagain]. fold r in Hf. rewrite Hf. simpl option_map.
    now rewrite Hl.
Defined.

(** ** The YouTube pattern *)

Lemma substring_all s : String.substring 0 (String.length s) s = s.
Proof. induction s as [|c s IH]; simpl; [reflexivity | now rewrite IH]. Qed.

Lemma strip_prefix_nil s : strip_prefix "" s = Some s.
Proof.
  unfold strip_prefix. simpl String.length. rewrite Nat.sub_0_r.
  rewrite substring_all. now destruct s.
Qed.

Lemma strip_prefix_cons_eq c p s :
  strip_prefix (String c p) (String c s) = strip_prefix p s.
Proof.
  unfold strip_prefix. simpl.
  destruct (ascii_dec c c) as [_|N]; [reflexivity | now elim N].
Qed.

Lemma strip_prefix_cons_neq c d p s :
  c <> d -> strip_prefix (String c p) (String d s) = None.
Proof.
  intros Hne. unfold strip_prefix. simpl.
  destruct (ascii_dec c d) as [E|_]; [contradiction | reflexivity].
Qed.

Lemma strip_prefix_Some p s r :
  strip_prefix p s = Some r -> s = (p ++ r)%string.
Proof.
  unfold strip_prefix. destruct (String.prefix p s) eqn:Hp; [|discriminate].
  intros [= <-]. revert s Hp.
  induction p as [|c p IH]; intros s Hp; simpl.
  - rewrite Nat.sub_0_r. symmetry. apply substring_all.
  - destruct s as [|d s]; simpl in Hp; [discriminate|].
    destruct (ascii_dec c d) as [<-|]; [|discriminate].
    simpl. f_equal. now apply IH.
Qed.

Lemma strip_optional_cases p s :
  (exists r, s = (p ++ r)%string /\ strip_optional p s = r)
  \/ (strip_prefix p s = None /\ strip_optional p s = s).
Proof.
  unfold strip_optional. destruct (strip_prefix p s) as [r|] eqn:E.
  - left. exists r. split; [now apply strip_prefix_Some | reflexivity].
  - right. auto.
Qed.

(** X14. The matcher used for [youtubeUrl] accepts exactly the strings
    of the pattern: an optional "http://" or "https://", an optional
    "www.", then "youtube.com/" or "youtu.be/", then any text without a
    line break. *)
Theorem youtube_pattern_language :
  forall s,
    youtube_pattern s = true
    <-> exists scheme www host rest,
        In scheme [""; "http://"; "https://"]
        /\ In www [""; "www."]
        /\ In host ["youtube.com/"; "youtu.be/"]
        /\ s = (scheme ++ www ++ host ++ rest)%string
        /\ no_line_terminator rest = true.
Proof.
  intros s. split.
  - unfold youtube_pattern.
    set (s1 := match strip_prefix "https://" s with
               | Some r => r
               | None => strip_optional "http://" s
               end).
    assert (Hs1 : exists scheme, In scheme [""; "http://"; "https://"]
                                 /\ s = (scheme ++ s1)%string).
    { unfold s1. destruct (strip_prefix "https://" s) as [r|] eqn:E.
      - exists "https://". split; [simpl; auto | now apply strip_prefix_Some].
      - destruct (strip_optional_cases "http://" s)
          as [(r & Hr & ->) | (_ & ->)].
        + exists "http://". split; [simpl; auto | exact Hr].
        + exists "". split; [simpl; auto | reflexivity]. }
    destruct Hs1 as (scheme & Hscheme & Hs).
    assert (Hs2 : exists www, In www [""; "www."]
                              /\ s1 = (www ++ strip_optional "www." s1)%string).
    { destruct (strip_optional_cases "www." s1)
        as [(r & Hr & ->) | (_ & ->)].
      - exists "www.". split; [simpl; auto | exact Hr].
      - exists "". split; [simpl; auto | reflexivity]. }
    destruct Hs2 as (www & Hwww & Hs1).
    set (s2 := strip_optional "www." s1) in *.
    destruct (strip_prefix "youtube.com/" s2) as [r|] eqn:E1.
    + intros Hr. exists scheme, www, "youtube.com/", r.
      apply strip_prefix_Some in E1. rewrite Hs, Hs1, E1.
      simpl In. auto 10.
    + destruct (strip_prefix "youtu.be/" s2) as [r|] eqn:E2;
        [|discriminate].
      intros Hr. exists scheme, www, "youtu.be/", r.
      apply strip_prefix_Some in E2. rewrite Hs, Hs1, E2.
      simpl In. auto 10.
  - intros (scheme & www & host & rest & Hscheme & Hwww & Hhost & -> & Hr).
    simpl in Hscheme, Hwww, Hhost.
    destruct Hscheme as [<-|[<-|[<-|[]]]];
      destruct Hwww as [<-|[<-|[]]];
      destruct Hhost as [<-|[<-|[]]];
      cbn [append]; unfold youtube_pattern, strip_optional;
      repeat (rewrite strip_prefix_cons_eq
              || rewrite strip_prefix_nil
              || rewrite strip_prefix_cons_neq by discriminate);
      cbv iota; try exact Hr.
Qed.

(** ** Profile updates *)

Lemma string_key_optional k allow lo hi rule v s :
  Joi.string_key k false allow lo hi rule v = None ->
  v = Some s ->
  (allow = false -> String.eqb s "" = false)
  /\ (String.eqb s "" = false ->
      match rule with Some (_, ok) => ok s = true | None => True end).
Proof.
  unfold Joi.string_key. intros H ->.
  destruct (String.eqb s "") eqn:Es.
  - destruct allow; [|discriminate]. split; [discriminate|discriminate].
  - destruct (match lo with Some n => _ | None => false end); [discriminate|].
    destruct (match hi with Some n => _ | None => false end); [discriminate|].
    split; [reflexivity|]. intros _.
    destruct rule as [[c ok]|]; [|exact I]. now destruct (ok s).
Qed.

Lemma validated_profile joi_email b :
  validate_updateProfile joi_email b = None ->
  (forall n, pb_name b = Some n -> String.eqb n "" = false)
  /\ (forall e, pb_email b = Some e -> String.eqb e "" = false).
Proof.
  unfold validate_updateProfile. intros H.
  apply first_error_cons in H as [Hn H].
  apply first_error_cons in H as [He _].
  split.
  - intros n E. now apply (string_key_optional _ _ _ _ _ _ n Hn).
  - intros e E. now apply (string_key_optional _ _ _ _ _ _ e He).
Qed.

Lemma or_else_supplied v old :
  (forall s, v = Some s -> String.eqb s "" = false) ->
  or_else v old = supplied v old.
Proof.
  intros H. destruct v as [s|]; [|reflexivity].
  unfold or_else, supplied, truthy. now rewrite (H s eq_refl).
Qed.

Lemma findOne_email_none e tb :
  findOne_email e tb = None -> ~ In e (map User.email tb).
Proof.
  unfold findOne_email. intros H Hin. apply in_map_iff in Hin
    as (r & Hr & Hin).
  apply (find_none _ _ H) in Hin. rewrite Hr, String.eqb_refl in Hin.
  discriminate.
Qed.

(** X15. A profile update that passes the schema for an existing user
    is answered 409, with nothing changed, exactly when it asks for an
    e-mail different from the user's own that some row already carries.
    Otherwise it is answered 200 and the user's row takes the supplied
    name, e-mail, bio and location (each kept when not supplied) and,
    with an upload, the stored path with forward slashes as picture. *)
Theorem updateProfile_outcomes :
  forall bcrypt_hash joi_email salt userId b file st row,
    validate_updateProfile joi_email b = None ->
    findByPk userId (users st) = Some row ->
    let r := updateProfile bcrypt_hash joi_email salt userId b file st in
    (email_taken b row st -> r = (fail 409 "Email already in use", st))
    /\ (~ email_taken b row st ->
        exists row',
          r = (mkResponse 200 (UserData (public_user row')),
               with_users (write_row row' (users st)) st)
          /\ findByPk userId (users (snd r)) = Some row'
          /\ User.name row' = supplied (pb_name b) (User.name row)
          /\ User.email row' = supplied (pb_email b) (User.email row)
          /\ User.bio row' = match pb_bio b with
                             | Some v => Some v
                             | None => User.bio row
                             end
          /\ User.location row' = match pb_location b with
                                  | Some v => Some v
                                  | None => User.location row
                                  end
          /\ User.profilePicture row'
             = match file with
               | Some path => Some (forward_slashes path)
               | None => User.profilePicture row
               end).
Proof.
  intros h em salt userId b file st row Hv Hrow r. subst r.
  destruct (validated_profile em b Hv) as [Hname Hemail].
  unfold updateProfile. rewrite Hv, Hrow.
  split.
  - intros (e & other & He & Hne & Hother).
    rewrite He. unfold truthy. rewrite (Hemail e He). simpl negb.
    apply String.eqb_neq in Hne. rewrite Hne. simpl. now rewrite Hother.
  - intros Hfree.
    match goal with
    | |- context [if ?c then _ else _] =>
        assert (Hc : c = false)
    end.
    { destruct (pb_email b) as [e|] eqn:He; [|reflexivity].
      unfold truthy. rewrite (Hemail e eq_refl). simpl negb.
      destruct (String.eqb e (User.email row)) eqn:Ee; [reflexivity|].
      simpl. destruct (findOne_email e (users st)) as [other|] eqn:Ho;
        [|reflexivity].
      exfalso. apply Hfree. exists e, other.
      apply String.eqb_neq in Ee. auto. }
    rewrite Hc. rewrite update_keeps_password by reflexivity.
    rewrite (or_else_supplied (pb_name b) _ Hname).
    rewrite (or_else_supplied (pb_email b) _ Hemail).
    match goal with
    | |- context [write_row ?u _] => set (row' := u)
    end.
    pose proof (findByPk_id _ _ _ Hrow) as Hid.
    assert (H : findByPk userId (write_row row' (users st)) = Some row').
    { rewrite <- Hid. change (User.id row) with (User.id row').
      apply (findByPk_write_row_same row' _ row).
      change (User.id row') with (User.id row). now rewrite Hid. }
    rewrite H. exists row'. split; [reflexivity|]. split; [exact H|].
    unfold row'. simpl. repeat split. now destruct file.
Qed.

(** X15, on the sample store: Ann asks for Bob's e-mail, then for a
    new name. *)
Lemma updateProfile_outcomes_witness :
  updateProfile Demo.hash Demo.is_email "salt" "u-ann"
                (mkProfile None (Some "bob@x.com") None None []) None
                Demo.store
  = (fail 409 "Email already in use", Demo.store)
  /\ option_map User.name
       (findByPk "u-ann"
          (users (snd (updateProfile Demo.hash Demo.is_email "salt" "u-ann"
                         (mkProfile (Some "Ann Ray") None None None []) None
                         Demo.store))))
     = Some "Ann Ray".
Proof.
  split.
  - apply (updateProfile_outcomes
             Demo.hash Demo.is_email "salt" "u-ann"
             (mkProfile None (Some "bob@x.com") None None []) None
             Demo.store Demo.ann eq_refl eq_refl).
    exists "bob@x.com", Demo.bob. repeat split. discriminate.
  - destruct (updateProfile_outcomes
                Demo.hash Demo.is_email "salt" "u-ann"
                (mkProfile (Some "Ann Ray") None None None []) None
                Demo.store Demo.ann eq_refl eq_refl) as [_ H].
    destruct H as (row' & _ & Hf & Hn & _).
    + intros (e & other & He & _). discriminate He.
    + rewrite Hf. simpl. now rewrite Hn.
Defined.

(** ** The table's constraints *)

Lemma write_row_keeps_ok tb row u :
  primary_key tb -> unique_emails tb ->
  findByPk (User.id u) tb = Some row ->
  User.email u = User.email row \/ ~ In (User.email u) (map User.email tb) ->
  primary_key (write_row u tb) /\ unique_emails (write_row u tb).
Proof.
  intros Hpk Hue Hrow Hemail.
  destruct (write_row_split _ _ _ Hpk Hrow) as (l1 & l2 & Htb & Hw & _).
  pose proof (findByPk_id _ _ _ Hrow) as Hid.
  unfold primary_key, unique_emails in *. rewrite Hw. subst tb.
  rewrite map_app in Hpk, Hue, Hemail. simpl map in Hpk, Hue, Hemail.
  rewrite !map_app. simpl map. rewrite <- Hid.
  split; [exact Hpk|].
  destruct Hemail as [-> | Hnew]; [exact Hue|].
  apply NoDup_remove_1 in Hue.
  assert (Hnot : ~ In (User.email u) (map User.email l1 ++ map User.email l2)).
  { intros Hin. apply Hnew. apply in_app_iff in Hin.
    apply in_app_iff. simpl. tauto. }
  eapply Permutation_NoDup; [apply Permutation_middle|].
  now constructor.
Qed.

Lemma store_ok_write st row u :
  store_ok st ->
  findByPk (User.id u) (users st) = Some row ->
  User.email u = User.email row
  \/ ~ In (User.email u) (map User.email (users st)) ->
  store_ok (with_users (write_row u (users st)) st).
Proof.
  intros [Hpk Hue] Hrow He. unfold store_ok. simpl users.
  now apply (write_row_keeps_ok _ row).
Qed.

Lemma store_ok_blacklist t st : store_ok st -> store_ok (blacklist_add t st).
Proof. unfold store_ok. now rewrite users_blacklist_add. Qed.

Lemma updateProfile_state_email bcrypt_hash joi_email salt userId b file st :
  snd (updateProfile bcrypt_hash joi_email salt userId b file st) = st
  \/ exists row d,
      findByPk userId (users st) = Some row
      /\ (User.upd_email d = User.email row
          \/ findOne_email (User.upd_email d) (users st) = None)
      /\ snd (updateProfile bcrypt_hash joi_email salt userId b file st)
         = with_users (write_row (User.set_profile d row) (users st)) st.
Proof.
  unfold updateProfile.
  destruct (validate_updateProfile joi_email b); [now left|].
  destruct (findByPk userId (users st)) as [row|] eqn:Hrow; [|now left].
  match goal with
  | |- context [if ?c then _ else _] => destruct c eqn:Hc
  end; [now left|].
  right. rewrite update_keeps_password by reflexivity.
  rewrite snd_read_back.
  eexists. eexists. split; [reflexivity|]. split; [|reflexivity].
  simpl User.upd_email. unfold or_else.
  destruct (pb_email b) as [e|]; [|now left].
  destruct (truthy (Some e)) eqn:Et; [|now left].
  simpl in Hc.
  destruct (String.eqb e (User.email row)) eqn:Ee.
  - left. now apply String.eqb_eq.
  - simpl in Hc. right.
    now destruct (findOne_email e (users st)).
Qed.

(** X16. Every handler keeps the constraints of the [users] table: if
    ids and e-mails are unique before a request, they are unique after
    it.  This holds for sign-up (given a generated id that is not in
    use), sign-in, refresh, sign-out, profile update, and link add and
    remove. *)
Theorem handlers_keep_table_constraints :
  forall bcrypt_hash bcrypt_compare joi_email st,
    store_ok st ->
    (forall salt uuid now b,
        findByPk uuid (users st) = None ->
        store_ok (snd (signUp bcrypt_hash joi_email salt uuid now b st)))
    /\ (forall salt now b,
           store_ok (snd (signIn bcrypt_hash bcrypt_compare joi_email
                                 salt now b st)))
    /\ (forall is_uuid now presented,
           store_ok (snd (refreshToken is_uuid now presented st)))
    /\ (forall env salt now auth,
           store_ok (snd (post_signout bcrypt_hash env salt now auth st)))
    /\ (forall salt userId b file,
           store_ok (snd (updateProfile bcrypt_hash joi_email salt userId
                                        b file st)))
    /\ (forall salt now userId b,
           store_ok (snd (addYoutubeLink bcrypt_hash salt now userId b st)))
    /\ (forall salt userId linkId,
           store_ok (snd (removeYoutubeLink bcrypt_hash salt userId linkId
                                            st))).
Proof.
  intros h cmp em st Hok. repeat apply conj.
  - intros salt uuid now b Hfresh.
    destruct (validate_register em b) as [e|] eqn:Hv;
      [unfold signUp; now rewrite Hv|].
    destruct (validated_register _ _ Hv) as (n & e & p & Hn & He & Hp & _).
    destruct (findOne_email e (users st)) as [other|] eqn:Hfree;
      [unfold signUp; now rewrite Hv, Hn, He, Hp, Hfree|].
    rewrite (signUp_created h em salt uuid now b st n e p
                            Hv Hn He Hp Hfree Hfresh).
    destruct Hok as [Hpk Hue]. unfold store_ok, primary_key, unique_emails.
    simpl users. rewrite !map_app. simpl map.
    split.
    + eapply Permutation_NoDup; [apply Permutation_cons_append|].
      constructor; [|exact Hpk].
      intros Hin. apply in_map_iff in Hin as (r & Hr & Hin).
      unfold findByPk in Hfresh. apply (find_none _ _ Hfresh) in Hin.
      rewrite Hr, String.eqb_refl in Hin. discriminate.
    + eapply Permutation_NoDup; [apply Permutation_cons_append|].
      constructor; [|exact Hue]. now apply findOne_email_none.
  - intros salt now b.
    destruct (signIn_state h cmp em salt now b st)
      as [-> | (row & t & Hin & ->)]; [exact Hok|].
    apply (store_ok_write st row); [exact Hok| |now left].
    simpl User.id. apply primary_key_find; [apply Hok | exact Hin].
  - intros is_uuid now presented. now rewrite refreshToken_state.
  - intros env salt now auth.
    destruct (post_signout_state h env salt now auth st)
      as [-> | (u & _ & ->)]; [exact Hok|].
    destruct (signOut_state h salt now auth (Some u) st)
      as [-> | (t & _ & _ & [-> | (p & row & _ & Hrow & ->)])];
      [exact Hok | now apply store_ok_blacklist|].
    pose proof (findByPk_id _ _ _ Hrow) as Hid.
    destruct Hok as [Hpk Hue]. unfold store_ok. simpl users.
    apply (write_row_keeps_ok _ row); try assumption; [|now left].
    simpl User.id. now rewrite Hid.
  - intros salt userId b file.
    destruct (updateProfile_state_email h em salt userId b file st)
      as [-> | (row & d & Hrow & He & ->)]; [exact Hok|].
    pose proof (findByPk_id _ _ _ Hrow) as Hid.
    apply (store_ok_write st row); [exact Hok| |].
    + simpl User.id. now rewrite Hid.
    + simpl User.email. destruct He as [He|He]; [now left|].
      right. now apply findOne_email_none.
  - intros salt now userId b.
    destruct (addYoutubeLink_state h salt now userId b st)
      as [-> | (row & l & Hrow & ->)]; [exact Hok|].
    pose proof (findByPk_id _ _ _ Hrow) as Hid.
    apply (store_ok_write st row); [exact Hok| |now left].
    simpl User.id. now rewrite Hid.
  - intros salt userId linkId.
    destruct (removeYoutubeLink_state h salt userId linkId st)
      as [-> | (row & l & Hrow & ->)]; [exact Hok|].
    pose proof (findByPk_id _ _ _ Hrow) as Hid.
    apply (store_ok_write st row); [exact Hok| |now left].
    simpl User.id. now rewrite Hid.
Qed.

(** X16, on the sample store: Ann takes a new e-mail. *)
Lemma handlers_keep_table_constraints_witness :
  store_ok (snd (updateProfile Demo.hash Demo.is_email "salt" "u-ann"
                   (mkProfile None (Some "ann@y.org") None None []) None
                   Demo.store)).
Proof.
  assert (Hok : store_ok Demo.store).
  { split; repeat constructor; simpl; intuition discriminate. }
  apply (handlers_keep_table_constraints
           Demo.hash Demo.compare Demo.is_email Demo.store Hok).
Defined.

(** ** Pages of the feed *)


Lemma lt_ceil_div p a b :
  0 < b -> (p < ceil_div a b <-> p * b < a).
Proof.
  intros Hb. unfold ceil_div. split.
  - intros H.
    assert (H1 : p + 1 <= (a + b - 1) / b) by lia.
    assert (H2 : b * (p + 1) <= a + b - 1).
    { etransitivity; [apply Z.mul_le_mono_nonneg_l; [lia | exact H1]|].
      apply Z.mul_div_le. lia. }
    lia.
  - intros H.
    assert (H1 : p + 1 <= (a + b - 1) / b)
      by (apply Z.div_le_lower_bound; lia).
    lia.
Qed.




Lemma firstn_plus {A : Type} (a b : nat) (l : list A) :
  firstn (a + b) l = firstn a l ++ firstn b (skipn a l).
Proof.
  revert l. induction a as [|a IH]; intros l; simpl; [reflexivity|].
  destruct l as [|x l]; simpl; [now rewrite firstn_nil|].
  now rewrite IH.
Qed.

Lemma segment_chunk {A : Type} (l : list A) (a L : nat) :
  segment l (Z.of_nat a)
          (Z.min (Z.of_nat a + Z.of_nat L) (Z.of_nat (List.length l)))
  = firstn L (skipn a l).
Proof.
  unfold segment. rewrite Nat2Z.id.
  destruct (Z_le_gt_dec (Z.of_nat a + Z.of_nat L) (Z.of_nat (List.length l)))
    as [Hle|Hgt].
  - rewrite Z.min_l by lia. f_equal. lia.
  - rewrite Z.min_r by lia.
    rewrite (firstn_all2 (n := L)) by (rewrite length_skipn; lia).
    apply firstn_all2. rewrite length_skipn. lia.
Qed.

Lemma chunks_concat {A : Type} (l : list A) (L k : nat) :
  flat_map (fun p => firstn L (skipn ((p - 1) * L) l)) (seq 1 k)
  = firstn (k * L) l.
Proof.
  induction k as [|k IH]; [reflexivity|].
  rewrite seq_S, flat_map_app, IH. cbn [flat_map]. rewrite app_nil_r.
  replace (1 + k - 1)%nat with k by lia.
  replace (S k * L)%nat with (k * L + L)%nat by lia.
  symmetry. apply firstn_plus.
Qed.

Lemma flat_map_ext_in {A B : Type} (f g : A -> list B) l :
  (forall x, In x l -> f x = g x) -> flat_map f l = flat_map g l.
Proof.
  intros H. induction l as [|x l IH]; simpl; [reflexivity|].
  rewrite (H x) by (simpl; auto). f_equal. apply IH.
  intros y Hy. apply H. simpl. auto.
Qed.

(** A page, a limit and an order written in decimal numerals and
    within the bounds of the schema are served as written. *)
Lemma numeral_query page limit sortBy :
  1 <= page <= Joi.MAX_SAFE_INTEGER ->
  1 <= limit <= 50 ->
  In sortBy ["newest"; "oldest"; "popular"] ->
  let q := mkQuery (Joi.QInt page) (Joi.QInt limit) (Some sortBy) [] in
  validate_getAllContent q = None
  /\ served_page q = page /\ served_limit q = limit
  /\ requested_sort q = sortBy.
Proof.
  intros Hp Hl Hs q.
  assert (Hv : validate_getAllContent q = None).
  { unfold validate_getAllContent, q.
    cbn [q_page q_limit q_sortBy q_unknown].
    assert (E1 : Joi.integer_key "page" 1 None (Joi.QInt page) = None)
      by (apply integer_key_numeral; unfold Joi.MAX_SAFE_INTEGER in *; lia).
    assert (E2 : Joi.integer_key "limit" 1 (Some 50) (Joi.QInt limit) = None)
      by (apply integer_key_numeral; unfold Joi.MAX_SAFE_INTEGER; lia).
    rewrite E1, E2. simpl in Hs.
    destruct Hs as [<-|[<-|[<-|[]]]]; reflexivity. }
  split; [exact Hv|].
  destruct (validated_query q Hv) as (Hqp & Hql & _).
  split; [now destruct (Hqp page eq_refl)|].
  split; [now destruct (Hql limit eq_refl) | reflexivity].
Qed.

(** X18. The pages of the feed partition it: for a fixed limit and
    sort order, and as long as the page numbers are safe integers
    (at most 2^53 - 1 pages), reading pages 1 to [totalPages] one
    after the other yields every feed item exactly once, in the order
    asked for. *)
Theorem feed_pages_partition :
  forall now st limit sortBy,
    1 <= limit <= 50 ->
    In sortBy ["newest"; "oldest"; "popular"] ->
    ceil_div (Z.of_nat (List.length (all_items now st))) limit
    <= Joi.MAX_SAFE_INTEGER ->
    let page p :=
      page_items
        (fst (getAllContent now
                (mkQuery (Joi.QInt (Z.of_nat p)) (Joi.QInt limit)
                         (Some sortBy) []) st)) in
    let pages :=
      Z.to_nat (ceil_div (Z.of_nat (List.length (all_items now st))) limit) in
    Permutation (flat_map page (seq 1 pages)) (all_items now st)
    /\ StronglySorted (feed_order sortBy) (flat_map page (seq 1 pages)).
Proof.
  intros now st limit sortBy Hl Hs Hsafe page pages.
  set (sorted := sort (getSortFn sortBy)
                      (flat_map (user_content now)
                         (sort by_created_at_desc
                               (filter has_links (users st))))).
  assert (Hperm : Permutation sorted (all_items now st)).
  { unfold sorted. rewrite sort_perm. apply allContent_all_items. }
  assert (Hlen : List.length (all_items now st) = List.length sorted)
    by (symmetry; now apply Permutation_length).
  assert (Hpage : forall p, In p (seq 1 pages) ->
             page p = firstn (Z.to_nat limit)
                             (skipn ((p - 1) * Z.to_nat limit) sorted)).
  { intros p Hp. apply in_seq in Hp. unfold page.
    assert (Hpz : 1 <= Z.of_nat p <= Joi.MAX_SAFE_INTEGER)
      by (unfold pages in Hp; lia).
    destruct (numeral_query (Z.of_nat p) limit sortBy Hpz Hl Hs)
      as (Hq & Ep & Elim & Es).
    rewrite (getAllContent_validated now _ st Hq).
    rewrite Ep, Elim, Es.
    unfold page_items. cbn [fst body].
    fold sorted.
    assert (Ea : (Z.of_nat p - 1) * limit
                 = Z.of_nat ((p - 1) * Z.to_nat limit)) by nia.
    rewrite Ea.
    assert (El : Z.of_nat ((p - 1) * Z.to_nat limit) + limit
                 = Z.of_nat ((p - 1) * Z.to_nat limit)
                   + Z.of_nat (Z.to_nat limit)) by lia.
    rewrite El. apply segment_chunk. }
  rewrite (flat_map_ext_in _ _ _ Hpage), chunks_concat.
  assert (Hall : firstn (pages * Z.to_nat limit) sorted = sorted).
  { apply firstn_all2. unfold pages. rewrite Hlen.
    set (n := Z.of_nat (List.length sorted)).
    assert (Hc : ~ (ceil_div n limit < ceil_div n limit)) by lia.
    rewrite lt_ceil_div in Hc by lia.
    assert (0 <= ceil_div n limit).
    { unfold ceil_div. apply Z.div_pos; lia. }
    nia. }
  rewrite Hall. split; [exact Hperm|].
  apply sort_sorted.
  - intros x y. now apply getSortFn_feed_order.
  - apply feed_order_total.
  - apply feed_order_trans.
Qed.

(** X18, on the sample store: three pages of one item each. *)
Lemma feed_pages_partition_witness :
  let walk :=
    flat_map
      (fun p =>
         page_items
           (fst (getAllContent 0
                   (mkQuery (Joi.QInt (Z.of_nat p)) (Joi.QInt 1)
                            (Some "oldest") []) Demo.store)))
      (seq 1 3) in
  map c_id walk = ["a1"; "b1"; "a2"]
  /\ Permutation walk (all_items 0 Demo.store)
  /\ StronglySorted (feed_order "oldest") walk.
Proof.
  split; [reflexivity|].
  apply (feed_pages_partition 0 Demo.store 1 "oldest");
    [lia | simpl; auto | vm_compute; discriminate].
Defined.


(** ** Routes behind [authorize] *)

Lemma others_untouched_refl uid st : others_untouched uid st st.
Proof. split; [reflexivity | now intros]. Qed.

Lemma others_untouched_write uid u st st0 :
  User.id u = uid ->
  others_untouched uid st (with_users (write_row u (users st)) st0).
Proof.
  intros Hid. unfold others_untouched. simpl users. unfold write_row.
  split; [apply length_map|].
  intros i row Hi Hne. rewrite nth_error_map, Hi. simpl.
  destruct (String.eqb (User.id row) (User.id u)) eqn:E; [|reflexivity].
  apply String.eqb_eq in E. congruence.
Qed.

Lemma others_untouched_blacklist uid t st :
  others_untouched uid st (blacklist_add t st).
Proof.
  unfold others_untouched. rewrite users_blacklist_add.
  split; [reflexivity | now intros].
Qed.

Lemma verify_payload t secret now p :
  Jwt.verify t secret now = inr p -> exists key, t = Jwt.Signed key p.
Proof.
  destruct t as [s|key q]; [discriminate|].
  intros H. apply verify_inr in H as [-> _]. now exists key.
Qed.

(** X19. A request to a route behind [authorize] changes nothing when
    it is turned away, and otherwise changes no row but the one of the
    user the token resolves to: this holds for the profile update, link
    add, link remove and sign-out routes. *)
Theorem guarded_routes_touch_own_row_only :
  forall bcrypt_hash joi_email env salt now auth st,
    (forall b file,
        own_row_only env now auth st
          (snd (put_profile_me bcrypt_hash joi_email env salt now auth
                               b file st)))
    /\ (forall b,
           own_row_only env now auth st
             (snd (post_profile_youtube bcrypt_hash env salt now auth b st)))
    /\ (forall linkId,
           own_row_only env now auth st
             (snd (delete_profile_youtube bcrypt_hash env salt now auth
                                          linkId st)))
    /\ own_row_only env now auth st
         (snd (post_signout bcrypt_hash env salt now auth st)).
Proof.
  intros h em env salt now auth st.
  unfold own_row_only, put_profile_me, post_profile_youtube,
    delete_profile_youtube, post_signout, guarded.
  destruct (authorize env now auth st) as [r|user] eqn:Ha;
    [repeat split; reflexivity|].
  split; [|split; [|split]].
  - intros b file.
    destruct (updateProfile_state h em salt (User.id user) b file st)
      as [-> | (row & d & Hrow & _ & ->)];
      [apply others_untouched_refl|].
    apply others_untouched_write. simpl.
    now apply findByPk_id in Hrow.
  - intros b.
    destruct (addYoutubeLink_state h salt now (User.id user) b st)
      as [-> | (row & l & Hrow & ->)];
      [apply others_untouched_refl|].
    apply others_untouched_write. simpl.
    now apply findByPk_id in Hrow.
  - intros linkId.
    destruct (removeYoutubeLink_state h salt (User.id user) linkId st)
      as [-> | (row & l & Hrow & ->)];
      [apply others_untouched_refl|].
    apply others_untouched_write. simpl.
    now apply findByPk_id in Hrow.
  - destruct (signOut_state h salt now auth (Some user) st)
      as [-> | (t & Hauth & _ & [-> | (p & row & Hv & Hrow & ->)])];
      [apply others_untouched_refl | apply others_untouched_blacklist|].
    destruct (authorize_inr _ _ _ _ _ Ha)
      as (t' & p' & Hauth' & _ & _ & Hv' & _ & Hu).
    rewrite Hauth in Hauth'. injection Hauth' as <-.
    destruct (verify_payload _ _ _ _ Hv) as (k & Hk).
    destruct (verify_payload _ _ _ _ Hv') as (k' & Hk').
    rewrite Hk in Hk'. injection Hk' as _ <-.
    apply findByPk_id in Hrow, Hu.
    apply others_untouched_write. simpl. congruence.
Qed.


(** ** Credentials across requests *)

Lemma signIn_200 bcrypt_hash bcrypt_compare joi_email salt now b st :
  status (fst (signIn bcrypt_hash bcrypt_compare joi_email salt now b st))
  = 200
  <-> validate_login joi_email b = None
      /\ exists email password row,
          login_email b = Some email /\ login_password b = Some password
          /\ findOne_email email (users st) = Some row
          /\ bcrypt_compare password (User.password row) = true.
Proof.
  split.
  - unfold signIn.
    destruct (validate_login joi_email b) as [e|] eqn:Hv;
      [discriminate|].
    destruct (login_email b) as [email|]; [|discriminate].
    destruct (login_password b) as [password|]; [|discriminate].
    destruct (findOne_email email (users st)) as [row|] eqn:Hrow;
      [|discriminate].
    destruct (bcrypt_compare password (User.password row)) eqn:Hc;
      [|discriminate].
    intros _. split; [reflexivity|]. now exists email, password, row.
  - intros (Hv & email & password & row & He & Hp & Hrow & Hc).
    now rewrite (signIn_success bcrypt_hash bcrypt_compare joi_email salt
                   now b st email password row Hv He Hp Hrow Hc).
Qed.

Lemma find_map_test {A : Type} (test : A -> bool) (f : A -> A) l :
  (forall r, In r l -> test (f r) = test r) ->
  find test (map f l) = option_map f (find test l).
Proof.
  induction l as [|x l IH]; intros H; [reflexivity|].
  simpl. rewrite (H x) by (simpl; auto).
  destruct (test x); [reflexivity|].
  apply IH. intros r Hr. apply H. simpl. auto.
Qed.

Lemma find_app_l {A : Type} (test : A -> bool) l l' r :
  find test l = Some r -> find test (l ++ l') = Some r.
Proof.
  induction l as [|x l IH]; [discriminate|].
  simpl. destruct (test x); auto.
Qed.

Lemma unique_emails_inj tb r r' :
  unique_emails tb -> In r tb -> In r' tb ->
  User.email r = User.email r' -> r = r'.
Proof.
  unfold unique_emails. induction tb as [|x tb IH]; [contradiction|].
  simpl. intros Hnd [<-|Hr] [<-|Hr'] He; inversion_clear Hnd as [|? ? Hx Htb].
  - reflexivity.
  - elim Hx. rewrite He. now apply in_map.
  - elim Hx. rewrite <- He. now apply in_map.
  - now apply IH.
Qed.

(** A write that keeps the password hash, and the e-mail unless it
    moves another row's owner to a free one, keeps the credential of
    every e-mail. *)
Lemma credential_write tb u row0 e row :
  primary_key tb -> unique_emails tb ->
  findByPk (User.id u) tb = Some row0 ->
  User.password u = User.password row0 ->
  findOne_email e tb = Some row ->
  User.email u = User.email row0
  \/ (findOne_email (User.email u) tb = None /\ User.id row <> User.id u) ->
  exists row',
    findOne_email e (write_row u tb) = Some row'
    /\ User.password row' = User.password row.
Proof.
  intros Hpk Hue Hrow0 Hpw Hrow Hcase.
  pose proof (findOne_email_in _ _ _ Hrow) as [Hin He].
  assert (Hin0 : In row0 tb).
  { unfold findByPk in Hrow0. now apply find_some in Hrow0. }
  set (f := fun r => if String.eqb (User.id r) (User.id u) then u else r).
  assert (Hf : findOne_email e (write_row u tb)
               = option_map f (findOne_email e tb)).
  { unfold findOne_email, write_row. fold f. apply find_map_test.
    intros r Hr. unfold f.
    destruct (String.eqb (User.id r) (User.id u)) eqn:E; [|reflexivity].
    apply String.eqb_eq in E.
    assert (r = row0) as ->.
    { pose proof (primary_key_find _ _ Hpk Hr) as Hfind.
      rewrite E, Hrow0 in Hfind. now injection Hfind. }
    cbv beta.
    destruct Hcase as [Hsame | [Hfree Hother]]; [now rewrite Hsame|].
    assert (E1 : String.eqb (User.email u) e = false).
    { apply String.eqb_neq. intros Heq. rewrite Heq, Hrow in Hfree.
      discriminate. }
    assert (E2 : String.eqb (User.email row0) e = false).
    { apply String.eqb_neq. intros Heq. elim Hother.
      assert (row0 = row) as <-
          by (apply (unique_emails_inj tb); congruence).
      now rewrite E. }
    now rewrite E1, E2. }
  rewrite Hf, Hrow. simpl. eexists; split; [reflexivity|].
  unfold f. destruct (String.eqb (User.id row) (User.id u)) eqn:E;
    [|reflexivity].
  apply String.eqb_eq in E.
  assert (row = row0) as ->; [|exact Hpw].
  pose proof (primary_key_find _ _ Hpk Hin) as Hfind.
  rewrite E, Hrow0 in Hfind. now injection Hfind.
Qed.

(** X20. Nobody is locked out by a request: with unique ids and
    e-mails, credentials that sign in before a request still sign in
    after it, whoever made the request, for sign-up, sign-in, refresh,
    sign-out, link add and remove, and for a profile update made by
    another user. *)
Theorem sign_in_survives_requests :
  forall bcrypt_hash bcrypt_compare joi_email st salt0 now0 b,
    store_ok st ->
    status (fst (signIn bcrypt_hash bcrypt_compare joi_email
                        salt0 now0 b st)) = 200 ->
    let accepted st' :=
      forall salt now,
        status (fst (signIn bcrypt_hash bcrypt_compare joi_email
                            salt now b st')) = 200 in
    (forall salt uuid now b',
        findByPk uuid (users st) = None ->
        accepted (snd (signUp bcrypt_hash joi_email salt uuid now b' st)))
    /\ (forall salt now b',
           accepted (snd (signIn bcrypt_hash bcrypt_compare joi_email
                                 salt now b' st)))
    /\ (forall is_uuid now presented,
           accepted (snd (refreshToken is_uuid now presented st)))
    /\ (forall env salt now auth,
           accepted (snd (post_signout bcrypt_hash env salt now auth st)))
    /\ (forall salt now userId b',
           accepted (snd (addYoutubeLink bcrypt_hash salt now userId b' st)))
    /\ (forall salt userId linkId,
           accepted (snd (removeYoutubeLink bcrypt_hash salt userId linkId
                                            st)))
    /\ (forall salt userId b' file,
           (forall e u, login_email b = Some e ->
                        findOne_email e (users st) = Some u ->
                        User.id u <> userId) ->
           accepted (snd (updateProfile bcrypt_hash joi_email salt userId
                                        b' file st))).
Proof.
  intros h cmp em st salt0 now0 b [Hpk Hue] H200 accepted.
  apply signIn_200 in H200
    as (Hv & email & password & row & He & Hp & Hrow & Hc).
  assert (Hkeep : forall st',
             (exists row', findOne_email email (users st') = Some row'
                           /\ User.password row' = User.password row) ->
             accepted st').
  { intros st' (row' & Hrow' & Hpw) salt now. apply signIn_200.
    split; [exact Hv|]. exists email, password, row'.
    rewrite Hpw. auto. }
  assert (Hsame : accepted st)
    by (apply Hkeep; exists row; auto).
  assert (Hwrite : forall u row0 st0,
             findByPk (User.id u) (users st) = Some row0 ->
             User.password u = User.password row0 ->
             User.email u = User.email row0 ->
             accepted (with_users (write_row u (users st)) st0)).
  { intros u row0 st0 H0 Hpw Hem. apply Hkeep. simpl users.
    apply (credential_write (users st) u row0 email row); auto. }
  split; [|split; [|split; [|split; [|split; [|split]]]]].
  - intros salt uuid now b' Hfresh.
    destruct (validate_register em b') as [e|] eqn:Hv';
      [unfold signUp; now rewrite Hv'|].
    destruct (validated_register _ _ Hv') as (n & e & p & Hn & He' & Hp' & _).
    destruct (findOne_email e (users st)) as [other|] eqn:Hfree;
      [unfold signUp; now rewrite Hv', Hn, He', Hp', Hfree|].
    rewrite (signUp_created h em salt uuid now b' st n e p
                            Hv' Hn He' Hp' Hfree Hfresh).
    apply Hkeep. exists row. split; [|reflexivity].
    simpl users. unfold findOne_email. now apply find_app_l.
  - intros salt now b'.
    destruct (signIn_state h cmp em salt now b' st)
      as [-> | (r & t & Hin & ->)]; [exact Hsame|].
    apply (Hwrite _ r); [|reflexivity|reflexivity].
    simpl User.id. now apply primary_key_find.
  - intros is_uuid now presented. now rewrite refreshToken_state.
  - intros env salt now auth.
    destruct (post_signout_state h env salt now auth st)
      as [-> | (u & _ & ->)]; [exact Hsame|].
    destruct (signOut_state h salt now auth (Some u) st)
      as [-> | (t & _ & _ & [-> | (p & r & _ & Hr & ->)])];
      [exact Hsame | |].
    + apply Hkeep. rewrite users_blacklist_add. exists row; auto.
    + pose proof (findByPk_id _ _ _ Hr) as Hid.
      apply (Hwrite _ r); [|reflexivity|reflexivity].
      simpl User.id. now rewrite Hid.
  - intros salt now userId b'.
    destruct (addYoutubeLink_state h salt now userId b' st)
      as [-> | (r & l & Hr & ->)]; [exact Hsame|].
    pose proof (findByPk_id _ _ _ Hr) as Hid.
    apply (Hwrite _ r); [|reflexivity|reflexivity].
    simpl User.id. now rewrite Hid.
  - intros salt userId linkId.
    destruct (removeYoutubeLink_state h salt userId linkId st)
      as [-> | (r & l & Hr & ->)]; [exact Hsame|].
    pose proof (findByPk_id _ _ _ Hr) as Hid.
    apply (Hwrite _ r); [|reflexivity|reflexivity].
    simpl User.id. now rewrite Hid.
  - intros salt userId b' file Hother.
    destruct (updateProfile_state_email h em salt userId b' file st)
      as [-> | (r & d & Hr & Hmail & ->)]; [exact Hsame|].
    pose proof (findByPk_id _ _ _ Hr) as Hid.
    apply Hkeep. simpl users.
    apply (credential_write (users st) _ r email row); auto.
    + simpl User.id. now rewrite Hid.
    + simpl User.email. destruct Hmail as [Hm|Hm]; [now left|].
      right. split; [exact Hm|]. simpl User.id. rewrite Hid.
      now apply (Hother email).
Qed.

(** X20, on the sample store: Bob moves to a new e-mail; Ann still
    signs in. *)
Lemma sign_in_survives_requests_witness :
  store_ok Demo.store
  /\ status (fst (signIn Demo.hash Demo.compare Demo.is_email "salt" 5000
                         (mkLogin (Some "ann@x.com") (Some "password1") [])
                         Demo.store)) = 200
  /\ forall salt now,
      status
        (fst (signIn Demo.hash Demo.compare Demo.is_email salt now
                (mkLogin (Some "ann@x.com") (Some "password1") [])
                (snd (updateProfile Demo.hash Demo.is_email "salt" "u-bob"
                        (mkProfile None (Some "bob@y.org") None None [])
                        None Demo.store)))) = 200.
Proof.
  assert (Hok : store_ok Demo.store).
  { split; repeat constructor; simpl; intuition discriminate. }
  assert (H200 : status (fst (signIn Demo.hash Demo.compare Demo.is_email
                                "salt" 5000
                                (mkLogin (Some "ann@x.com")
                                         (Some "password1") [])
                                Demo.store)) = 200) by reflexivity.
  split; [exact Hok|]. split; [exact H200|].
  destruct (sign_in_survives_requests
              Demo.hash Demo.compare Demo.is_email Demo.store "salt" 5000
              (mkLogin (Some "ann@x.com") (Some "password1") [])
              Hok H200) as (_ & _ & _ & _ & _ & _ & Hupd).
  apply Hupd. intros e u He Hu. simpl in He. injection He as <-.
  vm_compute in Hu. injection Hu as <-. discriminate.
Defined.


(** ** The user listing *)

Lemma by_created_at_desc_sorted tb :
  StronglySorted (fun a b => User.createdAt b <= User.createdAt a)
                 (sort by_created_at_desc tb).
Proof.
  apply sort_sorted.
  - intros x y. unfold by_created_at_desc. lia.
  - intros x y. lia.
  - intros x y z. lia.
Qed.

Lemma getUsers_page st p limit :
  (1 <= p)%nat -> 1 <= limit <= BIGINT_MAX ->
  (Z.of_nat p - 1) * limit <= BIGINT_MAX ->
  page_users (fst (getUsers (Joi.QInt (Z.of_nat p)) (Joi.QInt limit) st))
  = firstn (Z.to_nat limit)
           (skipn ((p - 1) * Z.to_nat limit)
                  (map public_user (sort by_created_at_desc (users st)))).
Proof.
  intros Hp Hl Ho. unfold getUsers, Joi.parseInt_or, Joi.parseInt.
  assert (E1 : (Z.of_nat p =? 0) = false) by (apply Z.eqb_neq; lia).
  assert (E2 : (limit =? 0) = false) by (apply Z.eqb_neq; lia).
  rewrite E1, E2.
  assert (E3 : (limit <? 0) = false) by (apply Z.ltb_ge; lia).
  assert (E4 : ((Z.of_nat p - 1) * limit <? 0) = false)
    by (apply Z.ltb_ge; nia).
  assert (E5 : (BIGINT_MAX <? limit) = false) by (apply Z.ltb_ge; lia).
  assert (E6 : (BIGINT_MAX <? (Z.of_nat p - 1) * limit) = false)
    by (apply Z.ltb_ge; lia).
  rewrite E3, E4, E5, E6. cbn [orb fst page_users body].
  rewrite skipn_map, firstn_map. do 3 f_equal. nia.
Qed.

(** X21. The user listing served page by page: for a limit from 1 to
    the largest safe integer (the route puts no bound of its own on
    it) and a table of at most that many users, pages 1 to
    [totalPages] read one after the other are the public views of all
    users, each once, newest first; a limit that reaches the user count
    puts them all on page 1.  A limit beyond the store's 64-bit
    integers is answered with a 500. *)
Theorem getUsers_pages_partition :
  forall st limit,
    1 <= limit <= Joi.MAX_SAFE_INTEGER ->
    Z.of_nat (List.length (users st)) <= Joi.MAX_SAFE_INTEGER ->
    let page p :=
      page_users
        (fst (getUsers (Joi.QInt (Z.of_nat p)) (Joi.QInt limit) st)) in
    let pages :=
      Z.to_nat (ceil_div (Z.of_nat (List.length (users st))) limit) in
    (exists rows,
        Permutation rows (users st)
        /\ StronglySorted (fun a b => User.createdAt b <= User.createdAt a)
                          rows
        /\ flat_map page (seq 1 pages) = map public_user rows
        /\ (Z.of_nat (List.length (users st)) <= limit ->
            page 1%nat = map public_user rows))
    /\ (forall z, BIGINT_MAX < z ->
                  fst (getUsers Joi.QAbsent (Joi.QInt z) st)
                  = fail 500 "Database error occurred").
Proof.
  intros st limit Hl Hn page pages.
  assert (Hmax : Joi.MAX_SAFE_INTEGER <= BIGINT_MAX)
    by (unfold Joi.MAX_SAFE_INTEGER, BIGINT_MAX; lia).
  split.
  - exists (sort by_created_at_desc (users st)).
    assert (Hlen : List.length (map public_user
                                    (sort by_created_at_desc (users st)))
                   = List.length (users st)).
    { rewrite length_map. apply Permutation_length, sort_perm. }
    split; [apply sort_perm|]. split; [apply by_created_at_desc_sorted|].
    set (n := Z.of_nat (List.length (users st))) in *.
    assert (Hceil : forall q, q < ceil_div n limit <-> q * limit < n)
      by (intros; apply lt_ceil_div; lia).
    split.
    + rewrite (flat_map_ext_in page
                 (fun p => firstn (Z.to_nat limit)
                             (skipn ((p - 1) * Z.to_nat limit)
                                (map public_user
                                   (sort by_created_at_desc (users st)))))).
      * rewrite chunks_concat. apply firstn_all2. rewrite Hlen.
        unfold pages.
        assert (Hc : ~ (ceil_div n limit < ceil_div n limit)) by lia.
        rewrite Hceil in Hc.
        assert (0 <= ceil_div n limit).
        { unfold ceil_div. apply Z.div_pos; lia. }
        nia.
      * intros p Hp. apply in_seq in Hp. unfold page.
        apply getUsers_page; [lia | lia |].
        assert (Hlt : Z.of_nat p - 1 < ceil_div n limit)
          by (unfold pages in Hp; lia).
        apply Hceil in Hlt. lia.
    + intros Hall. unfold page. rewrite getUsers_page by lia.
      simpl skipn. apply firstn_all2. rewrite Hlen. lia.
  - intros z Hz. unfold getUsers, Joi.parseInt_or, Joi.parseInt.
    assert (E0 : (z =? 0) = false)
      by (apply Z.eqb_neq; unfold BIGINT_MAX in Hz; lia).
    assert (E1 : (BIGINT_MAX <? z) = true) by (apply Z.ltb_lt; lia).
    rewrite E0, E1. cbn [Z.eqb]. now rewrite !orb_true_r.
Qed.

(** X21, on the sample store: two pages of one user each. *)
Lemma getUsers_pages_partition_witness :
  exists rows,
    Permutation rows (users Demo.store)
    /\ flat_map
         (fun p =>
            page_users
              (fst (getUsers (Joi.QInt (Z.of_nat p)) (Joi.QInt 1)
                             Demo.store)))
         (seq 1 2)
       = map public_user rows
    /\ map User.id rows = ["u-bob"; "u-ann"].
Proof.
  assert (Hl : 1 <= 1 <= Joi.MAX_SAFE_INTEGER)
    by (unfold Joi.MAX_SAFE_INTEGER; lia).
  assert (Hn : Z.of_nat (List.length (users Demo.store))
               <= Joi.MAX_SAFE_INTEGER)
    by (vm_compute; discriminate).
  destruct (getUsers_pages_partition Demo.store 1 Hl Hn)
    as ((rows & Hperm & _ & Hwalk & _) & _).
  exists rows. split; [exact Hperm|]. split; [exact Hwalk|].
  cbv zeta in Hwalk.
  change (Z.to_nat (ceil_div (Z.of_nat (List.length (users Demo.store))) 1))
    with 2%nat in Hwalk.
  assert (Hids : map (fun o => match o with
                               | (_, JStr i) :: _ => i
                               | _ => EmptyString
                               end)
                     (map public_user rows)
                 = map User.id rows).
  { rewrite map_map. apply map_ext. intros u. reflexivity. }
  rewrite <- Hids, <- Hwalk. reflexivity.
Defined.


(** ** Which stored attributes the responses show *)

Lemma public_user_hides u k :
  In k SENSITIVE -> has_key k (public_user u) = false.
Proof.
  intros Hk. destruct u. simpl in Hk.
  destruct Hk as [<-|[<-|[<-|[]]]]; reflexivity.
Qed.

Lemma deleted_no_refreshToken u k :
  In k ["refreshToken"] ->
  has_key k (delete "refreshToken" (delete "password" (toJSON u))) = false.
Proof. intros [<-|[]]. destruct u. reflexivity. Qed.

Lemma deleted_has_tokenVersion u :
  has_key "tokenVersion"
          (delete "refreshToken" (delete "password" (toJSON u))) = true.
Proof. destruct u. reflexivity. Qed.

Lemma content_item_owner_keys now u link :
  Forall (fun c => map fst (c_user c) = ["id"; "name"; "profilePictureUrl"])
         (content_item now u link).
Proof.
  unfold content_item.
  destruct (_ || _); constructor; [|constructor].
  destruct u. reflexivity.
Qed.

Lemma user_content_owner_keys now u :
  Forall (fun c => map fst (c_user c) = ["id"; "name"; "profilePictureUrl"])
         (user_content now u).
Proof.
  unfold user_content. destruct (User.youtubeLinks u) as [[|l ls]|];
    try constructor.
  apply Forall_flat_map. intros; apply content_item_owner_keys.
Qed.

(** X22. Which session attributes the responses show.  No user object
    of any handler's response has a [refreshToken] key, and those of
    the listing, user by id, own profile, profile update and link
    routes have no [tokenVersion] key either; the user object of a
    successful sign-up or sign-in does carry [tokenVersion]; the owner
    object of a feed item has the keys id, name and profilePictureUrl
    and no other. *)
Theorem responses_key_exposure :
  forall bcrypt_hash bcrypt_compare joi_email,
    (forall salt uuid now b st,
        keys_absent ["refreshToken"]
          (fst (signUp bcrypt_hash joi_email salt uuid now b st)))
    /\ (forall salt now b st,
           keys_absent ["refreshToken"]
             (fst (signIn bcrypt_hash bcrypt_compare joi_email salt now b st)))
    /\ (forall page_q limit_q st,
           keys_absent ["refreshToken"; "tokenVersion"]
             (fst (getUsers page_q limit_q st)))
    /\ (forall userId st,
           keys_absent ["refreshToken"; "tokenVersion"]
             (fst (getUserById userId st)))
    /\ (forall userId st,
           keys_absent ["refreshToken"; "tokenVersion"]
             (fst (getProfile userId st)))
    /\ (forall salt userId b file st,
           keys_absent ["refreshToken"; "tokenVersion"]
             (fst (updateProfile bcrypt_hash joi_email salt userId b file st)))
    /\ (forall salt now userId b st,
           keys_absent ["refreshToken"; "tokenVersion"]
             (fst (addYoutubeLink bcrypt_hash salt now userId b st)))
    /\ (forall salt userId linkId st,
           keys_absent ["refreshToken"; "tokenVersion"]
             (fst (removeYoutubeLink bcrypt_hash salt userId linkId st)))
    /\ (forall now q st,
           Forall (fun o => map fst o = ["id"; "name"; "profilePictureUrl"])
                  (returned_users (body (fst (getAllContent now q st)))))
    /\ (forall salt uuid now b st,
           status (fst (signUp bcrypt_hash joi_email salt uuid now b st))
           = 201 ->
           auth_user_has "tokenVersion"
             (fst (signUp bcrypt_hash joi_email salt uuid now b st)))
    /\ (forall salt now b st,
           status (fst (signIn bcrypt_hash bcrypt_compare joi_email
                               salt now b st)) = 200 ->
           auth_user_has "tokenVersion"
             (fst (signIn bcrypt_hash bcrypt_compare joi_email
                          salt now b st))).
Proof.
  intros h cmp em.
  assert (Hpub : forall u k,
             In k ["refreshToken"; "tokenVersion"] ->
             has_key k (public_user u) = false).
  { intros u k Hk. apply public_user_hides. simpl in *. tauto. }
  unfold keys_absent, auth_user_has.
  split; [|split; [|split; [|split; [|split; [|split; [|split; [|split;
    [|split; [|split]]]]]]]]].
  - intros. unfold signUp, generateTokens. split_handler; simpl;
      repeat constructor.
    all: try apply deleted_no_refreshToken.
  - intros. unfold signIn, generateTokens. split_handler; simpl;
      repeat constructor.
    all: try apply deleted_no_refreshToken.
  - intros. unfold getUsers. destruct (_ || _); simpl; [constructor|].
    apply Forall_map, Forall_forall. intros; now apply Hpub.
  - intros. unfold getUserById. split_handler; simpl; repeat constructor.
    all: try apply Hpub.
  - intros. unfold getProfile. split_handler; simpl; repeat constructor.
    all: try apply Hpub.
  - intros. unfold updateProfile. split_handler; simpl; repeat constructor.
    all: try apply Hpub.
  - intros. unfold addYoutubeLink. split_handler; simpl; repeat constructor.
    all: try apply Hpub.
  - intros. unfold removeYoutubeLink. split_handler; simpl;
      repeat constructor.
    all: try apply Hpub.
  - intros. unfold getAllContent.
    destruct (validate_getAllContent q); simpl; [constructor|].
    apply Forall_map, Forall_slice.
    eapply Permutation_Forall; [symmetry; apply sort_perm|].
    apply Forall_flat_map. intros; apply user_content_owner_keys.
  - intros salt uuid now b st. unfold signUp, generateTokens.
    split_handler; simpl; try discriminate.
    all: intros _; do 3 eexists; split; [reflexivity|];
      apply deleted_has_tokenVersion.
  - intros salt now b st. unfold signIn, generateTokens.
    split_handler; simpl; try discriminate.
    all: intros _; do 3 eexists; split; [reflexivity|];
      apply deleted_has_tokenVersion.
Qed.

(** X22, on the sample store: Ann signs in. *)
Lemma responses_key_exposure_witness :
  auth_user_has "tokenVersion"
    (fst (signIn Demo.hash Demo.compare Demo.is_email "salt" 5000
             (mkLogin (Some "ann@x.com") (Some "password1") [])
             Demo.store)).
Proof.
  apply (proj2 (proj2 (proj2 (proj2 (proj2 (proj2 (proj2 (proj2 (proj2
           (proj2 (responses_key_exposure
                     Demo.hash Demo.compare Demo.is_email))))))))))).
  reflexivity.
Defined.


(** * Middlewares, uploads and migrations *)

(** ** Response headers *)

Lemma getHeader_setHeader_same k v h : getHeader k (setHeader k v h) = Some v.
Proof.
  unfold getHeader. induction h as [|[n w] t IH]; simpl.
  - now rewrite String.eqb_refl.
  - destruct (String.eqb n k) eqn:E; simpl.
    + now rewrite String.eqb_refl.
    + now rewrite E.
Qed.

Lemma getHeader_setHeader_other k k' v h :
  k' <> k -> getHeader k' (setHeader k v h) = getHeader k' h.
Proof.
  intros Hne. unfold getHeader. induction h as [|[n w] t IH]; simpl.
  - apply String.eqb_neq in Hne. rewrite String.eqb_sym. now rewrite Hne.
  - destruct (String.eqb n k) eqn:E; simpl.
    + apply String.eqb_eq in E. subst n.
      apply String.eqb_neq in Hne. rewrite String.eqb_sym. now rewrite Hne.
    + destruct (String.eqb n k'); [reflexivity | exact IH].
Qed.

Lemma setHeader_same_value k v h :
  getHeader k h = Some v -> setHeader k v h = h.
Proof.
  unfold getHeader. induction h as [|[n w] t IH]; simpl; [discriminate|].
  destruct (String.eqb n k) eqn:E; simpl.
  - intros [= ->]. apply String.eqb_eq in E. now subst n.
  - intros H. now rewrite IH.
Qed.

Lemma getHeader_set_allow_origin allowed o h :
  getHeader "Access-Control-Allow-Origin" (set_allow_origin allowed o h)
  = Some (if truthy o && includes allowed o then or_else o ""
          else nth 0 allowed "").
Proof.
  unfold set_allow_origin.
  destruct (truthy o && includes allowed o);
    apply getHeader_setHeader_same.
Qed.

Lemma getHeader_set_allow_origin_other allowed o k h :
  k <> "Access-Control-Allow-Origin" ->
  getHeader k (set_allow_origin allowed o h) = getHeader k h.
Proof.
  intros Hk. unfold set_allow_origin.
  destruct (truthy o && includes allowed o);
    now apply getHeader_setHeader_other.
Qed.

Lemma includes_In l s : includes l (Some s) = true <-> In s l.
Proof.
  unfold includes. rewrite existsb_exists. split.
  - intros (x & Hx & E). apply String.eqb_eq in E. now subst.
  - intros H. exists s. split; [exact H | apply String.eqb_refl].
Qed.

Ltac other_headers :=
  repeat (rewrite getHeader_setHeader_other by discriminate).

(** X23. The origin policy of [corsMiddleware].  On a request other
    than OPTIONS it calls [next()] with Access-Control-Allow-Origin set
    to one of the three allowed origins: the request's own when that is
    among them, and otherwise the first.  An OPTIONS request is ended
    with 204 and is told the origin it named, whichever that is ("*"
    without one), together with Allow-Credentials "true".  Headers
    other than the five CORS ones keep their values. *)
Theorem corsMiddleware_origin_policy :
  forall req h,
    let allowed := [ "http://localhost:3000"; "http://localhost:5500";
                     "https://csmbd-assignment-frontend.vercel.app" ] in
    let r := corsMiddleware req h in
    (method req <> "OPTIONS" ->
     snd r = Next
     /\ exists o,
         getHeader "Access-Control-Allow-Origin" (fst r) = Some o
         /\ In o allowed
         /\ (forall s, origin req = Some s -> (o = s <-> In s allowed))
         /\ (~ includes allowed (origin req) = true ->
             o = "http://localhost:3000"))
    /\ (method req = "OPTIONS" ->
        snd r = Ended 204
        /\ getHeader "Access-Control-Allow-Origin" (fst r)
           = Some (or_else (origin req) "*")
        /\ getHeader "Access-Control-Allow-Credentials" (fst r)
           = Some "true")
    /\ (forall k,
           ~ In k [ "Access-Control-Allow-Origin";
                    "Access-Control-Allow-Methods";
                    "Access-Control-Allow-Headers";
                    "Access-Control-Allow-Credentials";
                    "Access-Control-Max-Age" ] ->
           getHeader k (fst r) = getHeader k h).
Proof.
  intros req h allowed r. subst r. unfold corsMiddleware.
  destruct (String.eqb_spec (method req) "OPTIONS") as [Hm|Hm].
  - split; [intros F; now elim F|]. split.
    + intros _. cbn [fst snd]. split; [reflexivity|].
      split; [other_headers; apply getHeader_setHeader_same|].
      other_headers. apply getHeader_setHeader_same.
    + intros k Hk. cbn [fst]. simpl in Hk.
      repeat (rewrite getHeader_setHeader_other
               by (intros ->; apply Hk; tauto)).
      reflexivity.
  - split; [|split; [intros F; now elim Hm|]].
    + intros _. cbn [fst snd]. split; [reflexivity|].
      other_headers. rewrite getHeader_set_allow_origin.
      fold allowed. eexists. split; [reflexivity|].
      destruct (origin req) as [s|] eqn:Ho.
      * destruct (truthy (Some s) && includes allowed (Some s)) eqn:E.
        -- apply andb_true_iff in E as [Ht Hi].
           unfold or_else. rewrite Ht.
           apply includes_In in Hi.
           split; [exact Hi|]. split.
           ++ intros s' [= <-]. tauto.
           ++ intros F. elim F. now apply includes_In.
        -- split; [simpl; auto|]. split; [|reflexivity].
           intros s' [= <-]. split.
           ++ intros <-. simpl. auto.
           ++ intros Hi. exfalso.
              assert (Ht : truthy (Some s) = true).
              { simpl in Hi. destruct Hi as [<-|[<-|[<-|[]]]]; reflexivity. }
              apply includes_In in Hi. rewrite Ht, Hi in E. discriminate.
      * simpl. split; [auto|]. split; [discriminate | reflexivity].
    + intros k Hk. cbn [fst]. simpl in Hk.
      repeat (rewrite getHeader_setHeader_other
               by (intros ->; apply Hk; tauto)).
      apply getHeader_set_allow_origin_other. intros ->. apply Hk. tauto.
Qed.

(** X23, a preflight from an origin outside the list. *)
Lemma corsMiddleware_origin_policy_witness :
  let r := corsMiddleware (mkRequest "OPTIONS" (Some "https://other.example"))
                          [] in
  snd r = Ended 204
  /\ getHeader "Access-Control-Allow-Origin" (fst r)
     = Some "https://other.example"
  /\ getHeader "Access-Control-Allow-Credentials" (fst r) = Some "true".
Proof.
  apply (proj1 (proj2 (corsMiddleware_origin_policy
                         (mkRequest "OPTIONS" (Some "https://other.example"))
                         []))).
  reflexivity.
Defined.

(** X24. [applyCorsHeaders] and [corsMiddleware] are the same policy:
    on every request they leave the same headers and end the same
    responses, and the utility applied after the middleware changes
    nothing. *)
Theorem applyCorsHeaders_agrees :
  forall req h,
    fst (applyCorsHeaders req h) = fst (corsMiddleware req h)
    /\ (snd (applyCorsHeaders req h) = None
        <-> snd (corsMiddleware req h) = Next)
    /\ (snd (applyCorsHeaders req h) = Some 204
        <-> snd (corsMiddleware req h) = Ended 204)
    /\ fst (applyCorsHeaders req (fst (corsMiddleware req h)))
       = fst (corsMiddleware req h).
Proof.
  intros req h. unfold applyCorsHeaders, corsMiddleware.
  destruct (String.eqb (method req) "OPTIONS"); cbn [fst snd].
  - split; [reflexivity|]. split; [split; discriminate|].
    split; [split; reflexivity|].
    rewrite (setHeader_same_value "Access-Control-Allow-Origin")
      by (other_headers; apply getHeader_setHeader_same).
    rewrite (setHeader_same_value "Access-Control-Allow-Methods")
      by (other_headers; apply getHeader_setHeader_same).
    rewrite (setHeader_same_value "Access-Control-Allow-Headers")
      by (other_headers; apply getHeader_setHeader_same).
    rewrite (setHeader_same_value "Access-Control-Allow-Credentials")
      by (other_headers; apply getHeader_setHeader_same).
    apply setHeader_same_value. apply getHeader_setHeader_same.
  - split; [reflexivity|]. split; [split; reflexivity|].
    split; [split; discriminate|].
    match goal with
    | |- context [set_allow_origin ?a ?o (setHeader ?k1 ?v1 ?h1)] =>
        assert (E : set_allow_origin a o (setHeader k1 v1 h1)
                    = setHeader k1 v1 h1)
    end.
    { unfold set_allow_origin at 1.
      destruct (truthy (origin req) && includes _ (origin req)) eqn:Ec;
        apply setHeader_same_value; other_headers;
        rewrite getHeader_set_allow_origin, Ec; reflexivity. }
    rewrite E.
    rewrite (setHeader_same_value "Access-Control-Allow-Methods")
      by (other_headers; apply getHeader_setHeader_same).
    rewrite (setHeader_same_value "Access-Control-Allow-Headers")
      by (other_headers; apply getHeader_setHeader_same).
    apply setHeader_same_value. apply getHeader_setHeader_same.
Qed.


(** ** The profile picture route *)

(** X25. The picture route answers every request other than OPTIONS
    under its own origin list, whatever [corsMiddleware] and the
    middlewares before it had set: Access-Control-Allow-Origin is the
    request's origin when that is "http://localhost:3005" or the
    deployed front end, and "http://localhost:3005" otherwise, so it
    equals the value [corsMiddleware] had set exactly for the deployed
    front end; Allow-Methods is "GET".  For a key without a user the
    answer is 404 when the key is a uuid and the 500 of a database
    error when it is not (the query throws); for a user it is 404 when
    the file does not exist, and otherwise the stored file (the default
    picture for a user without one) with one of six content types. *)
Theorem get_profile_picture_outcomes :
  forall existsSync cwd path_join extname toLowerCase is_uuid
         req userId h st,
    method req <> "OPTIONS" ->
    let r := get_profile_picture existsSync cwd path_join extname
                                 toLowerCase is_uuid req userId h st in
    let own := [ "http://localhost:3005";
                 "https://csmbd-assignment-frontend.vercel.app" ] in
    getHeader "Access-Control-Allow-Origin" (fst r)
    = Some (match origin req with
            | Some s => if existsb (String.eqb s) own then s
                        else "http://localhost:3005"
            | None => "http://localhost:3005"
            end)
    /\ (getHeader "Access-Control-Allow-Origin" (fst r)
        = getHeader "Access-Control-Allow-Origin"
                    (fst (corsMiddleware req h))
        <-> origin req
            = Some "https://csmbd-assignment-frontend.vercel.app")
    /\ getHeader "Access-Control-Allow-Methods" (fst r) = Some "GET"
    /\ match findByPk userId (users st) with
       | None =>
           snd r = ReplyJson (if is_uuid userId
                              then fail 404 "User not found"
                              else fail 500 "Database error occurred")
       | Some user =>
           let filePath :=
             match User.profilePicture user with
             | Some p =>
                 if String.eqb p ""
                 then path_join [cwd; "uploads"; "profile-pictures";
                                 "default.png"]
                 else path_join [cwd; p]
             | None => path_join [cwd; "uploads"; "profile-pictures";
                                  "default.png"]
             end in
           if existsSync filePath
           then snd r = ReplyFile filePath
                /\ exists contentType,
                    getHeader "Content-Type" (fst r) = Some contentType
                    /\ In contentType
                          [ "image/jpeg"; "image/png"; "image/gif";
                            "image/webp"; "image/svg+xml";
                            "application/octet-stream" ]
           else snd r = ReplyJson (fail 404 "Profile picture not found")
       end.
Proof.
  intros ex cwd pj en lc is_uuid req userId h st Hm r own.
  assert (Hcors : corsMiddleware req h
                  = (fst (corsMiddleware req h), Next)).
  { unfold corsMiddleware. apply String.eqb_neq in Hm. now rewrite Hm. }
  assert (Horigin :
            forall o, getHeader "Access-Control-Allow-Origin"
                        (set_allow_origin
                           [ "http://localhost:3005"; "http://localhost:3005";
                             "https://csmbd-assignment-frontend.vercel.app" ]
                           (origin req) o)
                      = Some (match origin req with
                              | Some s => if existsb (String.eqb s) own then s
                                          else "http://localhost:3005"
                              | None => "http://localhost:3005"
                              end)).
  { intros o. rewrite getHeader_set_allow_origin. f_equal.
    destruct (origin req) as [s|]; [|reflexivity].
    unfold includes, own. cbn [existsb nth].
    destruct (String.eqb_spec s "http://localhost:3005") as [->|H1];
      [reflexivity|].
    destruct (String.eqb_spec
                s "https://csmbd-assignment-frontend.vercel.app")
      as [->|H2]; [reflexivity|].
    cbn [orb]. now rewrite andb_false_r. }
  assert (Hacao : getHeader "Access-Control-Allow-Origin" (fst r)
                  = Some (match origin req with
                          | Some s => if existsb (String.eqb s) own then s
                                      else "http://localhost:3005"
                          | None => "http://localhost:3005"
                          end)).
  { subst r. unfold get_profile_picture. rewrite Hcors.
    unfold getProfilePicture.
    destruct (findByPk userId (users st)) as [user|]; cbn [fst];
      [destruct (negb (ex _)) | destruct (is_uuid userId)]; cbn [fst];
      other_headers; apply Horigin. }
  split; [exact Hacao|]. split; [|split].
  - rewrite Hacao. unfold corsMiddleware.
    apply String.eqb_neq in Hm. rewrite Hm. cbn [fst].
    other_headers. rewrite getHeader_set_allow_origin.
    destruct (origin req) as [s|]; [|split; discriminate].
    unfold own, includes. cbn [existsb nth].
    destruct (String.eqb_spec s "http://localhost:3005") as [->|H1];
      [split; discriminate|].
    destruct (String.eqb_spec
                s "https://csmbd-assignment-frontend.vercel.app")
      as [->|H2]; [split; reflexivity|].
    cbn [orb].
    destruct (truthy (Some s)
              && (String.eqb s "http://localhost:3000"
                  || (String.eqb s "http://localhost:5500" || false)))
             eqn:E.
    + apply andb_true_iff in E as [Ht E]. unfold or_else. rewrite Ht.
      split; [intros [= <-]; now elim H1 | intros [= ->]; now elim H2].
    + split; [discriminate | intros [= ->]; now elim H2].
  - subst r. unfold get_profile_picture. rewrite Hcors.
    unfold getProfilePicture.
    destruct (findByPk userId (users st)) as [user|]; cbn [fst];
      [destruct (negb (ex _)) | destruct (is_uuid userId)]; cbn [fst];
      other_headers; apply getHeader_setHeader_same.
  - subst r. unfold get_profile_picture. rewrite Hcors.
    unfold getProfilePicture.
    destruct (findByPk userId (users st)) as [user|];
      [|now destruct (is_uuid userId)].
    assert (Hpath :
              (if negb (truthy (User.profilePicture user))
               then pj [cwd; "uploads"; "profile-pictures"; "default.png"]
               else pj [cwd; or_else (User.profilePicture user) ""])
              = match User.profilePicture user with
                | Some p =>
                    if String.eqb p ""
                    then pj [cwd; "uploads"; "profile-pictures";
                             "default.png"]
                    else pj [cwd; p]
                | None => pj [cwd; "uploads"; "profile-pictures";
                              "default.png"]
                end).
    { destruct (User.profilePicture user) as [p|]; [|reflexivity].
      unfold or_else, truthy. now destruct (String.eqb p ""). }
    rewrite Hpath. cbv zeta.
    set (filePath := match User.profilePicture user with
                     | Some p => _
                     | None => _
                     end).
    destruct (ex filePath); cbn [negb fst snd]; [|reflexivity].
    split; [reflexivity|].
    eexists. split.
    + other_headers. apply getHeader_setHeader_same.
    + set (ext := lc (en filePath)).
      destruct (String.eqb ext ".jpg" || String.eqb ext ".jpeg");
        [simpl; tauto|].
      destruct (String.eqb ext ".png"); [simpl; tauto|].
      destruct (String.eqb ext ".gif"); [simpl; tauto|].
      destruct (String.eqb ext ".webp"); [simpl; tauto|].
      destruct (String.eqb ext ".svg"); simpl; tauto.
Qed.

(** X25, on the sample store: a page served from
    "http://localhost:3000" asks for Ann's picture, and for that of
    "42". *)
Lemma get_profile_picture_outcomes_witness :
  let req := mkRequest "GET" (Some "http://localhost:3000") in
  let get := get_profile_picture (fun _ => true) "/app"
                                 (String.concat "/") (fun _ => ".png")
                                 (fun s => s) Demo.is_uuid req in
  getHeader "Access-Control-Allow-Origin" (fst (corsMiddleware req []))
  = Some "http://localhost:3000"
  /\ getHeader "Access-Control-Allow-Origin" (fst (get "u-ann" [] Demo.store))
     = Some "http://localhost:3005"
  /\ snd (get "u-ann" [] Demo.store)
     = ReplyFile "/app/uploads/profile-pictures/default.png"
  /\ snd (get "42" [] Demo.store)
     = ReplyJson (fail 500 "Database error occurred").
Proof.
  assert (Hm : method (mkRequest "GET" (Some "http://localhost:3000"))
               <> "OPTIONS") by discriminate.
  destruct (get_profile_picture_outcomes
              (fun _ => true) "/app" (String.concat "/") (fun _ => ".png")
              (fun s => s) Demo.is_uuid
              (mkRequest "GET" (Some "http://localhost:3000"))
              "u-ann" [] Demo.store Hm) as (Ha & _ & _ & Hr).
  destruct (get_profile_picture_outcomes
              (fun _ => true) "/app" (String.concat "/") (fun _ => ".png")
              (fun s => s) Demo.is_uuid
              (mkRequest "GET" (Some "http://localhost:3000"))
              "42" [] Demo.store Hm) as (_ & _ & _ & Hr').
  split; [reflexivity|]. split; [exact Ha|].
  split; [exact (proj1 Hr) | exact Hr'].
Defined.


(** ** The error middleware *)

Lemma or_else_default_nonempty m d :
  String.eqb d "" = false -> or_else m d <> "".
Proof.
  intros Hd. unfold or_else, truthy. destruct m as [s|].
  - destruct (String.eqb s "") eqn:E; simpl.
    + now apply String.eqb_neq.
    + now apply String.eqb_neq.
  - simpl. now apply String.eqb_neq.
Qed.

Lemma errorMiddleware_shape err :
  errorMiddleware err = fail 500 "Internal server error"
  \/ exists c m,
      100 <= c <= 999
      /\ errorMiddleware err = fail c (or_else m "Internal server error").
Proof.
  unfold errorMiddleware. destruct (error_of err) as [[m c]|]; [|now left].
  destruct (Z.ltb_spec (code_or c 500) 100); [now left|].
  destruct (Z.ltb_spec 999 (code_or c 500)); [now left|].
  right. exists (code_or c 500), m. cbn [orb]. split; [lia | reflexivity].
Qed.

(** X26. What the error middleware answers.  The body is always
    [{success: false, message}] with a message that is not empty and a
    status from 100 to 999.  The name of a library error decides the
    status whatever [statusCode] the error carries: 503 for the four
    connection errors, 401 for the two token errors, 500 "Database
    error occurred" for a database error, 400 for a validation error
    and 409 for a unique-constraint error, the last two falling back
    to 500 "Internal server error" when [errors] cannot be read.  Any
    other error is answered with its own status and message, 500 and
    "Internal server error" standing in for a missing one, when that
    status lies between 100 and 999; with a status outside that range
    the response cannot be sent, and the answer is 500 "Internal server
    error". *)
Theorem errorMiddleware_answers :
  forall err,
    let r := errorMiddleware err in
    (exists msg, body r = Message false msg /\ msg <> "")
    /\ 100 <= status r <= 999
    /\ (In (Err.name err)
           [ "SequelizeConnectionError"; "SequelizeConnectionRefusedError";
             "SequelizeHostNotFoundError"; "SequelizeHostNotReachableError" ]
        -> r = fail 503 "Database connection failed. Please try again.")
    /\ (Err.name err = "JsonWebTokenError" ->
        r = fail 401 "Invalid token. Please log in again.")
    /\ (Err.name err = "TokenExpiredError" ->
        r = fail 401 "Your token has expired. Please log in again.")
    /\ (Err.name err = "SequelizeDatabaseError" ->
        r = fail 500 "Database error occurred")
    /\ (Err.name err = "SequelizeValidationError" ->
        match Err.errors err with
        | Some es =>
            r = fail 400 (or_else (Some (String.concat ", "
                                           (map Err.text es)))
                                  "Internal server error")
        | None => r = fail 500 "Internal server error"
        end)
    /\ (Err.name err = "SequelizeUniqueConstraintError" ->
        match Err.errors err with
        | Some (e :: _) =>
            r = fail 409 (match Err.path e with
                          | Some p => p
                          | None => "null"
                          end ++ " already exists")%string
        | _ => r = fail 500 "Internal server error"
        end)
    /\ (~ In (Err.name err)
           [ "SequelizeUniqueConstraintError"; "SequelizeValidationError";
             "SequelizeDatabaseError"; "JsonWebTokenError";
             "TokenExpiredError"; "SequelizeConnectionError";
             "SequelizeConnectionRefusedError"; "SequelizeHostNotFoundError";
             "SequelizeHostNotReachableError" ] ->
        let code := match Err.statusCode err with
                    | Some z => if z =? 0 then 500 else z
                    | None => 500
                    end in
        r = if (100 <=? code) && (code <=? 999)
            then fail code (or_else (Err.message err) "Internal server error")
            else fail 500 "Internal server error").
Proof.
  intros err r. subst r.
  split; [|split].
  - destruct (errorMiddleware_shape err) as [-> | (c & m & _ & ->)].
    + eexists; split; [reflexivity | discriminate].
    + eexists; split; [reflexivity|].
      now apply or_else_default_nonempty.
  - destruct (errorMiddleware_shape err) as [-> | (c & m & Hc & ->)].
    + simpl. lia.
    + exact Hc.
  - destruct err as [name msg sc errs]. cbn [Err.name Err.errors
      Err.statusCode Err.message].
    repeat split.
    + intros Hin. simpl in Hin.
      destruct Hin as [<-|[<-|[<-|[<-|[]]]]]; reflexivity.
    + intros ->. reflexivity.
    + intros ->. reflexivity.
    + intros ->. reflexivity.
    + intros ->. destruct errs as [es|]; [|reflexivity].
      unfold errorMiddleware, error_of. cbn -[or_else String.concat].
      reflexivity.
    + intros ->. destruct errs as [[|e es]|]; try reflexivity.
      unfold errorMiddleware, error_of. cbn -[or_else append].
      unfold or_else, truthy.
      destruct (Err.path e) as [p|].
      * destruct p; reflexivity.
      * reflexivity.
    + intros Hn. simpl in Hn.
      set (code := match sc with
                   | Some z => if z =? 0 then 500 else z
                   | None => 500
                   end).
      unfold errorMiddleware, error_of.
      cbn [Err.name Err.errors Err.statusCode Err.message].
      repeat match goal with
             | |- context [String.eqb name ?s] =>
                 let E := fresh "E" in
                 destruct (String.eqb_spec name s) as [E|E];
                 [exfalso; apply Hn; rewrite E; tauto|]
             end.
      cbn [orb].
      assert (Ec : code_or (Some (code_or sc 500)) 500 = code).
      { unfold code_or, code. destruct sc as [z|]; [|reflexivity].
        destruct (z =? 0) eqn:Ez; [reflexivity|]. now rewrite Ez. }
      assert (Em : or_else (Some (or_else msg "Internal server error"))
                           "Internal server error"
                   = or_else msg "Internal server error").
      { unfold or_else, truthy. destruct msg as [s|]; [|reflexivity].
        destruct (String.eqb s "") eqn:Es; simpl; [reflexivity|].
        now rewrite Es. }
      rewrite Ec, Em.
      destruct (Z.ltb_spec code 100); destruct (Z.ltb_spec 999 code);
        destruct (Z.leb_spec 100 code); destruct (Z.leb_spec code 999);
        try lia; reflexivity.
Qed.

(** X26: the 404 the handlers throw passes through unchanged, a token
    error keeps its 401 even with another status attached, and an
    error with status 42 is answered 500. *)
Lemma errorMiddleware_answers_witness :
  errorMiddleware (Err.mk "Error" (Some "User not found") (Some 404) None)
  = fail 404 "User not found"
  /\ errorMiddleware (Err.mk "TokenExpiredError" (Some "jwt expired")
                             (Some 418) None)
     = fail 401 "Your token has expired. Please log in again."
  /\ errorMiddleware (Err.mk "Error" (Some "odd") (Some 42) None)
     = fail 500 "Internal server error".
Proof.
  split; [|split].
  - apply (proj2 (proj2 (proj2 (proj2 (proj2 (proj2 (proj2 (proj2
             (errorMiddleware_answers
                (Err.mk "Error" (Some "User not found") (Some 404)
                        None)))))))))).
    simpl. intuition discriminate.
  - apply (proj1 (proj2 (proj2 (proj2 (proj2
             (errorMiddleware_answers
                (Err.mk "TokenExpiredError" (Some "jwt expired") (Some 418)
                        None))))))).
    reflexivity.
  - apply (proj2 (proj2 (proj2 (proj2 (proj2 (proj2 (proj2 (proj2
             (errorMiddleware_answers
                (Err.mk "Error" (Some "odd") (Some 42) None)))))))))).
    simpl. intuition discriminate.
Defined.


(** ** The upload step of the profile route *)

Lemma handleMulterError_some e :
  exists msg, handleMulterError (Some e) = Some (fail 400 msg) /\ msg <> "".
Proof.
  destruct e as [code message | message]; simpl.
  - destruct (String.eqb code "LIMIT_FILE_SIZE");
      [eexists; split; [reflexivity | vm_compute; discriminate]|].
    destruct (String.eqb code "LIMIT_UNEXPECTED_FILE");
      eexists; (split; [reflexivity | discriminate]).
  - eexists. split; [reflexivity|].
    now apply or_else_default_nonempty.
Qed.

(** X27. The profile route with its upload step.  A request that
    [authorize] turns away gets that answer whatever it uploads.  For
    an authenticated request a failed upload is answered 400 with a
    message that is not empty and [updateProfile] does not run, so the
    state is unchanged; without a failure the answer is that of
    [updateProfile] with the stored path, if any.  [fileFilter] accepts
    exactly the four image types; its refusal reaches the client as
    400 with the list of the four, and a file over the size limit as
    400 naming 2MB. *)
Theorem put_profile_me_upload_outcomes :
  forall bcrypt_hash joi_email env salt now auth u b st,
    let r := put_profile_me_upload bcrypt_hash joi_email env salt now auth
                                   u b st in
    match authorize env now auth st with
    | inl resp => r = (resp, st)
    | inr user =>
        match u with
        | Failed e =>
            snd r = st /\ status (fst r) = 400
            /\ (exists msg, body (fst r) = Message false msg /\ msg <> "")
            /\ (forall mimetype, fileFilter mimetype = inl e ->
                fst r = fail 400 "Only image/jpeg, image/png, image/gif, image/webp files are allowed")
            /\ (forall m, e = MulterError "LIMIT_FILE_SIZE" m ->
                fst r = fail 400 "File size too large. Maximum size is 2MB.")
        | _ =>
            r = updateProfile bcrypt_hash joi_email salt (User.id user) b
                              (upload_file u) st
        end
    end
    /\ (forall mimetype,
           fileFilter mimetype = inr true
           <-> In mimetype ["image/jpeg"; "image/png"; "image/gif";
                            "image/webp"]).
Proof.
  intros h em env salt now auth u b st r. subst r.
  unfold put_profile_me_upload, guarded. split.
  - destruct (authorize env now auth st) as [resp|user]; [reflexivity|].
    destruct u as [|p|e]; [reflexivity | reflexivity|].
    cbn [upload_error].
    destruct (handleMulterError_some e) as (msg & Hmsg & Hne).
    split; [now rewrite Hmsg|]. split; [now rewrite Hmsg|].
    split; [rewrite Hmsg; now exists msg|]. split.
    + intros mimetype Hf. unfold fileFilter in Hf.
      destruct (existsb _ _); [discriminate|].
      injection Hf as <-. reflexivity.
    + intros m ->. reflexivity.
  - intros mimetype. unfold fileFilter, ALLOWED_FILE_TYPES.
    destruct (existsb (String.eqb mimetype) _) eqn:E.
    + split; [intros _ | reflexivity].
      apply existsb_exists in E as (x & Hx & Ex).
      apply String.eqb_eq in Ex. now subst.
    + split; [discriminate|]. intros Hin. exfalso.
      assert (existsb (String.eqb mimetype)
                      ["image/jpeg"; "image/png"; "image/gif"; "image/webp"]
              = true).
      { apply existsb_exists. exists mimetype.
        split; [exact Hin | apply String.eqb_refl]. }
      congruence.
Qed.

(** X27, on the sample store: Ann uploads a PDF. *)
Lemma put_profile_me_upload_outcomes_witness :
  exists e,
    fileFilter "application/pdf" = inl e
    /\ put_profile_me_upload Demo.hash Demo.is_email Demo.env "salt" 6000
         (Bearer Demo.ann_access) (Failed e)
         (mkProfile (Some "Ann B. Lee") None None None []) Demo.store
       = (fail 400 "Only image/jpeg, image/png, image/gif, image/webp files are allowed",
          Demo.store).
Proof.
  exists (OtherError
            (Some "Only image/jpeg, image/png, image/gif, image/webp files are allowed")).
  split; [reflexivity|].
  pose proof (proj1 (put_profile_me_upload_outcomes
                       Demo.hash Demo.is_email Demo.env "salt" 6000
                       (Bearer Demo.ann_access)
                       (Failed (OtherError
                                  (Some "Only image/jpeg, image/png, image/gif, image/webp files are allowed")))
                       (mkProfile (Some "Ann B. Lee") None None None [])
                       Demo.store)) as H.
  cbv zeta in H.
  change (authorize Demo.env 6000 (Bearer Demo.ann_access) Demo.store)
    with (@inr Response User.t Demo.ann) in H.
  cbv iota beta in H.
  destruct H as (Hst & _ & _ & Hmsg & _).
  rewrite (surjective_pairing (put_profile_me_upload _ _ _ _ _ _ _ _ _)).
  rewrite Hst, (Hmsg "application/pdf" eq_refl). reflexivity.
Defined.

(** ** Migrations *)

Lemma existsb_eqb_In c l : existsb (String.eqb c) l = true <-> In c l.
Proof.
  rewrite existsb_exists. split.
  - intros (x & Hx & E). apply String.eqb_eq in E. now subst.
  - intros H. exists c. split; [exact H | apply String.eqb_refl].
Qed.

Lemma fold_add_if_missing cols names :
  forall acc,
    NoDup names -> (forall c, In c names -> ~ In c acc) ->
    fold_left (fun r c => add_if_missing cols c r) names (Some (cols ++ acc))
    = Some (cols ++ acc
              ++ filter (fun c => negb (existsb (String.eqb c) cols)) names).
Proof.
  induction names as [|c names IH]; intros acc Hnd Hdis.
  - simpl. now rewrite app_nil_r.
  - inversion_clear Hnd as [|? ? Hc Hnd'].
    cbn [fold_left filter]. unfold add_if_missing at 2, add_column.
    destruct (existsb (String.eqb c) cols) eqn:E; cbn [negb].
    + apply IH; [exact Hnd'|]. intros c' Hc'. apply Hdis. simpl. auto.
    + assert (Hacc : existsb (String.eqb c) acc = false).
      { destruct (existsb (String.eqb c) acc) eqn:Ea; [|reflexivity].
        apply existsb_eqb_In in Ea. elim (Hdis c); simpl; auto. }
      rewrite existsb_app, E, Hacc. cbn [orb].
      rewrite <- app_assoc. rewrite IH.
      * now rewrite <- app_assoc.
      * exact Hnd'.
      * intros c' Hc' Hin. apply in_app_or in Hin as [Hin|[<-|[]]].
        -- apply (Hdis c'); simpl; auto.
        -- exact (Hc Hc').
Qed.

Lemma migrate_missing cols :
  let missing := fun c => negb (existsb (String.eqb c) cols) in
  let r := Some cols in
  let r := add_if_missing cols "refresh_token" r in
  let r := add_if_missing cols "token_version" r in
  let r := add_if_missing cols "bio" r in
  let r := add_if_missing cols "location" r in
  let r := add_if_missing cols "youtube_links" r in
  let r := add_if_missing cols "profile_picture" r in
  r = Some (cols ++ filter missing
                           [ "refresh_token"; "token_version"; "bio";
                             "location"; "youtube_links";
                             "profile_picture" ]).
Proof.
  cbv zeta.
  pose proof (fold_add_if_missing cols
                [ "refresh_token"; "token_version"; "bio"; "location";
                  "youtube_links"; "profile_picture" ] []) as H.
  rewrite app_nil_r in H. cbn [app] in H.
  rewrite <- H; [reflexivity | | intros c _ []].
  repeat constructor; simpl; intuition discriminate.
Qed.

Lemma migrate_present cols :
  (forall c, In c [ "refresh_token"; "token_version"; "bio"; "location";
                    "youtube_links"; "profile_picture" ] ->
             existsb (String.eqb c) cols = true) ->
  filter (fun c => negb (existsb (String.eqb c) cols))
         [ "refresh_token"; "token_version"; "bio"; "location";
           "youtube_links"; "profile_picture" ] = [].
Proof.
  intros H. cbn [filter].
  rewrite !H by (simpl; tauto). reflexivity.
Qed.

(** X28. [runMigrations] never throws, and running it again changes
    nothing.  In production, or without a [users] table, it leaves the
    schema alone.  Otherwise it keeps the columns there are, in their
    order, and adds after them exactly those of the six profile and
    session columns that were missing, so that all six exist
    afterwards and no column exists twice. *)
Theorem runMigrations_adds_missing_columns :
  forall NODE_ENV db,
    let six := [ "refresh_token"; "token_version"; "bio"; "location";
                 "youtube_links"; "profile_picture" ] in
    exists db',
      runMigrations NODE_ENV db = Some db'
      /\ runMigrations NODE_ENV db' = Some db'
      /\ (NODE_ENV = Some "production" \/ db = None -> db' = db)
      /\ (NODE_ENV <> Some "production" ->
          forall cols,
            db = Some cols ->
            exists added,
              db' = Some (cols ++ added)
              /\ added
                 = filter (fun c => negb (existsb (String.eqb c) cols)) six
              /\ (forall c, In c six -> In c (cols ++ added))
              /\ (NoDup cols -> NoDup (cols ++ added))).
Proof.
  intros env db six.
  destruct (match env with
            | Some e => String.eqb e "production"
            | None => false
            end) eqn:Eprod.
  - exists db. unfold runMigrations. rewrite Eprod.
    split; [reflexivity|]. split; [reflexivity|]. split; [reflexivity|].
    intros Hne. destruct env as [e|]; [|discriminate].
    apply String.eqb_eq in Eprod. now subst.
  - destruct db as [cols|].
    + set (added := filter (fun c => negb (existsb (String.eqb c) cols)) six).
      assert (Hall : forall c, In c six -> In c (cols ++ added)).
      { intros c Hc. apply in_or_app.
        destruct (existsb (String.eqb c) cols) eqn:E.
        - left. now apply existsb_eqb_In.
        - right. apply filter_In. split; [exact Hc | now rewrite E]. }
      assert (R1 : runMigrations env (Some cols)
                   = Some (Some (cols ++ added))).
      { unfold runMigrations. rewrite Eprod.
        pose proof (migrate_missing cols) as H1. cbv zeta in H1.
        now rewrite H1. }
      assert (R2 : runMigrations env (Some (cols ++ added))
                   = Some (Some (cols ++ added))).
      { unfold runMigrations. rewrite Eprod.
        pose proof (migrate_missing (cols ++ added)) as H2.
        cbv zeta in H2. rewrite H2.
        rewrite (migrate_present (cols ++ added))
          by (intros c Hc; apply existsb_eqb_In; now apply Hall).
        now rewrite app_nil_r. }
      exists (Some (cols ++ added)).
      split; [exact R1|]. split; [exact R2|].
      split; [intros [-> | F]; discriminate|].
      intros _ cols' [= <-]. exists added.
      split; [reflexivity|]. split; [reflexivity|]. split; [exact Hall|].
      intros Hnd. apply NoDup_app; [exact Hnd | |].
      * apply NoDup_filter. unfold six.
        repeat constructor; simpl; intuition discriminate.
      * intros a Ha Hin. apply filter_In in Hin as [_ Hm].
        apply existsb_eqb_In in Ha. rewrite Ha in Hm. discriminate.
    + exists None. unfold runMigrations. rewrite Eprod.
      split; [reflexivity|]. split; [reflexivity|]. split; [reflexivity|].
      intros _ cols F. discriminate.
Qed.

(** X28, on a table that has [bio] already. *)
Lemma runMigrations_adds_missing_columns_witness :
  exists db',
    runMigrations (Some "development")
                  (Some ["id"; "name"; "email"; "password"; "bio"])
    = Some db'
    /\ db' = Some [ "id"; "name"; "email"; "password"; "bio";
                    "refresh_token"; "token_version"; "location";
                    "youtube_links"; "profile_picture" ]
    /\ runMigrations (Some "development") db' = Some db'.
Proof.
  destruct (runMigrations_adds_missing_columns
              (Some "development")
              (Some ["id"; "name"; "email"; "password"; "bio"]))
    as (db' & Hrun & Hagain & _ & Hcols).
  exists db'. split; [exact Hrun|]. split; [|exact Hagain].
  assert (Hne : Some "development" <> Some "production") by discriminate.
  destruct (Hcols Hne _ eq_refl) as (added & -> & -> & _).
  reflexivity.
Defined.
